(** * Task coordination protocol of the article assistant

    A shallow embedding of the coordinator (agents/task_manager/main.py), the
    two agent task handlers (agents/article_draft/main.py and
    agents/researcher/main.py), the tool adapter (tools/mcp_tool_adapter.py),
    the tool wrappers (tools/upload_file_tool.py, tools/generate_text_tool.py,
    tools/research_tool.py), two of the tool servers
    (mcp_servers/cloud_storage/main.py, mcp_servers/web_search/main.py)
    and the message models (protocols/messages.py), followed by the
    properties proved about them and by their instances on concrete inputs.

    Conventions.
    - A Python [str] is a Rocq [string]; each character stands for one code
      point below 256.
    - A JSON-like Python value ([Any], the result of [response.json()]) is a
      [json]; a Python [dict] with string keys is an association list, read
      with [dict_get] (first binding of the key).
    - Code that may raise returns an [outcome]; code that reads or writes
      process state threads that state explicitly: the table
      [task_statuses] of the coordinator, the log of POSTs of an agent.
    - What the environment decides is an explicit input: the network (what
      each [requests.post] does), the clock, [uuid.uuid4()], [os.getenv],
      the addresses of config.py, and the language model, which is a plan
      that finishes, fails or asks for a tool.

    The libraries are modelled as far as the code uses them.
    - requests: [post] returns a response or raises a [RequestException];
      [raise_for_status] raises for the status codes 400 to 599.
    - pydantic (2.8 or later): a [str] field takes a string, a
      [Dict[str, Any]] field a dict, an [Optional] field also [None];
      unknown keys are ignored; [model_dump] writes every field. A union
      field is validated in smart mode: a dict input becomes the member
      model that validates with the most fields set (the leftmost one among
      equals), and stays a dict when no member model validates or when the
      best one needed a lax conversion. What lax mode converts to a number
      is left to the runtime.
    - LangChain: the executor runs the model's plan against the tools for at
      most fifteen iterations and lets their exceptions through. *)

From Stdlib Require Import ZArith Ascii String.
From stdpp Require Import gmap strings list fin_maps.

Set Warnings "-register-all,-clear-no-such-hyp".
Local Open Scope string_scope.

(* ===================================================================== *)
(** ** Python values *)
(* ===================================================================== *)

(** A finite float is the dyadic rational [m * 2^e]. *)
Inductive json :=
| JNull
| JBool (b : bool)
| JInt (z : Z)
| JFloat (m e : Z)
| JStr (s : string)
| JArr (xs : list json)
| JObj (kvs : list (string * json)).

(** A dict with string keys. *)
Abbreviation dict := (list (string * json)).

(** [d.get(k)] *)
Fixpoint dict_get (k : string) (d : dict) : option json :=
  match d with
  | [] => None
  | (k', v) :: d' => if String.eqb k k' then Some v else dict_get k d'
  end.

(** [k in d] *)
Definition dict_has (k : string) (d : dict) : bool :=
  match dict_get k d with Some _ => true | None => false end.

(** Python truthiness: [bool(x)]. *)
Definition truthy (x : json) : bool :=
  match x with
  | JNull => false
  | JBool b => b
  | JInt z => negb (z =? 0)%Z
  | JFloat m _ => negb (m =? 0)%Z
  | JStr s => negb (String.eqb s "")
  | JArr xs => match xs with [] => false | _ => true end
  | JObj kvs => match kvs with [] => false | _ => true end
  end.

(** [o or fallback] for an optional dict. *)
Definition dict_or (o : option dict) (fallback : dict) : dict :=
  match o with
  | Some (kv :: d) => kv :: d
  | _ => fallback
  end.

(* ===================================================================== *)
(** ** Python string operations *)
(* ===================================================================== *)

Module PyStr.

(** [str.isspace] on one code point below 256; the class [\s] of [re]. *)
Definition isspace (c : ascii) : bool :=
  let n := N_of_ascii c in
  ((9 <=? n) && (n <=? 13) || (28 <=? n) && (n <=? 32)
   || (n =? 133) || (n =? 160))%N.

Fixpoint lstrip (s : string) : string :=
  match s with
  | String c r => if isspace c then lstrip r else s
  | EmptyString => EmptyString
  end.

(** Drops trailing whitespace: a character is kept when it is not a space
    or something is kept after it. *)
Fixpoint rstrip (s : string) : string :=
  match s with
  | EmptyString => EmptyString
  | String c r =>
      match rstrip r with
      | EmptyString => if isspace c then EmptyString else String c EmptyString
      | r' => String c r'
      end
  end.

(** [s.strip()] *)
Definition strip (s : string) : string := rstrip (lstrip s).

(** [s.startswith(p)], returning what follows the prefix. *)
Fixpoint strip_prefix (p s : string) : option string :=
  match p, s with
  | EmptyString, _ => Some s
  | String a p', String b s' =>
      if Ascii.eqb a b then strip_prefix p' s' else None
  | String _ _, EmptyString => None
  end.

Definition startswith (s p : string) : bool :=
  match strip_prefix p s with Some _ => true | None => false end.

(** [s.split(sep, 1)]: the text before and after the first occurrence of
    [sep], or [None] when [sep] does not occur. [sep] is not empty. *)
Fixpoint split_once (sep s : string) : option (string * string) :=
  match strip_prefix sep s with
  | Some after => Some (EmptyString, after)
  | None =>
      match s with
      | EmptyString => None
      | String c r =>
          match split_once sep r with
          | Some (before, after) => Some (String c before, after)
          | None => None
          end
      end
  end.

(** [s.rsplit(sep, 1)]: the text before and after the last occurrence. *)
Fixpoint rsplit_once (sep s : string) : option (string * string) :=
  match s with
  | EmptyString =>
      match strip_prefix sep s with
      | Some after => Some (EmptyString, after)
      | None => None
      end
  | String c r =>
      match rsplit_once sep r with
      | Some (before, after) => Some (String c before, after)
      | None =>
          match strip_prefix sep s with
          | Some after => Some (EmptyString, after)
          | None => None
          end
      end
  end.

(** [s.endswith(p)] *)
Definition endswith (s p : string) : bool :=
  match rsplit_once p s with
  | Some (_, EmptyString) => true
  | _ => false
  end.

(** [sep.join(parts)] *)
Fixpoint join (sep : string) (parts : list string) : string :=
  match parts with
  | [] => EmptyString
  | [p] => p
  | p :: rest => p +:+ sep +:+ join sep rest
  end.

(** The longest prefix without whitespace: [[^\s]*]. *)
Fixpoint take_nonspace (s : string) : string :=
  match s with
  | EmptyString => EmptyString
  | String c r => if isspace c then EmptyString else String c (take_nonspace r)
  end.

(** A match of [https?://[^\s]+] anchored at the start of [s]. *)
Definition url_at (s : string) : option string :=
  let body scheme rest :=
    match take_nonspace rest with
    | EmptyString => None
    | b => Some (scheme +:+ b)
    end in
  match strip_prefix "https://" s with
  | Some rest => body "https://" rest
  | None =>
      match strip_prefix "http://" s with
      | Some rest => body "http://" rest
      | None => None
      end
  end.

(** [re.search(r'https?://[^\s]+', s)]: the leftmost match, [group(0)]. *)
Fixpoint search_url (s : string) : option string :=
  match url_at s with
  | Some u => Some u
  | None =>
      match s with
      | EmptyString => None
      | String _ r => search_url r
      end
  end.

(** [s.split(sep)[0]] *)
Definition before_first (sep s : string) : string :=
  match split_once sep s with
  | Some (before, _) => before
  | None => s
  end.

End PyStr.

(* ===================================================================== *)
(** ** Exceptions and outcomes *)
(* ===================================================================== *)

(** The subclasses of [requests.exceptions.RequestException] the code can
    tell apart. *)
Inductive request_error :=
| ReqConnectionError
| ReqTimeout
| ReqHTTPError
| ReqJSONDecodeError
| ReqOther.

(** The exceptions (all subclasses of [Exception]) raised in the code. *)
Inductive exn :=
| ValidationError (model field : string)
| ValueError (msg : string)
| TypeError (msg : string)
| AttributeError (msg : string)
| RequestException (kind : request_error) (msg : string)
| HTTPException (status_code : Z) (detail : string)
| RuntimeError (msg : string).

Inductive outcome (A : Type) :=
| Return (a : A)
| Raise (e : exn).
Arguments Return {A} a.
Arguments Raise {A} e.

Definition bind_outcome {A B} (x : outcome A) (f : A → outcome B) : outcome B :=
  match x with
  | Return a => f a
  | Raise e => Raise e
  end.

Notation "'let?' x ':=' e 'in' k" := (bind_outcome e (fun x => k))
  (at level 10, x pattern, e at level 100, k at level 200).

(** What one [requests.post] call does: it returns a response (status code
    and body, [None] when the body is not JSON) or raises. After
    [ReadTimeout] the request has reached the server but no answer came in
    time; after the other failures it has not. *)
Inductive http_outcome :=
| Response (status_code : Z) (body : option json)
| ConnectionError (msg : string)
| ConnectTimeout (msg : string)
| ReadTimeout (msg : string)
| OtherRequestError (msg : string).

(** [response.raise_for_status()] raises [HTTPError] for the client and
    server error codes, 400 to 599, and for no other code. *)
Definition is_error_status (code : Z) : bool :=
  ((400 <=? code) && (code <? 600))%Z.

(** [requests.post(...)] followed by [response.raise_for_status()]. *)
Definition post_checked (o : http_outcome) : outcome (option json) :=
  match o with
  | Response code body =>
      if is_error_status code
      then Raise (RequestException ReqHTTPError "HTTPError")
      else Return body
  | ConnectionError m => Raise (RequestException ReqConnectionError m)
  | ConnectTimeout m => Raise (RequestException ReqTimeout m)
  | ReadTimeout m => Raise (RequestException ReqTimeout m)
  | OtherRequestError m => Raise (RequestException ReqOther m)
  end.

(** Did the request reach the server? *)
Definition delivered (o : http_outcome) : bool :=
  match o with
  | Response _ _ | ReadTimeout _ => true
  | _ => false
  end.

(** What the Python runtime and the libraries decide: [str(x)], [str(e)],
    [datetime.isoformat], whether the installed requests makes its
    [JSONDecodeError] a [RequestException] (it does from 2.27 on; before,
    [response.json()] raised a plain [ValueError]), and the numeric
    conversions of pydantic: [float(z)] for an int given to a float field
    (none when it overflows), and what lax mode makes of a value that is
    not a number of the field's kind (a bool, a numeric string, a float
    without fraction for an int field). *)
Record runtime := {
  py_str : json → string;
  exn_str : exn → string;
  isoformat : Z → string;
  json_error_is_request_exception : bool;
  float_of_int : Z → option (Z * Z);
  lax_int : json → option Z;
  lax_float : json → option (Z * Z);
}.

(** The addresses of config.py. *)
Record config := {
  RESEARCHER_AGENT_URL : string;
  ARTICLE_DRAFT_AGENT_URL : string;
  TASK_MANAGER_RESULT_URL : string;
  CLOUD_STORAGE_MCP_URL : string;
  CREATIVE_LLM_MCP_URL : string;
  WEB_SEARCH_MCP_URL : string;
}.

(** An f-string placeholder [{x}]. *)
Definition format (rt : runtime) (x : json) : string :=
  match x with
  | JStr s => s
  | _ => py_str rt x
  end.

(* ===================================================================== *)
(** ** protocols/messages.py *)
(* ===================================================================== *)

Record A2APayloadAssignTask := {
  task_type : string;
  parameters : dict;
}.

Record A2APayloadTaskStatusUpdate := {
  su_status : string;
  su_progress : option Z;
  su_message : option string;
}.

Record A2APayloadTaskResult := {
  tr_status : string;
  tr_result : option dict;
  tr_error : option dict;
  tr_question : option string;
}.

(** The union type of [A2AMessage.payload]. *)
Inductive payload :=
| PAssign (a : A2APayloadAssignTask)
| PStatus (u : A2APayloadTaskStatusUpdate)
| PResult (r : A2APayloadTaskResult)
| PDict (d : dict).

Record A2AMessage := {
  task_id : string;
  message_id : string;
  sender_agent_id : string;
  receiver_agent_id : string;
  message_type : string;
  timestamp : Z;
  a2a_payload : payload;
  context : dict;
}.

Record CreativeLLMGenerateParameters := {
  gen_prompt : string;
  gen_model : option string;
  gen_max_tokens : option Z;
  gen_temperature : option (Z * Z);
}.

Record CloudStorageUploadParameters := {
  up_bucket_name : string;
  up_destination_blob_name : string;
  up_source_file_content : string;
}.

Record CloudStorageDownloadParameters := {
  down_bucket_name : string;
  down_source_blob_name : string;
}.

Record CloudStorageDeleteParameters := {
  del_bucket_name : string;
  del_blob_name : string;
}.

(** The union type of [MCPToolCall.parameters]. *)
Inductive tool_parameters :=
| ParamsGenerate (g : CreativeLLMGenerateParameters)
| ParamsUpload (u : CloudStorageUploadParameters)
| ParamsDownload (d : CloudStorageDownloadParameters)
| ParamsDelete (d : CloudStorageDeleteParameters)
| ParamsDict (d : dict).

Record MCPToolCall := {
  tool_name : string;
  tc_task_id : option string;
  tc_parameters : tool_parameters;
}.

Record MCPToolResult := {
  mr_status : string;
  mr_result : option dict;
  mr_error : option dict;
}.

Definition opt_json {A} (f : A → json) (o : option A) : json :=
  match o with Some a => f a | None => JNull end.

(** [model_dump()] of the payload models: every field is written, an
    unset optional field as [None]. *)
Definition dump_assign (a : A2APayloadAssignTask) : dict :=
  [("task_type", JStr (task_type a)); ("parameters", JObj (parameters a))].

Definition dump_status_update (u : A2APayloadTaskStatusUpdate) : dict :=
  [("status", JStr (su_status u));
   ("progress", opt_json JInt (su_progress u));
   ("message", opt_json JStr (su_message u))].

Definition dump_task_result (r : A2APayloadTaskResult) : dict :=
  [("status", JStr (tr_status r));
   ("result", opt_json JObj (tr_result r));
   ("error", opt_json JObj (tr_error r));
   ("question", opt_json JStr (tr_question r))].

Definition dump_payload (p : payload) : dict :=
  match p with
  | PAssign a => dump_assign a
  | PStatus u => dump_status_update u
  | PResult r => dump_task_result r
  | PDict d => d
  end.

(** [message.model_dump(mode='json')] *)
Definition dump_message (rt : runtime) (m : A2AMessage) : json :=
  JObj [("task_id", JStr (task_id m));
        ("message_id", JStr (message_id m));
        ("sender_agent_id", JStr (sender_agent_id m));
        ("receiver_agent_id", JStr (receiver_agent_id m));
        ("message_type", JStr (message_type m));
        ("timestamp", JStr (isoformat rt (timestamp m)));
        ("payload", JObj (dump_payload (a2a_payload m)));
        ("context", JObj (context m))].

Definition JFloat' (f : Z * Z) : json := JFloat (fst f) (snd f).

Definition dump_tool_parameters (p : tool_parameters) : dict :=
  match p with
  | ParamsGenerate g =>
      [("prompt", JStr (gen_prompt g));
       ("model", opt_json JStr (gen_model g));
       ("max_tokens", opt_json JInt (gen_max_tokens g));
       ("temperature", opt_json JFloat' (gen_temperature g))]
  | ParamsUpload u =>
      [("bucket_name", JStr (up_bucket_name u));
       ("destination_blob_name", JStr (up_destination_blob_name u));
       ("source_file_content", JStr (up_source_file_content u))]
  | ParamsDownload d =>
      [("bucket_name", JStr (down_bucket_name d));
       ("source_blob_name", JStr (down_source_blob_name d))]
  | ParamsDelete d =>
      [("bucket_name", JStr (del_bucket_name d));
       ("blob_name", JStr (del_blob_name d))]
  | ParamsDict d => d
  end.

(** [tool_call.model_dump(mode='json')] *)
Definition dump_tool_call (c : MCPToolCall) : json :=
  JObj [("tool_name", JStr (tool_name c));
        ("task_id", opt_json JStr (tc_task_id c));
        ("parameters", JObj (dump_tool_parameters (tc_parameters c)))].

Definition dump_tool_result (r : MCPToolResult) : dict :=
  [("status", JStr (mr_status r));
   ("result", opt_json JObj (mr_result r));
   ("error", opt_json JObj (mr_error r))].

(** Field validators of pydantic (lax mode): a [str] field takes a string
    only, a [Dict[str, Any]] field a dict only; an [Optional] field also
    takes [None] and defaults to it. *)
Definition required_str (model field : string) (d : dict) : outcome string :=
  match dict_get field d with
  | Some (JStr s) => Return s
  | _ => Raise (ValidationError model field)
  end.

Definition optional_str (model field : string) (d : dict)
  : outcome (option string) :=
  match dict_get field d with
  | None | Some JNull => Return None
  | Some (JStr s) => Return (Some s)
  | Some _ => Raise (ValidationError model field)
  end.

Definition optional_dict (model field : string) (d : dict)
  : outcome (option dict) :=
  match dict_get field d with
  | None | Some JNull => Return None
  | Some (JObj o) => Return (Some o)
  | Some _ => Raise (ValidationError model field)
  end.

Definition default_dict (model field : string) (d : dict) : outcome dict :=
  match dict_get field d with
  | None => Return []
  | Some (JObj o) => Return o
  | Some _ => Raise (ValidationError model field)
  end.

(** An [Optional[int]] and an [Optional[float]] field, with the default
    taken when the key is missing. The flag tells that the value was
    converted in lax mode; an int given to a float field is converted in
    strict mode already. *)
Definition optional_int (rt : runtime) (model field : string)
    (missing : option Z) (d : dict) : outcome (option Z * bool) :=
  match dict_get field d with
  | None => Return (missing, false)
  | Some JNull => Return (None, false)
  | Some (JInt z) => Return (Some z, false)
  | Some v =>
      match lax_int rt v with
      | Some z => Return (Some z, true)
      | None => Raise (ValidationError model field)
      end
  end.

Definition optional_float (rt : runtime) (model field : string)
    (missing : option (Z * Z)) (d : dict) : outcome (option (Z * Z) * bool) :=
  match dict_get field d with
  | None => Return (missing, false)
  | Some JNull => Return (None, false)
  | Some (JFloat m e) => Return (Some (m, e), false)
  | Some (JInt z) =>
      match float_of_int rt z with
      | Some f => Return (Some f, false)
      | None => Raise (ValidationError model field)
      end
  | Some v =>
      match lax_float rt v with
      | Some f => Return (Some f, true)
      | None => Raise (ValidationError model field)
      end
  end.

(** [A2APayloadAssignTask.model_validate(d)] *)
Definition validate_assign (d : dict) : outcome A2APayloadAssignTask :=
  let? t := required_str "A2APayloadAssignTask" "task_type" d in
  let? p := default_dict "A2APayloadAssignTask" "parameters" d in
  Return {| task_type := t; parameters := p |}.

(** [A2APayloadTaskStatusUpdate.model_validate(d)], with the flag of
    [progress]. *)
Definition validate_status_update (rt : runtime) (d : dict)
  : outcome (A2APayloadTaskStatusUpdate * bool) :=
  let? s := required_str "A2APayloadTaskStatusUpdate" "status" d in
  let? p := optional_int rt "A2APayloadTaskStatusUpdate" "progress" None d in
  let? m := optional_str "A2APayloadTaskStatusUpdate" "message" d in
  Return ({| su_status := s; su_progress := fst p; su_message := m |}, snd p).

(** [A2APayloadTaskResult.model_validate(d)] *)
Definition validate_task_result (d : dict) : outcome A2APayloadTaskResult :=
  let? s := required_str "A2APayloadTaskResult" "status" d in
  let? r := optional_dict "A2APayloadTaskResult" "result" d in
  let? e := optional_dict "A2APayloadTaskResult" "error" d in
  let? q := optional_str "A2APayloadTaskResult" "question" d in
  Return {| tr_status := s; tr_result := r; tr_error := e; tr_question := q |}.

(** The constructor [MCPToolResult] applied to the keys of a dict. *)
Definition validate_tool_result (d : dict) : outcome MCPToolResult :=
  let? s := required_str "MCPToolResult" "status" d in
  let? r := optional_dict "MCPToolResult" "result" d in
  let? e := optional_dict "MCPToolResult" "error" d in
  Return {| mr_status := s; mr_result := r; mr_error := e |}.

(** The float [0.7], the default of [temperature]. *)
Definition default_temperature : Z * Z := (3152519739159347, -52)%Z.

(** [CreativeLLMGenerateParameters.model_validate(d)], with the flag of
    [max_tokens] and [temperature]. *)
Definition validate_generate (rt : runtime) (d : dict)
  : outcome (CreativeLLMGenerateParameters * bool) :=
  let? p := required_str "CreativeLLMGenerateParameters" "prompt" d in
  let? m := optional_str "CreativeLLMGenerateParameters" "model" d in
  let? n := optional_int rt "CreativeLLMGenerateParameters" "max_tokens"
              (Some 5000%Z) d in
  let? t := optional_float rt "CreativeLLMGenerateParameters" "temperature"
              (Some default_temperature) d in
  Return ({| gen_prompt := p; gen_model := m; gen_max_tokens := fst n;
             gen_temperature := fst t |}, snd n || snd t).

(** [CloudStorageUploadParameters.model_validate(d)] and the like, on a
    dict. *)
Definition validate_upload_dict (d : dict)
  : outcome CloudStorageUploadParameters :=
  let? b := required_str "CloudStorageUploadParameters" "bucket_name" d in
  let? n := required_str "CloudStorageUploadParameters" "destination_blob_name" d in
  let? c := required_str "CloudStorageUploadParameters" "source_file_content" d in
  Return {| up_bucket_name := b; up_destination_blob_name := n;
            up_source_file_content := c |}.

Definition validate_download_dict (d : dict)
  : outcome CloudStorageDownloadParameters :=
  let? b := required_str "CloudStorageDownloadParameters" "bucket_name" d in
  let? n := required_str "CloudStorageDownloadParameters" "source_blob_name" d in
  Return {| down_bucket_name := b; down_source_blob_name := n |}.

Definition validate_delete_dict (d : dict)
  : outcome CloudStorageDeleteParameters :=
  let? b := required_str "CloudStorageDeleteParameters" "bucket_name" d in
  let? n := required_str "CloudStorageDeleteParameters" "blob_name" d in
  Return {| del_bucket_name := b; del_blob_name := n |}.

(** *** Union fields

    In smart mode pydantic validates the input against every member of
    the union, from left to right, and keeps the best match: of two
    models, the one with more fields set, and of two with as many fields
    set, the one that needed no lax conversion; the earlier one stays when
    they are equal in both. Building a model from a dict is never an exact
    match, and neither is [Dict[str, Any]] on a dict that holds a value:
    the dict replaces the best model only when that one needed a lax
    conversion. *)
Record candidate (A : Type) := {
  chosen : A;
  lax : bool;
  fields_set_count : nat;
}.
Arguments chosen {A} _.
Arguments lax {A} _.
Arguments fields_set_count {A} _.

(** The declared fields that occur as keys of the input. *)
Definition fields_in (fields : list string) (d : dict) : list string :=
  filter (λ k, dict_has k d = true) fields.

(** A member model of a union on the input [d]: [validated] is what its
    validation gives. *)
Definition member {A B} (inj : A → B) (fields : list string) (d : dict)
    (validated : outcome (A * bool)) : option (candidate B) :=
  match validated with
  | Return (a, l) =>
      Some {| chosen := inj a; lax := l;
              fields_set_count := length (fields_in fields d) |}
  | Raise _ => None
  end.

(** The model that needs no conversion, as a member. *)
Definition strictly {A} (validated : outcome A) : outcome (A * bool) :=
  let? a := validated in Return (a, false).

(** Is [new] a better match than the best so far? *)
Definition better {A} (cur new : candidate A) : bool :=
  if Nat.eqb (fields_set_count cur) (fields_set_count new)
  then lax cur && negb (lax new)
  else Nat.ltb (fields_set_count cur) (fields_set_count new).

Definition best_match {A} (members : list (option (candidate A)))
  : option (candidate A) :=
  foldl (λ best m,
           match best, m with
           | None, _ => m
           | Some cur, Some new => if better cur new then Some new else Some cur
           | Some cur, None => Some cur
           end) None members.

(** The union of the member models and [Dict[str, Any]] on a dict. *)
Definition smart_union {A} (members : list (option (candidate A)))
    (as_dict : A) : A :=
  match best_match members with
  | Some c => if lax c then as_dict else chosen c
  | None => as_dict
  end.

(** [A2AMessage.payload] given the dict [d]. *)
Definition union_payload (rt : runtime) (d : dict) : payload :=
  smart_union
    [member PAssign ["task_type"; "parameters"] d (strictly (validate_assign d));
     member PStatus ["status"; "progress"; "message"] d
       (validate_status_update rt d);
     member PResult ["status"; "result"; "error"; "question"] d
       (strictly (validate_task_result d))]
    (PDict d).

(** [MCPToolCall.parameters] given the dict [d]. *)
Definition union_parameters (rt : runtime) (d : dict) : tool_parameters :=
  smart_union
    [member ParamsGenerate ["prompt"; "model"; "max_tokens"; "temperature"] d
       (validate_generate rt d);
     member ParamsUpload
       ["bucket_name"; "destination_blob_name"; "source_file_content"] d
       (strictly (validate_upload_dict d));
     member ParamsDownload ["bucket_name"; "source_blob_name"] d
       (strictly (validate_download_dict d));
     member ParamsDelete ["bucket_name"; "blob_name"] d
       (strictly (validate_delete_dict d))]
    (ParamsDict d).

(** The values a union field of an instance can hold, since every
    instance is built by validation: a member model, or a dict that the
    union leaves a dict. *)
Definition payload_validated (rt : runtime) (p : payload) : Prop :=
  match p with
  | PDict d => union_payload rt d = PDict d
  | _ => True
  end.

Definition parameters_validated (rt : runtime) (p : tool_parameters) : Prop :=
  match p with
  | ParamsDict d => union_parameters rt d = ParamsDict d
  | _ => True
  end.

(** *** Decoding

    A model instance remembers which fields were given when it was built
    ([model_fields_set]); the others hold their defaults. *)
Record instance (A : Type) := {
  value : A;
  model_fields_set : gset string;
}.
Arguments value {A} _.
Arguments model_fields_set {A} _.

(** [model_fields_set] of an instance built from [d]. *)
Definition fields_given (fields : list string) (d : dict) : gset string :=
  list_to_set (fields_in fields d).

(** [MCPToolResult.model_validate(j)] *)
Definition decode_tool_result (j : json) : outcome (instance MCPToolResult) :=
  match j with
  | JObj d =>
      let? r := validate_tool_result d in
      Return {| value := r;
                model_fields_set :=
                  fields_given ["status"; "result"; "error"] d |}
  | _ => Raise (ValidationError "MCPToolResult" "")
  end.

(** A union field of a model: it defaults to the empty dict, which is not
    validated, and takes nothing but a dict, since no instance of a member
    model comes out of JSON. *)
Definition union_field {A} (model field : string) (as_dict : dict → A)
    (union : dict → A) (d : dict) : outcome A :=
  match dict_get field d with
  | None => Return (as_dict [])
  | Some (JObj o) => Return (union o)
  | Some _ => Raise (ValidationError model field)
  end.

(** [MCPToolCall.model_validate(j)] *)
Definition decode_tool_call (rt : runtime) (j : json)
  : outcome (instance MCPToolCall) :=
  match j with
  | JObj d =>
      let? n := required_str "MCPToolCall" "tool_name" d in
      let? t := optional_str "MCPToolCall" "task_id" d in
      let? p := union_field "MCPToolCall" "parameters" ParamsDict
                  (union_parameters rt) d in
      Return {| value := {| tool_name := n; tc_task_id := t;
                            tc_parameters := p |};
                model_fields_set :=
                  fields_given ["tool_name"; "task_id"; "parameters"] d |}
  | _ => Raise (ValidationError "MCPToolCall" "")
  end.

Definition message_fields : list string :=
  ["task_id"; "message_id"; "sender_agent_id"; "receiver_agent_id";
   "message_type"; "timestamp"; "payload"; "context"].

(** [A2AMessage.model_validate(j)]. [parse_datetime] is pydantic's datetime
    validator, [now] the value of [datetime.utcnow()] used when the
    timestamp is missing. *)
Definition decode_message (rt : runtime) (parse_datetime : json → option Z)
    (now : Z) (j : json) : outcome (instance A2AMessage) :=
  match j with
  | JObj d =>
      let? tid := required_str "A2AMessage" "task_id" d in
      let? mid := required_str "A2AMessage" "message_id" d in
      let? snd := required_str "A2AMessage" "sender_agent_id" d in
      let? rcv := required_str "A2AMessage" "receiver_agent_id" d in
      let? mty := required_str "A2AMessage" "message_type" d in
      let? ts :=
        match dict_get "timestamp" d with
        | None => Return now
        | Some t =>
            match parse_datetime t with
            | Some z => Return z
            | None => Raise (ValidationError "A2AMessage" "timestamp")
            end
        end in
      let? p := union_field "A2AMessage" "payload" PDict (union_payload rt) d in
      let? c := default_dict "A2AMessage" "context" d in
      Return {| value := {| task_id := tid; message_id := mid;
                            sender_agent_id := snd; receiver_agent_id := rcv;
                            message_type := mty; timestamp := ts;
                            a2a_payload := p; context := c |};
                model_fields_set := fields_given message_fields d |}
  | _ => Raise (ValidationError "A2AMessage" "")
  end.

(* ===================================================================== *)
(** ** tools/mcp_tool_adapter.py *)
(* ===================================================================== *)

(** [response.json()]: the decoded body, or a [JSONDecodeError]. *)
Definition response_json (rt : runtime) (body : option json) : outcome json :=
  match body with
  | Some j => Return j
  | None =>
      if json_error_is_request_exception rt
      then Raise (RequestException ReqJSONDecodeError "JSONDecodeError")
      else Raise (ValueError "JSONDecodeError")
  end.

Definition failure_result (code message : string) : MCPToolResult :=
  {| mr_status := "failure";
     mr_result := None;
     mr_error := Some [("code", JStr code); ("message", JStr message)] |}.

(** The body of the [try] block of [call_mcp_tool]. *)
Definition call_mcp_tool_try (rt : runtime) (post : string → json → http_outcome)
    (mcp_server_url : string) (tool_call_payload : MCPToolCall)
  : outcome MCPToolResult :=
  let? body := post_checked (post mcp_server_url (dump_tool_call tool_call_payload)) in
  let? j := response_json rt body in
  match j with
  | JObj d => validate_tool_result d
  | _ => Raise (TypeError "argument after ** must be a mapping")
  end.

Definition call_mcp_tool (rt : runtime) (post : string → json → http_outcome)
    (mcp_server_url tool_name : string) (parameters : dict)
    (task_id : option string) : outcome MCPToolResult :=
  let tool_call_payload :=
    {| tool_name := tool_name; tc_task_id := task_id;
       tc_parameters := union_parameters rt parameters |} in
  match call_mcp_tool_try rt post mcp_server_url tool_call_payload with
  | Return mcp_result => Return mcp_result
  | Raise (RequestException k m) =>
      Return (failure_result "MCP_CALL_FAILED"
                (exn_str rt (RequestException k m)))
  | Raise e => Return (failure_result "UNEXPECTED_ERROR" (exn_str rt e))
  end.

(** The tool result a response body holds, when it holds one. *)
Definition decoded_body (body : option json) : option MCPToolResult :=
  match body with
  | Some (JObj d) =>
      match validate_tool_result d with
      | Return r => Some r
      | Raise _ => None
      end
  | _ => None
  end.

(** The failures of the transport as [call_mcp_tool] sees them: the request
    raises, the status is one that [raise_for_status] rejects, or the body
    does not hold a tool result. *)
Definition transport_failed (o : http_outcome) : bool :=
  match o with
  | Response code body =>
      is_error_status code || negb (bool_decide (is_Some (decoded_body body)))
  | _ => true
  end.

Definition is_2xx (code : Z) : bool := ((200 <=? code) && (code <? 300))%Z.

(* ===================================================================== *)
(** ** tools/upload_file_tool.py and tools/generate_text_tool.py *)
(* ===================================================================== *)

(** [mcp_result.error.get('message', fallback)] inside an f-string; [error]
    may be [None], and then the attribute access raises. *)
Definition error_message (rt : runtime) (mcp_result : MCPToolResult)
    (fallback : string) : outcome string :=
  match mr_error mcp_result with
  | None => Raise (AttributeError "'NoneType' object has no attribute 'get'")
  | Some e =>
      Return (format rt (default (JStr fallback) (dict_get "message" e)))
  end.

(** The success test shared by the two tools:
    [status == "success" and result and key in result]. *)
Definition success_value (mcp_result : MCPToolResult) (key : string)
  : option json :=
  if String.eqb (mr_status mcp_result) "success" then
    match mr_result mcp_result with
    | Some (kv :: d) => dict_get key (kv :: d)
    | _ => None
    end
  else None.

Module UploadFileTool.

Definition arun (rt : runtime) (cfg : config)
    (post : string → json → http_outcome)
    (bucket_name destination_blob_name source_file_content : string)
  : outcome json :=
  let? mcp_result :=
    call_mcp_tool rt post (CLOUD_STORAGE_MCP_URL cfg) "upload_file"
      [("bucket_name", JStr bucket_name);
       ("destination_blob_name", JStr destination_blob_name);
       ("source_file_content", JStr source_file_content)]
      None in
  match success_value mcp_result "public_url" with
  | Some public_url => Return public_url
  | None =>
      let? m := error_message rt mcp_result "Unknown upload error" in
      Return (JStr ("Error uploading file: " +:+ m))
  end.

End UploadFileTool.

Module GenerateTextTool.

Definition arun (rt : runtime) (cfg : config)
    (post : string → json → http_outcome)
    (prompt : string) (model : option string) (max_tokens : option Z)
    (temperature : option (Z * Z)) : outcome json :=
  let? mcp_result :=
    call_mcp_tool rt post (CREATIVE_LLM_MCP_URL cfg) "generate_text"
      [("prompt", JStr prompt);
       ("model", opt_json JStr model);
       ("max_tokens", opt_json JInt max_tokens);
       ("temperature", opt_json JFloat' temperature)]
      None in
  match success_value mcp_result "generated_text" with
  | Some generated_text => Return generated_text
  | None =>
      let? m := error_message rt mcp_result "Unknown generation error" in
      Return (JStr ("Error generating text: " +:+ m))
  end.

End GenerateTextTool.

(* ===================================================================== *)
(** ** The agent executor, as the handlers observe it *)
(* ===================================================================== *)

(** A tool invocation decided by the language model, with the arguments
    already checked against the tool's input schema. *)
Inductive tool_call :=
| CallGenerateText (prompt : string) (model : option string)
    (max_tokens : option Z) (temperature : option (Z * Z))
| CallUploadFile (bucket_name destination_blob_name source_file_content : string)
| CallUnknownTool (name : string).

(** The planning loop of the language model: it finishes with its return
    values, fails, or asks for a tool and continues from the observation. *)
Inductive plan :=
| AgentFinish (return_values : dict)
| AgentFails (e : exn)
| AgentAction (c : tool_call) (k : json → plan).

(** What [agent_executor.ainvoke] returns. *)
Record agent_outcome := {
  return_values : dict;
  intermediate_steps : list (tool_call * json);
}.

(** The tools of the article draft agent:
    [tools = [generate_text_tool_instance, upload_file_tool_instance]]. *)
Definition article_tools (rt : runtime) (cfg : config)
    (post : string → json → http_outcome) (c : tool_call) : outcome json :=
  match c with
  | CallGenerateText prompt model max_tokens temperature =>
      GenerateTextTool.arun rt cfg post prompt model max_tokens temperature
  | CallUploadFile bucket_name destination_blob_name source_file_content =>
      UploadFileTool.arun rt cfg post bucket_name destination_blob_name
        source_file_content
  | CallUnknownTool name =>
      Return (JStr (name +:+
        " is not a valid tool, try one of [generate_text, upload_file]."))
  end.

(** The executor asks the model at most [max_iterations] times; a tool's
    exception ends the run, and so does the model's. *)
Fixpoint run_plan (max_iterations : nat) (tools : tool_call → outcome json)
    (p : plan) (steps : list (tool_call * json)) : outcome agent_outcome :=
  match max_iterations with
  | O =>
      Return {| return_values :=
                  [("output",
                    JStr "Agent stopped due to max iterations.")];
                intermediate_steps := steps |}
  | S n =>
      match p with
      | AgentFinish rv =>
          Return {| return_values := rv; intermediate_steps := steps |}
      | AgentFails e => Raise e
      | AgentAction c k =>
          let? observation := tools c in
          run_plan n tools (k observation) (steps ++ [(c, observation)])
      end
  end.

(** [AgentExecutor(agent=agent, tools=tools, ...)] with the default
    [max_iterations=15]. *)
Definition ainvoke (tools : tool_call → outcome json) (p : plan)
  : outcome agent_outcome :=
  run_plan 15 tools p [].

(* ===================================================================== *)
(** ** agents/task_manager/main.py *)
(* ===================================================================== *)

(** One entry of [task_statuses]: the dict
    [{"status": ..., "result": ..., "error": ..., "question": ...}];
    [JNull] is [None]. *)
Record TaskStatusRecord := {
  status : string;
  result : json;
  error : json;
  question : json;
}.

Module TaskManager.

(** [task_statuses: Dict[str, Dict[str, Any]]] *)
Abbreviation table := (gmap string TaskStatusRecord).

Definition processing_record : TaskStatusRecord :=
  {| status := "processing"; result := JNull; error := JNull; question := JNull |}.

Definition unknown_record : TaskStatusRecord :=
  {| status := "unknown"; result := JNull; error := JNull; question := JNull |}.

Definition failed_record (message : string) : TaskStatusRecord :=
  {| status := "failed"; result := JNull;
     error := JObj [("message", JStr message)]; question := JNull |}.

Definition reply (status message_id detail : string) : json :=
  JObj [("status", JStr status); ("message_id", JStr message_id);
        ("detail", JStr detail)].

(** [type(payload_data)] in an f-string. *)
Definition type_name (p : payload) : string :=
  match p with
  | PAssign _ => "<class 'protocols.messages.A2APayloadAssignTask'>"
  | PStatus _ => "<class 'protocols.messages.A2APayloadTaskStatusUpdate'>"
  | PResult _ => "<class 'protocols.messages.A2APayloadTaskResult'>"
  | PDict _ => "<class 'dict'>"
  end.

(** Lines 37-46: the payload as an [A2APayloadTaskResult]. *)
Definition result_payload (payload_data : payload)
  : outcome A2APayloadTaskResult :=
  match payload_data with
  | PDict d => validate_task_result d
  | PResult r => Return r
  | p => Raise (ValueError ("Invalid payload type received: " +:+ type_name p))
  end.

(** Lines 52-77: the record after the update keyed on [payload.status]. *)
Definition apply_result (payload : A2APayloadTaskResult)
    (current_status : TaskStatusRecord) : TaskStatusRecord :=
  if String.eqb (tr_status payload) "completed" then
    {| status := tr_status payload;
       result := JObj (dict_or (tr_result payload) []);
       error := JNull;
       question := JNull |}
  else if String.eqb (tr_status payload) "failed" then
    {| status := tr_status payload;
       result := JNull;
       error := JObj (dict_or (tr_error payload)
                        [("message", JStr "Unknown error from agent.")]);
       question := JNull |}
  else if String.eqb (tr_status payload) "requires_clarification" then
    {| status := tr_status payload;
       result := JNull;
       error := JNull;
       question :=
         match tr_question payload with
         | Some (String c q) => JStr (String c q)
         | _ => JObj [("text",
                       JStr "Clarification needed, no question provided.")]
         end |}
  else
    {| status := "unknown";
       result := result current_status;
       error := JObj [("message",
                       JStr ("Received unknown status: " +:+ tr_status payload))];
       question := question current_status |}.

(** The [try] block of [receive_a2a_result], lines 36-82. *)
Definition receive_a2a_result_try (message : A2AMessage) (task_statuses : table)
  : outcome (json * table) :=
  let? payload := result_payload (a2a_payload message) in
  let current_status :=
    default unknown_record (task_statuses !! task_id message) in
  let current_status := apply_result payload current_status in
  Return (reply "ack" (message_id message) "Result received and processed.",
          <[task_id message := current_status]> task_statuses).

Definition receive_a2a_result (rt : runtime) (message : A2AMessage)
    (task_statuses : table) : outcome json * table :=
  if String.eqb (task_id message) "" then
    (Return (reply "ack_error" (message_id message)
               "Result received but task_id missing."),
     task_statuses)
  else if String.eqb (message_type message) "task_result" then
    match receive_a2a_result_try message task_statuses with
    | Return (ack, task_statuses') => (Return ack, task_statuses')
    | Raise e =>
        (Return (reply "error" (message_id message)
                   ("Internal error processing result payload: " +:+ exn_str rt e)),
         <[task_id message :=
             failed_record ("Internal server error processing result payload: "
                            +:+ exn_str rt e)]> task_statuses)
    end
  else
    (Return (reply "error" (message_id message)
               ("Unexpected message type on result endpoint: "
                +:+ message_type message)),
     task_statuses).

(** [if status_info:] holds for every record: a dict with four keys. *)
Definition get_task_status (task_id : string) (task_statuses : table)
  : outcome TaskStatusRecord :=
  match task_statuses !! task_id with
  | Some status_info => Return status_info
  | None =>
      Raise (HTTPException 404 "Task ID not found or not yet initialized.")
  end.

(** Lines 129-137 and 175-182: the [assign_task] message. [task_id] and
    [message_id] are the two values drawn from [uuid.uuid4()], [now] is
    [datetime.utcnow()]. *)
Definition assign_task_message (rt : runtime) (receiver task_type : string)
    (parameters : dict) (task_id message_id : string) (now : Z) : A2AMessage :=
  let assign_task_payload :=
    {| task_type := task_type; parameters := parameters |} in
  {| task_id := task_id; message_id := message_id;
     sender_agent_id := "task_manager_agent";
     receiver_agent_id := receiver;
     message_type := "assign_task";
     timestamp := now;
     a2a_payload := union_payload rt (dump_assign assign_task_payload);
     context := [] |}.

(** The part the two trigger endpoints share: insert the record, post the
    message with [timeout=5], and tell a timeout from the other failures. *)
Definition trigger (rt : runtime) (post : string → json → http_outcome)
    (url agent_name sent_text : string) (a2a_message : A2AMessage)
    (task_statuses : table) : outcome json * table :=
  let task_id := task_id a2a_message in
  let task_statuses := <[task_id := processing_record]> task_statuses in
  let done :=
    Return (JObj [("status", JStr "processing"); ("task_id", JStr task_id);
                  ("message", JStr sent_text)]) in
  match post_checked (post url (dump_message rt a2a_message)) with
  | Return _ => (done, task_statuses)
  | Raise (RequestException ReqTimeout _) => (done, task_statuses)
  | Raise e =>
      let detail :=
        "Failed to communicate with " +:+ agent_name +:+ ": " +:+ exn_str rt e in
      (Raise (HTTPException 503 detail),
       <[task_id := failed_record detail]> task_statuses)
  end.

Definition research_assignment (rt : runtime)
    (topic task_id message_id : string) (now : Z) : A2AMessage :=
  assign_task_message rt "researcher_agent" "research"
    [("topic", JStr topic); ("language", JStr "Turkish"); ("max_words", JInt 500)]
    task_id message_id now.

Definition trigger_research_task (rt : runtime) (cfg : config)
    (post : string → json → http_outcome) (topic : string)
    (task_id message_id : string) (now : Z) (task_statuses : table)
  : outcome json * table :=
  trigger rt post (RESEARCHER_AGENT_URL cfg) "Researcher Agent"
    "Research task assignment sent."
    (research_assignment rt topic task_id message_id now) task_statuses.

Definition article_assignment (rt : runtime) (topic : string)
    (style : option string) (task_id message_id : string) (now : Z)
  : A2AMessage :=
  let parameters :=
    match style with
    | Some s => [("topic", JStr topic); ("style", JStr s)]
    | None => [("topic", JStr topic)]
    end in
  assign_task_message rt "article_draft_agent" "write_article_draft" parameters
    task_id message_id now.

Definition trigger_article_task (rt : runtime) (cfg : config)
    (post : string → json → http_outcome) (topic : string)
    (style : option string)
    (task_id message_id : string) (now : Z) (task_statuses : table)
  : outcome json * table :=
  trigger rt post (ARTICLE_DRAFT_AGENT_URL cfg) "Article Draft Agent"
    "Article draft task assignment sent."
    (article_assignment rt topic style task_id message_id now) task_statuses.

(** The two kinds of task the coordinator can trigger, to speak of both
    endpoints at once. *)
Inductive task_kind :=
| Research
| Article (style : option string).

Definition trigger_task (rt : runtime) (cfg : config)
    (post : string → json → http_outcome) (kind : task_kind) (topic : string)
    (task_id message_id : string) (now : Z) (task_statuses : table)
  : outcome json * table :=
  match kind with
  | Research =>
      trigger_research_task rt cfg post topic task_id message_id now
        task_statuses
  | Article style =>
      trigger_article_task rt cfg post topic style task_id message_id now
        task_statuses
  end.

(** What became of the POST that carries the assignment. *)
Definition dispatch (rt : runtime) (cfg : config)
    (post : string → json → http_outcome) (kind : task_kind) (topic : string)
    (task_id message_id : string) (now : Z) : http_outcome :=
  match kind with
  | Research =>
      post (RESEARCHER_AGENT_URL cfg)
        (dump_message rt (research_assignment rt topic task_id message_id now))
  | Article style =>
      post (ARTICLE_DRAFT_AGENT_URL cfg)
        (dump_message rt
           (article_assignment rt topic style task_id message_id now))
  end.

Definition timed_out (o : http_outcome) : bool :=
  match o with
  | ConnectTimeout _ | ReadTimeout _ => true
  | _ => false
  end.

(** The agent answered, with a status that [raise_for_status] lets pass. *)
Definition answered (o : http_outcome) : bool :=
  match o with
  | Response code _ => negb (is_error_status code)
  | _ => false
  end.

(** The success reply of a trigger endpoint. *)
Definition processing_reply (kind : task_kind) (task_id : string) : json :=
  JObj [("status", JStr "processing"); ("task_id", JStr task_id);
        ("message",
         JStr match kind with
              | Research => "Research task assignment sent."
              | Article _ => "Article draft task assignment sent."
              end)].

(** The table after the result endpoint has handled the messages in turn. *)
Definition ingest_all (rt : runtime) (task_statuses : table)
    (messages : list A2AMessage) : table :=
  foldl (λ t message, snd (receive_a2a_result rt message t))
    task_statuses messages.

(** The coordinator as a server: the requests it answers, and the table
    after a sequence of them, starting from [task_statuses = {}]. *)
Inductive request :=
| Trigger (kind : task_kind) (topic task_id message_id : string) (now : Z)
| PostResult (message : A2AMessage)
| GetStatus (task_id : string).

Definition serve (rt : runtime) (cfg : config)
    (post : string → json → http_outcome) (task_statuses : table)
    (r : request) : table :=
  match r with
  | Trigger kind topic task_id message_id now =>
      snd (trigger_task rt cfg post kind topic task_id message_id now
             task_statuses)
  | PostResult message => snd (receive_a2a_result rt message task_statuses)
  | GetStatus _ => task_statuses
  end.

Definition serve_all (rt : runtime) (cfg : config)
    (post : string → json → http_outcome) (task_statuses : table)
    (rs : list request) : table :=
  foldl (serve rt cfg post) task_statuses rs.

(** The task ids the trigger endpoints have issued. *)
Definition triggered (rs : list request) : list string :=
  omap (λ r, match r with
             | Trigger _ _ task_id _ _ => Some task_id
             | _ => None
             end) rs.

(** The task ids named by the messages posted to the result endpoint. *)
Definition reported (rs : list request) : list string :=
  omap (λ r, match r with
             | PostResult message => Some (task_id message)
             | _ => None
             end) rs.

End TaskManager.

(* ===================================================================== *)
(** ** The agents' side effects *)
(* ===================================================================== *)

(** What an agent process reads from its surroundings: the network, and the
    n-th value of [uuid.uuid4()] and of [datetime.utcnow()]. *)
Record agent_env := {
  requests_post : string → json → http_outcome;
  uuid4 : nat → string;
  utcnow : nat → Z;
}.

(** One POST to the coordinator's result endpoint: the message and what
    became of the request. *)
Record sent := {
  sent_message : A2AMessage;
  sent_outcome : http_outcome;
}.

(** A handler computation: it may raise, and it extends the log of POSTs
    made to the coordinator. *)
Definition M (A : Type) : Type := list sent → outcome A * list sent.

Definition ret {A} (a : A) : M A := fun log => (Return a, log).
Definition throw {A} (e : exn) : M A := fun log => (Raise e, log).
Definition lift {A} (x : outcome A) : M A := fun log => (x, log).

Definition bind {A B} (m : M A) (f : A → M B) : M B :=
  fun log =>
    match m log with
    | (Return a, log') => f a log'
    | (Raise e, log') => (Raise e, log')
    end.

(** [try: m  except Exception as e: handler e] *)
Definition try_except {A} (m : M A) (handler : exn → M A) : M A :=
  fun log =>
    match m log with
    | (Return a, log') => (Return a, log')
    | (Raise e, log') => handler e log'
    end.

Notation "'do' x '<-' e ';' k" := (bind e (fun x => k))
  (at level 10, x pattern, e at level 100, k at level 200).
Notation "e ';;' k" := (bind e (fun _ => k))
  (at level 100, k at level 200, right associativity).

(** The helper both agents use to report: build the [task_result] message
    around [payload.model_dump()], post it, [raise_for_status()]. *)
Definition post_task_result (rt : runtime) (cfg : config) (env : agent_env)
    (sender task_id status : string) (result_data error_data : option dict)
    (question_data : option string) : M unit :=
  fun log =>
    let n := length log in
    let payload :=
      {| tr_status := status; tr_result := result_data;
         tr_error := error_data; tr_question := question_data |} in
    let a2a_message :=
      {| task_id := task_id; message_id := uuid4 env n;
         sender_agent_id := sender;
         receiver_agent_id := "task_manager_agent";
         message_type := "task_result";
         timestamp := utcnow env n;
         a2a_payload := union_payload rt (dump_task_result payload);
         context := [] |} in
    let o := requests_post env (TASK_MANAGER_RESULT_URL cfg)
               (dump_message rt a2a_message) in
    (let? _ := post_checked o in Return (),
     (log ++ [{| sent_message := a2a_message; sent_outcome := o |}])%list).

Definition reply := TaskManager.reply.

(** The status a posted message carries in its payload. *)
Definition sent_status (s : sent) : option json :=
  dict_get "status" (dump_payload (a2a_payload (sent_message s))).

Definition sent_error (s : sent) : option json :=
  dict_get "error" (dump_payload (a2a_payload (sent_message s))).

(** The POST raised in the agent: [requests.post] or [raise_for_status]. *)
Definition raised (s : sent) : bool :=
  match post_checked (sent_outcome s) with
  | Return _ => false
  | Raise _ => true
  end.

(** A POST that reports on task [tid]. *)
Definition reports_on (tid : string) (s : sent) : Prop :=
  task_id (sent_message s) = tid ∧
  message_type (sent_message s) = "task_result" ∧
  receiver_agent_id (sent_message s) = "task_manager_agent".

(** The log of a handler that has reported on [tid] once, or twice, the
    first POST having raised and the second carrying status failed. *)
Inductive reported_once_or_retried (tid : string) : list sent → Prop :=
| reported_once s :
    reports_on tid s →
    reported_once_or_retried tid [s]
| reported_retried s1 s2 :
    reports_on tid s1 → reports_on tid s2 →
    raised s1 = true →
    sent_status s2 = Some (JStr "failed") →
    reported_once_or_retried tid [s1; s2].

(** The topic is missing, empty or a string: [topic.replace] is defined. *)
Definition topic_is_text (payload : A2APayloadAssignTask) : Prop :=
  match dict_get "topic" (parameters payload) with
  | None | Some (JStr _) => True
  | Some v => truthy v = false
  end.

(* ===================================================================== *)
(** ** agents/researcher/main.py *)
(* ===================================================================== *)

Module Researcher.

Definition send_a2a_response (rt : runtime) (cfg : config) (env : agent_env)
    (task_id original_message_id status : string)
    (result_data error_data : option dict) (question_data : option string)
  : M unit :=
  post_task_result rt cfg env "researcher_agent" task_id status
    result_data error_data question_data.

Definition send_a2a_result_to_task_manager (rt : runtime) (cfg : config)
    (env : agent_env) (task_id original_message_id : string)
    (result_data : dict) : M unit :=
  send_a2a_response rt cfg env task_id original_message_id "completed"
    (Some result_data) None None.

Definition send_a2a_error_to_task_manager (rt : runtime) (cfg : config)
    (env : agent_env) (task_id original_message_id error_message : string)
  : M unit :=
  send_a2a_response rt cfg env task_id original_message_id "failed"
    None (Some [("code", JStr "AGENT_ERROR"); ("message", JStr error_message)])
    None.

(** Lines 46-52. *)
Definition assign_payload (payload_data : payload)
  : outcome A2APayloadAssignTask :=
  match payload_data with
  | PAssign a => Return a
  | PDict d => validate_assign d
  | p =>
      Raise (TypeError ("Unexpected payload type received for assign_task: "
                        +:+ TaskManager.type_name p))
  end.

(** Lines 74-86: the summary before the tags are cut; it is whatever
    [first_item['text']] holds when the output is a list of blocks. *)
Definition raw_summary (rt : runtime) (output_content : option json) : json :=
  match output_content with
  | Some (JStr s) => JStr s
  | Some (JArr (first_item :: rest)) =>
      match first_item with
      | JObj d =>
          match dict_get "text" d with
          | Some text => text
          | None => JStr (py_str rt (JArr (first_item :: rest)))
          end
      | _ => JStr (py_str rt (JArr (first_item :: rest)))
      end
  | None | Some JNull => JStr "Agent did not produce a readable summary."
  | Some v => JStr (py_str rt v)
  end.

(** Lines 88-92; only a [str] has [strip]. *)
Definition cut_result_tags (final_result_summary : json) : outcome string :=
  match final_result_summary with
  | JStr s =>
      let s :=
        if PyStr.startswith (PyStr.strip s) "<result>" then
          match PyStr.split_once "<result>" s with
          | Some (_, after) => after
          | None => s
          end
        else s in
      let s :=
        if PyStr.endswith (PyStr.strip s) "</result>" then
          match PyStr.rsplit_once "</result>" s with
          | Some (before, _) => before
          | None => s
          end
        else s in
      Return (PyStr.strip s)
  | _ => Raise (AttributeError "object has no attribute 'strip'")
  end.

(** [run] is what [await agent_executor.ainvoke(...)] does on this call. *)
Definition receive_a2a_message (rt : runtime) (cfg : config) (env : agent_env)
    (run : outcome agent_outcome) (message : A2AMessage) : M json :=
  if String.eqb (message_type message) "assign_task" then
    match assign_payload (a2a_payload message) with
    | Raise e =>
        let detail := "Payload validation/type check failed: " +:+ exn_str rt e in
        send_a2a_error_to_task_manager rt cfg env (task_id message)
          (message_id message) detail ;;
        ret (reply "error" (message_id message) detail)
    | Return payload =>
        if String.eqb (task_type payload) "research" then
          let topic := dict_get "topic" (parameters payload) in
          if negb (truthy (default JNull topic)) then
            send_a2a_error_to_task_manager rt cfg env (task_id message)
              (message_id message) "Research topic is missing." ;;
            ret (reply "error" (message_id message) "Research topic is missing.")
          else
            try_except
              (do agent_outcome <- lift run;
               let output_content :=
                 dict_get "output" (return_values agent_outcome) in
               do final_result_summary <-
                 lift (cut_result_tags (raw_summary rt output_content));
               send_a2a_result_to_task_manager rt cfg env (task_id message)
                 (message_id message)
                 [("summary", JStr final_result_summary)] ;;
               ret (reply "ack" (message_id message)
                      "Research task processed and result sent to Task Manager."))
              (fun e =>
                 send_a2a_error_to_task_manager rt cfg env (task_id message)
                   (message_id message)
                   ("Agent execution or result sending failed: " +:+ exn_str rt e) ;;
                 ret (reply "ack_error" (message_id message)
                        "Agent execution failed, error sent to Task Manager."))
        else
          send_a2a_error_to_task_manager rt cfg env (task_id message)
            (message_id message)
            ("Unknown task type received: " +:+ task_type payload) ;;
          ret (reply "error" (message_id message)
                 ("Unknown task type: " +:+ task_type payload))
    end
  else if String.eqb (message_type message) "task_status_update" then
    ret (reply "ack" (message_id message) "Status update received.")
  else
    ret (reply "error" (message_id message)
           ("Unknown message type: " +:+ message_type message)).

End Researcher.

(* ===================================================================== *)
(** ** agents/article_draft/main.py *)
(* ===================================================================== *)

Module ArticleDraft.

Definition send_a2a_result_to_task_manager (rt : runtime) (cfg : config)
    (env : agent_env) (task_id original_message_id status : string)
    (result_data error_data : option dict) : M unit :=
  post_task_result rt cfg env "article_draft_agent" task_id status
    result_data error_data None.

Definition error_dict (code message : string) : dict :=
  [("code", JStr code); ("message", JStr message)].

(** Line 165: the ['text'] entries of the blocks that are dicts. *)
Fixpoint text_parts (output_content : list json) : list json :=
  match output_content with
  | [] => []
  | JObj item :: rest =>
      match dict_get "text" item with
      | Some text => text :: text_parts rest
      | None => text_parts rest
      end
  | _ :: rest => text_parts rest
  end.

(** [" ".join(parts)] takes strings only. *)
Fixpoint all_str (parts : list json) : outcome (list string) :=
  match parts with
  | [] => Return []
  | JStr s :: rest => let? ss := all_str rest in Return (s :: ss)
  | _ :: rest => Raise (TypeError "sequence item: expected str instance")
  end.

(** Lines 159-176: the text the classification reads. *)
Definition combined_text_of (agent_outcome : agent_outcome) : outcome string :=
  let output_content := dict_get "output" (return_values agent_outcome) in
  let? combined_text :=
    match output_content with
    | Some (JStr s) => Return (PyStr.strip s)
    | Some (JArr items) =>
        let? parts := all_str (text_parts items) in
        Return (PyStr.strip (PyStr.join " " parts))
    | _ => Return ""
    end in
  match combined_text, last (intermediate_steps agent_outcome) with
  | EmptyString, Some (_, JStr raw_last_response) => Return raw_last_response
  | _, _ => Return combined_text
  end.

(** Lines 154-196: the status and the two dicts handed to
    [send_a2a_result_to_task_manager]. *)
Definition classify (agent_outcome : agent_outcome)
  : outcome (string * dict * option dict) :=
  let raw_output :=
    default (JStr "No output from agent.")
      (dict_get "output" (return_values agent_outcome)) in
  let? combined_text := combined_text_of agent_outcome in
  let final_result_data :=
    [("raw_output", raw_output); ("final_text_response", JStr combined_text)] in
  match PyStr.search_url combined_text with
  | Some saved_url =>
      let saved_url := PyStr.before_first "[]" saved_url in
      Return ("completed",
              (final_result_data ++ [("saved_url", JStr saved_url)])%list,
              None)
  | None =>
      match combined_text with
      | String _ _ =>
          Return ("failed", final_result_data,
                  Some (error_dict "URL_NOT_FOUND_IN_OUTPUT"
                    "Agent Executor finished, text generated, but no URL found in the output."))
      | EmptyString =>
          Return ("failed", final_result_data,
                  Some (error_dict "EMPTY_AGENT_OUTPUT"
                    "Agent Executor finished, but the output was empty or not text."))
      end
  end.

(** [agent_executor] tells whether the module-level executor is set,
    [bucket_name] is [os.getenv("CLOUD_STORAGE_BUCKET_NAME")], and [run] is
    what [await agent_executor.ainvoke({"input": user_input})] does on this
    call. The prompt text itself is not modelled: [run] ranges over every
    behaviour of the executor. *)
Definition receive_a2a_message (rt : runtime) (cfg : config) (env : agent_env)
    (agent_executor : bool) (bucket_name : option string)
    (run : outcome agent_outcome) (message : A2AMessage) : M json :=
  let send := send_a2a_result_to_task_manager rt cfg env (task_id message)
                (message_id message) in
  if negb agent_executor then
    send "failed" None
      (Some (error_dict "AGENT_NOT_INITIALIZED"
               "Article Draft Agent Executor failed to initialize.")) ;;
    throw (HTTPException 500 "Agent Executor is not initialized.")
  else if String.eqb (message_type message) "assign_task" then
    match a2a_payload message with
    | PAssign payload =>
        if String.eqb (task_type payload) "write_article_draft" then
          let topic := dict_get "topic" (parameters payload) in
          if negb (truthy (default JNull topic)) then
            send "failed" None
              (Some (error_dict "MISSING_PARAMETER" "Article topic is missing.")) ;;
            ret (reply "error" (message_id message) "Article topic is missing.")
          else
            match bucket_name with
            | None | Some EmptyString =>
                send "failed" None
                  (Some (error_dict "CONFIG_ERROR"
                           "Cloud Storage bucket name is not configured.")) ;;
                throw (HTTPException 500
                         "Cloud Storage bucket name is not configured.")
            | Some _ =>
                match topic with
                | Some (JStr _) =>
                    try_except
                      (do agent_outcome <- lift run;
                       do classified <- lift (classify agent_outcome);
                       let '(final_status, final_result_data, error_data) :=
                         classified in
                       send final_status (Some final_result_data) error_data ;;
                       ret (reply "processing" (message_id message)
                              "Article draft task received and processing started by AgentExecutor, result sent to Task Manager."))
                      (fun e =>
                         let detail :=
                           "Unexpected error during AgentExecutor runtime: "
                           +:+ exn_str rt e in
                         send "failed" None
                           (Some (error_dict "AGENT_RUNTIME_ERROR" detail)) ;;
                         throw (HTTPException 500 detail))
                | _ =>
                    throw (AttributeError "object has no attribute 'replace'")
                end
            end
        else
          send "failed" None
            (Some (error_dict "UNKNOWN_TASK_TYPE"
                     ("Unknown task type received by Article Draft Agent: "
                      +:+ task_type payload))) ;;
          ret (reply "error" (message_id message)
                 ("Unknown task type: " +:+ task_type payload))
    | _ =>
        ret (reply "error" (message_id message)
               "Invalid payload for assign_task message.")
    end
  else if String.eqb (message_type message) "task_status_update" then
    match a2a_payload message with
    | PStatus _ =>
        ret (reply "ack" (message_id message) "Status update received.")
    | _ =>
        ret (reply "error" (message_id message)
               "Invalid payload for task_status_update message.")
    end
  else if String.eqb (message_type message) "task_result" then
    ret (reply "ack" (message_id message)
           "Task result received (but not processed).")
  else if String.eqb (message_type message) "error" then
    ret (reply "ack" (message_id message)
           "Error message received (but not processed).")
  else
    ret (reply "error" (message_id message)
           ("Unknown message type: " +:+ message_type message)).

(** The handler with the executor run on a plan of the language model,
    against the two tools and the same network. *)
Definition handle (rt : runtime) (cfg : config) (env : agent_env)
    (bucket_name : option string) (p : plan) (message : A2AMessage) : M json :=
  receive_a2a_message rt cfg env true bucket_name
    (ainvoke (article_tools rt cfg (requests_post env)) p) message.

End ArticleDraft.

(* ===================================================================== *)
(** ** tools/research_tool.py *)
(* ===================================================================== *)

Module ResearchTool.

(** The line feed of the f-strings. *)
Definition nl : string := String "010" EmptyString.

(** [r.get(key, 'N/A')] inside an f-string. *)
Definition field (rt : runtime) (key : string) (d : dict) : string :=
  format rt (default (JStr "N/A") (dict_get key d)).

(** One element of the list comprehension, lines 36-39; only a dict has
    [get]. *)
Definition render_result (rt : runtime) (r : json) : outcome string :=
  match r with
  | JObj d =>
      Return ("Title: " +:+ field rt "title" d +:+ nl +:+
              "URL: " +:+ field rt "url" d +:+ nl +:+
              "Snippet: " +:+ field rt "snippet" d +:+ nl +:+ "---")
  | _ => Raise (AttributeError "object has no attribute 'get'")
  end.

Fixpoint render_results (rt : runtime) (results : list json)
  : outcome (list string) :=
  match results with
  | [] => Return []
  | r :: rest =>
      let? line := render_result rt r in
      let? lines := render_results rt rest in
      Return (line :: lines)
  end.

Fixpoint characters (s : string) : list json :=
  match s with
  | EmptyString => []
  | String c r => JStr (String c EmptyString) :: characters r
  end.

(** [for r in results]: a list gives its elements, a dict its keys, a
    string its characters; nothing else can be iterated. *)
Definition iterate (results : json) : outcome (list json) :=
  match results with
  | JArr xs => Return xs
  | JObj kvs => Return (map (λ kv, JStr (fst kv)) kvs)
  | JStr s => Return (characters s)
  | _ => Raise (TypeError "object is not iterable")
  end.

(** Lines 32-46: what [_run] makes of the adapter's result. *)
Definition render (rt : runtime) (query : string) (mcp_result : MCPToolResult)
  : outcome string :=
  if String.eqb (mr_status mcp_result) "success" then
    match mr_result mcp_result with
    | None => Raise (AttributeError "'NoneType' object has no attribute 'get'")
    | Some result =>
        let results := default (JArr []) (dict_get "search_results" result) in
        if truthy results then
          let? items := iterate results in
          let? lines := render_results rt items in
          Return ("Search Results for '" +:+ query +:+ "':" +:+ nl +:+
                  PyStr.join nl lines)
        else
          Return ("Search Results for '" +:+ query +:+ "': No results found.")
    end
  else
    let? m := error_message rt mcp_result "Unknown error" in
    Return ("Error calling search tool for '" +:+ query +:+ "': " +:+ m).

(** [_run], which [_arun] calls. *)
Definition run (rt : runtime) (cfg : config)
    (post : string → json → http_outcome) (query : string) : outcome string :=
  let? mcp_result :=
    call_mcp_tool rt post (WEB_SEARCH_MCP_URL cfg) "search_web"
      [("query", JStr query)] None in
  render rt query mcp_result.

End ResearchTool.

(* ===================================================================== *)
(** ** The tool servers *)
(* ===================================================================== *)

(** What an endpoint of a tool server does with a call: it returns a tool
    result, raises an [HTTPException] whose detail is a dict, or lets
    another exception escape. *)
Inductive tool_reply :=
| ToolResult (r : MCPToolResult)
| ToolHTTPException (status_code : Z) (detail : dict)
| ToolCrash (e : exn).

(** FastAPI answers 200 with the serialized result, the exception's status
    code with [{"detail": ...}], and 500 with a body that is not JSON when
    the endpoint crashes. *)
Definition fastapi_response (r : tool_reply) : http_outcome :=
  match r with
  | ToolResult r => Response 200 (Some (JObj (dump_tool_result r)))
  | ToolHTTPException code detail =>
      Response code (Some (JObj [("detail", JObj detail)]))
  | ToolCrash _ => Response 500 None
  end.

(** A tool server on the network: the body is validated as an
    [MCPToolCall] (422 with pydantic's error list, [explain e], when it is
    not one) and handed to the endpoint. *)
Definition serve_tool (rt : runtime) (explain : exn → json)
    (endpoint : MCPToolCall → tool_reply) (body : json) : http_outcome :=
  match decode_tool_call rt body with
  | Return tool_call => fastapi_response (endpoint (value tool_call))
  | Raise e => Response 422 (Some (JObj [("detail", explain e)]))
  end.

Definition success_result (result : dict) : MCPToolResult :=
  {| mr_status := "success"; mr_result := Some result; mr_error := None |}.

(* ===================================================================== *)
(** ** mcp_servers/web_search/main.py *)
(* ===================================================================== *)

Module WebSearch.

(** Lines 65-69: the model's answer without its code fence. Only a string
    has [strip]. *)
Definition unfence (content : json) : outcome string :=
  match content with
  | JStr s =>
      let json_string := PyStr.strip s in
      let json_string :=
        match PyStr.strip_prefix "```json" json_string with
        | Some rest => PyStr.strip rest
        | None => json_string
        end in
      let json_string :=
        if PyStr.endswith json_string "```" then
          match PyStr.rsplit_once "```" json_string with
          | Some (before, _) => PyStr.strip before
          | None => json_string
          end
        else json_string in
      Return json_string
  | _ => Raise (AttributeError "object has no attribute 'strip'")
  end.

Definition is_dict (j : json) : bool :=
  match j with JObj _ => true | _ => false end.

(** Lines 73-74. *)
Definition checked_results (simulated_results : json) : outcome (list json) :=
  match simulated_results with
  | JArr items =>
      if forallb is_dict items then Return items
      else Raise (ValueError "LLM did not return a valid JSON list of objects.")
  | _ => Raise (ValueError "LLM did not return a valid JSON list of objects.")
  end.

(** [json_loads] is [json.loads]; [llm_invoke] is what [llm.invoke(prompt)]
    does on this call: the content of the answer, or an exception. The
    prompt text is not modelled. *)
Definition call_tool (rt : runtime) (json_loads : string → outcome json)
    (llm_invoke : outcome json) (tool_call : MCPToolCall) : tool_reply :=
  if String.eqb (tool_name tool_call) "search_web" then
    match tc_parameters tool_call with
    | ParamsDict parameters =>
        let topic := dict_get "query" parameters in
        if negb (truthy (default JNull topic)) then
          ToolResult (failure_result "MISSING_PARAMETER" "Search query is missing.")
        else
          match
            (let? content := llm_invoke in
             let? json_string := unfence content in
             let? simulated_results := json_loads json_string in
             checked_results simulated_results)
          with
          | Return items =>
              ToolResult (success_result [("search_results", JArr items)])
          | Raise e =>
              ToolResult (failure_result "LLM_SEARCH_ERROR"
                            ("Simulated search failed: " +:+ exn_str rt e))
          end
    | _ => ToolCrash (AttributeError "object has no attribute 'get'")
    end
  else
    ToolResult (failure_result "TOOL_NOT_FOUND"
                  ("Tool '" +:+ tool_name tool_call +:+ "' not found.")).

End WebSearch.

(* ===================================================================== *)
(** ** mcp_servers/cloud_storage/main.py *)
(* ===================================================================== *)

Module CloudStorage.

(** What the storage client does in one [try] block: it succeeds, raises
    [google.api_core.exceptions.NotFound], or raises something else. *)
Inductive storage_outcome (A : Type) :=
| Stored (a : A)
| NotFound
| StorageError (e : exn).
Arguments Stored {A} a.
Arguments NotFound {A}.
Arguments StorageError {A} e.

(** The three operations on a bucket and a blob name: lines 55-60 (with the
    content), 96-100 (giving the decoded content) and 134-137. *)
Record storage_client := {
  upload_from_string : string → string → string → storage_outcome unit;
  download_as_text : string → string → storage_outcome string;
  delete_blob : string → string → storage_outcome unit;
}.

(** [Model.model_validate(tool_call.parameters)]: the model's own instance
    passes, a dict is validated, an instance of another model is
    rejected. *)
Definition validate_upload (p : tool_parameters)
  : outcome CloudStorageUploadParameters :=
  match p with
  | ParamsUpload u => Return u
  | ParamsDict d => validate_upload_dict d
  | _ => Raise (ValidationError "CloudStorageUploadParameters" "")
  end.

Definition validate_download (p : tool_parameters)
  : outcome CloudStorageDownloadParameters :=
  match p with
  | ParamsDownload d => Return d
  | ParamsDict d => validate_download_dict d
  | _ => Raise (ValidationError "CloudStorageDownloadParameters" "")
  end.

Definition validate_delete (p : tool_parameters)
  : outcome CloudStorageDeleteParameters :=
  match p with
  | ParamsDelete d => Return d
  | ParamsDict d => validate_delete_dict d
  | _ => Raise (ValidationError "CloudStorageDeleteParameters" "")
  end.

(** Line 64. *)
Definition public_url (bucket_name destination_blob_name : string) : string :=
  "https://storage.googleapis.com/" +:+ bucket_name +:+ "/" +:+
  destination_blob_name.

Definition invalid_parameters (rt : runtime) (tool : string) (e : exn)
  : tool_reply :=
  ToolResult (failure_result "INVALID_PARAMETERS"
                ("Invalid parameters for " +:+ tool +:+ ": " +:+ exn_str rt e)).

(** [storage_client] is the module-level client, [None] when its
    construction failed. *)
Definition call_tool (rt : runtime) (storage_client : option storage_client)
    (tool_call : MCPToolCall) : tool_reply :=
  match storage_client with
  | None =>
      ToolResult (failure_result "STORAGE_NOT_INITIALIZED"
        "Cloud Storage client is not initialized. Check server logs for credential errors.")
  | Some client =>
      if String.eqb (tool_name tool_call) "upload_file" then
        match validate_upload (tc_parameters tool_call) with
        | Raise e => invalid_parameters rt "upload_file" e
        | Return params =>
            match upload_from_string client (up_bucket_name params)
                    (up_destination_blob_name params)
                    (up_source_file_content params) with
            | Stored _ =>
                ToolResult (success_result
                  [("bucket", JStr (up_bucket_name params));
                   ("blob", JStr (up_destination_blob_name params));
                   ("public_url",
                    JStr (public_url (up_bucket_name params)
                            (up_destination_blob_name params)))])
            | NotFound =>
                ToolResult (failure_result "BUCKET_NOT_FOUND"
                  ("Cloud Storage bucket '" +:+ up_bucket_name params +:+
                   "' not found. Make sure the bucket exists and the service account has permissions."))
            | StorageError e =>
                ToolResult (failure_result "UPLOAD_FAILED"
                              ("File upload failed: " +:+ exn_str rt e))
            end
        end
      else if String.eqb (tool_name tool_call) "download_file" then
        match validate_download (tc_parameters tool_call) with
        | Raise e => invalid_parameters rt "download_file" e
        | Return params =>
            match download_as_text client (down_bucket_name params)
                    (down_source_blob_name params) with
            | Stored file_content_string =>
                ToolResult (success_result
                  [("bucket", JStr (down_bucket_name params));
                   ("blob", JStr (down_source_blob_name params));
                   ("content", JStr file_content_string)])
            | NotFound =>
                ToolResult (failure_result "BLOB_NOT_FOUND"
                  ("Blob '" +:+ down_source_blob_name params +:+ "' not found."))
            | StorageError e =>
                ToolResult (failure_result "DOWNLOAD_FAILED"
                              ("File download failed: " +:+ exn_str rt e))
            end
        end
      else if String.eqb (tool_name tool_call) "delete_file" then
        match validate_delete (tc_parameters tool_call) with
        | Raise e => invalid_parameters rt "delete_file" e
        | Return params =>
            match delete_blob client (del_bucket_name params)
                    (del_blob_name params) with
            | Stored _ =>
                ToolResult (success_result
                  [("bucket", JStr (del_bucket_name params));
                   ("blob", JStr (del_blob_name params));
                   ("status", JStr "deleted")])
            | NotFound =>
                ToolResult (failure_result "BLOB_NOT_FOUND"
                  ("Blob '" +:+ del_blob_name params +:+ "' not found."))
            | StorageError e =>
                ToolResult (failure_result "DELETE_FAILED"
                              ("File deletion failed: " +:+ exn_str rt e))
            end
        end
      else
        ToolHTTPException 404
          (dump_tool_result
             (failure_result "TOOL_NOT_FOUND"
                ("Tool '" +:+ tool_name tool_call +:+ "' not found.")))
  end.

End CloudStorage.

(** The tool names the cloud storage endpoint dispatches on. *)
Definition known_storage_tool (name : string) : bool :=
  String.eqb name "upload_file" || String.eqb name "download_file"
  || String.eqb name "delete_file".

(* ===================================================================== *)
(** ** What the coordinator's table can hold *)
(* ===================================================================== *)

(** The task ids for which the requests create a record: the ids the
    trigger endpoints have drawn, and the ids, other than the empty one,
    that a [task_result] message posted to the result endpoint names. *)
Definition recorded (rs : list TaskManager.request) : list string :=
  omap (λ r, match r with
             | TaskManager.Trigger _ _ task_id _ _ => Some task_id
             | TaskManager.PostResult message =>
                 if String.eqb (task_id message) "" then None
                 else if String.eqb (message_type message) "task_result"
                 then Some (task_id message) else None
             | TaskManager.GetStatus _ => None
             end) rs.

(** The fields of a record agree with its status. An unknown status only
    fixes the error: result and question are those of the record before. *)
Definition well_shaped (r : TaskStatusRecord) : Prop :=
  (status r = "processing" ∧
     result r = JNull ∧ error r = JNull ∧ question r = JNull) ∨
  (status r = "completed" ∧
     (∃ d, result r = JObj d) ∧ error r = JNull ∧ question r = JNull) ∨
  (status r = "failed" ∧
     result r = JNull ∧ (∃ kv d, error r = JObj (kv :: d)) ∧ question r = JNull) ∨
  (status r = "requires_clarification" ∧
     result r = JNull ∧ error r = JNull ∧
     ((∃ c q, question r = JStr (String c q)) ∨
      question r = JObj [("text",
                          JStr "Clarification needed, no question provided.")])) ∨
  (status r = "unknown" ∧ ∃ m, error r = JObj [("message", JStr m)]).

(* ===================================================================== *)
(** ** A concrete environment for the examples *)
(* ===================================================================== *)

Module Example.

Definition str_of_exn (e : exn) : string :=
  match e with
  | ValidationError model field =>
      "1 validation error for " +:+ model +:+ ": " +:+ field
  | ValueError m | TypeError m | AttributeError m | RuntimeError m => m
  | RequestException _ m => m
  | HTTPException _ detail => detail
  end.

(** Lax mode converts a bool to an int and nothing else here; an int
    below [2^53] is a float. *)
Definition rt : runtime :=
  {| py_str := fun _ => "<value>";
     exn_str := str_of_exn;
     isoformat := fun _ => "2025-01-01T00:00:00";
     json_error_is_request_exception := true;
     float_of_int := fun z =>
       if (Z.abs z <? 2 ^ 53)%Z then Some (z, 0%Z) else None;
     lax_int := fun v =>
       match v with JBool b => Some (Z.b2z b) | _ => None end;
     lax_float := fun _ => None |}.

Definition cfg : config :=
  {| RESEARCHER_AGENT_URL := "http://researcher/a2a/message";
     ARTICLE_DRAFT_AGENT_URL := "http://article-draft/a2a/message";
     TASK_MANAGER_RESULT_URL := "http://task-manager/a2a/result";
     CLOUD_STORAGE_MCP_URL := "http://cloud-storage-mcp/mcp/tool";
     CREATIVE_LLM_MCP_URL := "http://creative-llm-mcp/mcp/tool";
     WEB_SEARCH_MCP_URL := "http://web-search-mcp/mcp/tool" |}.

(** A [task_result] message for task ["t1"], as the coordinator receives
    it when the payload dict [d] is posted. *)
Definition result_message (d : dict) : A2AMessage :=
  {| task_id := "t1"; message_id := "m1";
     sender_agent_id := "article_draft_agent";
     receiver_agent_id := "task_manager_agent";
     message_type := "task_result";
     timestamp := 0;
     a2a_payload := union_payload rt d;
     context := [] |}.

(** An [assign_task] message for task ["t1"]. *)
Definition assign_message (task_type : string) (parameters : dict) : A2AMessage :=
  {| task_id := "t1"; message_id := "m0";
     sender_agent_id := "task_manager_agent";
     receiver_agent_id := "agent";
     message_type := "assign_task";
     timestamp := 0;
     a2a_payload := PAssign {| task_type := task_type; parameters := parameters |};
     context := [] |}.

(** A network on which every request gets the same outcome. *)
Definition env_with (o : http_outcome) : agent_env :=
  {| requests_post := fun _ _ => o;
     uuid4 := fun n => match n with O => "uuid-0" | _ => "uuid-1" end;
     utcnow := fun n => Z.of_nat n |}.

(** The body of the POST that delivers [result_message d]. *)
Definition result_body (d : dict) : json :=
  JObj [("task_id", JStr "t1"); ("message_id", JStr "m1");
        ("sender_agent_id", JStr "article_draft_agent");
        ("receiver_agent_id", JStr "task_manager_agent");
        ("message_type", JStr "task_result");
        ("timestamp", JStr "2025-01-01T00:00:00");
        ("payload", JObj d); ("context", JObj [])].

(** Payloads of [task_result] messages: with the four keys that
    [model_dump] writes, and with the status alone. *)
Definition paused : dict := [("status", JStr "paused")].

Definition paused_result : dict :=
  [("status", JStr "paused"); ("result", JNull); ("error", JNull);
   ("question", JNull)].

Definition clarification_result : dict :=
  [("status", JStr "requires_clarification"); ("result", JNull);
   ("error", JNull); ("question", JNull)].

Definition completed : dict :=
  [("status", JStr "completed");
   ("result", JObj [("saved_url", JStr "https://x/y.md")]);
   ("error", JNull); ("question", JNull)].

Definition failed : dict :=
  [("status", JStr "failed"); ("result", JNull);
   ("error", JObj [("code", JStr "AGENT_ERROR"); ("message", JStr "late")]);
   ("question", JNull)].

(** The parameters of an upload, and the body of the tool server's answer
    when the upload has worked. *)
Definition upload_parameters : dict :=
  [("bucket_name", JStr "drafts");
   ("destination_blob_name", JStr "iot-1a2b3c4d.md");
   ("source_file_content", JStr "IoT links devices.")].

Definition uploaded : dict :=
  [("status", JStr "success");
   ("result",
    JObj [("public_url",
           JStr "https://storage.googleapis.com/drafts/iot-1a2b3c4d.md")])].

Definition research_message : A2AMessage :=
  assign_message "research" [("topic", JStr "IoT")].

Definition article_message : A2AMessage :=
  assign_message "write_article_draft" [("topic", JStr "IoT")].

(** The research agent's executor returns a summary. *)
Definition findings : outcome agent_outcome :=
  Return {| return_values := [("output", JStr "IoT links devices.")];
            intermediate_steps := [] |}.

(** The answer of mcp_servers/cloud_storage/main.py when the bucket does
    not exist. *)
Definition bucket_not_found : dict :=
  [("code", JStr "BUCKET_NOT_FOUND");
   ("message",
    JStr "Cloud Storage bucket 'drafts' not found. Make sure the bucket exists and the service account has permissions.")].

Definition bucket_missing : dict :=
  [("status", JStr "failure"); ("result", JNull);
   ("error", JObj bucket_not_found)].

(** The cloud storage server answers every upload with BUCKET_NOT_FOUND;
    the coordinator acknowledges what it is sent. *)
Definition network (url : string) (body : json) : http_outcome :=
  if String.eqb url (CLOUD_STORAGE_MCP_URL cfg)
  then Response 200 (Some (JObj bucket_missing))
  else Response 200 (Some (JObj [("status", JStr "ack")])).

Definition env : agent_env :=
  {| requests_post := network;
     uuid4 := fun n => match n with O => "uuid-0" | _ => "uuid-1" end;
     utcnow := fun n => Z.of_nat n |}.

(** The language model uploads its draft and answers with the tool's
    reply. *)
Definition upload_and_report : plan :=
  AgentAction (CallUploadFile "drafts" "iot-1a2b3c4d.md" "IoT links devices.")
    (λ observation, AgentFinish [("output", observation)]).


(** The result [call_mcp_tool] builds when the request fails:
    [MCPToolResult(status="failure", error={...})], with [result] left out. *)
Definition call_failed : instance MCPToolResult :=
  {| value := failure_result "MCP_CALL_FAILED" "Connection refused";
     model_fields_set := list_to_set ["status"; "error"] |}.

(** A [task_result] message whose payload is a model instance, and a
    datetime parser that reads back what [isoformat rt] writes. *)
Definition posted_result : A2AMessage :=
  {| task_id := "t1"; message_id := "m1";
     sender_agent_id := "researcher_agent";
     receiver_agent_id := "task_manager_agent";
     message_type := "task_result";
     timestamp := 0;
     a2a_payload :=
       PResult {| tr_status := "completed";
                  tr_result := Some [("summary", JStr "IoT links devices.")];
                  tr_error := None; tr_question := None |};
     context := [] |}.

Definition read_datetime (j : json) : option Z :=
  match j with
  | JStr "2025-01-01T00:00:00" => Some 0%Z
  | _ => None
  end.

End Example.

(* ===================================================================== *)
(** ** A concrete deployment of the tool servers *)
(* ===================================================================== *)

Module Deployment.

(** A storage that stores what it is given and holds nothing to read. *)
Definition storage : CloudStorage.storage_client :=
  {| CloudStorage.upload_from_string := fun _ _ _ => CloudStorage.Stored ();
     CloudStorage.download_as_text := fun _ _ => CloudStorage.NotFound;
     CloudStorage.delete_blob := fun _ _ => CloudStorage.Stored () |}.

(** The error list of a 422 is not read by any caller. *)
Definition explain (e : exn) : json := JArr [].

(** The language model of the web search server answers with one result;
    [json.loads] reads that answer and nothing else. *)
Definition llm_invoke : outcome json :=
  Return (JStr "[{'title': 'IoT'}]").

Definition json_loads (s : string) : outcome json :=
  if String.eqb s "[{'title': 'IoT'}]"
  then Return (JArr [JObj [("title", JStr "IoT");
                           ("link", JStr "https://example.org/iot");
                           ("snippet", JStr "IoT links devices.")]])
  else Raise (ValueError "Expecting value").

(** The two tool servers behind their URLs; every other URL acknowledges
    what it is sent. *)
Definition network (url : string) (body : json) : http_outcome :=
  if String.eqb url (CLOUD_STORAGE_MCP_URL Example.cfg) then
    serve_tool Example.rt explain
      (CloudStorage.call_tool Example.rt (Some storage)) body
  else if String.eqb url (WEB_SEARCH_MCP_URL Example.cfg) then
    serve_tool Example.rt explain
      (WebSearch.call_tool Example.rt json_loads llm_invoke) body
  else Response 200 (Some (JObj [("status", JStr "ack")])).

Definition env : agent_env :=
  {| requests_post := network;
     uuid4 := fun n => match n with O => "uuid-0" | _ => "uuid-1" end;
     utcnow := fun n => Z.of_nat n |}.

(** A cloud storage server that answers success without a result. *)
Definition bare_success (url : string) (body : json) : http_outcome :=
  Response 200 (Some (JObj [("status", JStr "success")])).

Definition bare_env : agent_env :=
  {| requests_post := bare_success;
     uuid4 := fun n => match n with O => "uuid-0" | _ => "uuid-1" end;
     utcnow := fun n => Z.of_nat n |}.

(** A status update for task ["t1"]. *)
Definition status_update : A2AMessage :=
  {| task_id := "t1"; message_id := "m3";
     sender_agent_id := "task_manager_agent";
     receiver_agent_id := "agent";
     message_type := "task_status_update";
     timestamp := 0;
     a2a_payload := union_payload Example.rt [("status", JStr "processing")];
     context := [] |}.

(** The executor ends with a sentence that holds a URL. *)
Definition saved : agent_outcome :=
  {| return_values :=
       [("output", JStr "Saved to https://x/y.md[] as asked.")];
     intermediate_steps := [] |}.

End Deployment.

(* ===================================================================== *)
(** * Properties of the string operations *)
(* ===================================================================== *)

Section Strings.

Import PyStr.

(** What [search_url] returns is a match of the pattern at some position
    of the text. *)
Lemma search_url_found s u :
  search_url s = Some u → ∃ pre suf, s = pre +:+ suf ∧ url_at suf = Some u.
Proof.
  induction s as [|c s IH]; simpl.
  - discriminate.
  - destruct (url_at (String c s)) as [u0|] eqn:E.
    + intros [= ->]. by exists "", (String c s).
    + intros H. destruct (IH H) as (pre & suf & -> & Hu).
      by exists (String c pre), suf.
Qed.

(** When [search_url] finds nothing, the pattern matches at no position. *)
Lemma search_url_none s :
  search_url s = None → ∀ pre suf, s = pre +:+ suf → url_at suf = None.
Proof.
  induction s as [|c s IH]; simpl; intros H pre suf E.
  - destruct pre as [|c' pre].
    + change ("" = suf) in E. by subst.
    + change ("" = String c' (pre +:+ suf)) in E. discriminate.
  - destruct (url_at (String c s)) as [u0|] eqn:Eu; [discriminate|].
    destruct pre as [|c' pre].
    + change (String c s = suf) in E. by subst.
    + change (String c s = String c' (pre +:+ suf)) in E.
      injection E as -> ->. by eapply IH.
Qed.

(** A match starts with the scheme and runs up to the first whitespace. *)
Lemma url_at_shape s u :
  url_at s = Some u →
  ∃ scheme rest,
    (scheme = "https://" ∨ scheme = "http://") ∧
    strip_prefix scheme s = Some rest ∧
    u = scheme +:+ take_nonspace rest ∧ take_nonspace rest ≠ "".
Proof.
  unfold url_at.
  destruct (strip_prefix "https://" s) as [rest|] eqn:E1.
  - destruct (take_nonspace rest) eqn:E2; [discriminate|].
    intros [= <-]. exists "https://", rest. rewrite E2. by auto.
  - destruct (strip_prefix "http://" s) as [rest|] eqn:E3; [|discriminate].
    destruct (take_nonspace rest) eqn:E2; [discriminate|].
    intros [= <-]. exists "http://", rest. rewrite E2. by auto.
Qed.

End Strings.

(* ===================================================================== *)
(** * Properties of the union fields *)
(* ===================================================================== *)

Section Unions.

Context (rt : runtime).

(** What [model_dump] wrote of a payload model is validated back into that
    model: it has every field of the model set, more than either of the
    other two. *)
Lemma union_payload_assign a : union_payload rt (dump_assign a) = PAssign a.
Proof. by destruct a. Qed.

Lemma union_payload_status_update u :
  union_payload rt (dump_status_update u) = PStatus u.
Proof. by destruct u as [s [p|] [m|]]. Qed.

Lemma union_payload_task_result r :
  union_payload rt (dump_task_result r) = PResult r.
Proof. by destruct r as [s [res|] [err|] [q|]]. Qed.

(** A payload is a member model's value or the input itself. *)
Lemma smart_union_cases {A} (members : list (option (candidate A))) as_dict :
  smart_union members as_dict = as_dict ∨
  ∃ c, Some c ∈ members ∧ smart_union members as_dict = chosen c.
Proof.
  unfold smart_union.
  assert (∀ c, best_match members = Some c → Some c ∈ members) as Hbest.
  { unfold best_match.
    assert (∀ start c,
              foldl (λ best m,
                       match best, m with
                       | None, _ => m
                       | Some cur, Some new =>
                           if better cur new then Some new else Some cur
                       | Some cur, None => Some cur
                       end) start members = Some c →
              start = Some c ∨ Some c ∈ members) as Hfold.
    { induction members as [|m members IH]; simpl; intros start c H.
      - by left.
      - destruct (IH _ _ H) as [E|E]; [|right; by apply list_elem_of_further].
        destruct start as [cur|]; [destruct m as [new|]|].
        + destruct (better cur new); injection E as <-;
            [right; apply list_elem_of_here|by left].
        + by left.
        + right. subst. apply list_elem_of_here. }
    intros c H. by destruct (Hfold _ _ H). }
  destruct (best_match members) as [c|]; [|by left].
  destruct (lax c); [by left|]. right. exists c. split; [by apply Hbest|done].
Qed.

Lemma union_payload_dump d :
  union_payload rt (dump_payload (union_payload rt d)) = union_payload rt d.
Proof.
  destruct (smart_union_cases
              [member PAssign ["task_type"; "parameters"] d
                 (strictly (validate_assign d));
               member PStatus ["status"; "progress"; "message"] d
                 (validate_status_update rt d);
               member PResult ["status"; "result"; "error"; "question"] d
                 (strictly (validate_task_result d))]
              (PDict d)) as [E|(c & Hc & E)];
    fold (union_payload rt d) in E; rewrite E.
  - simpl. exact E.
  - unfold member in Hc.
    repeat (apply elem_of_cons in Hc as [Hc|Hc]);
      [| | |by apply elem_of_nil in Hc].
    + destruct (strictly (validate_assign d)) as [[a l]|]; [|done].
      injection Hc as ->. apply union_payload_assign.
    + destruct (validate_status_update rt d) as [[u l]|]; [|done].
      injection Hc as ->. apply union_payload_status_update.
    + destruct (strictly (validate_task_result d)) as [[r l]|]; [|done].
      injection Hc as ->. apply union_payload_task_result.
Qed.

(** The same for the parameters of a tool call. *)
Lemma union_parameters_generate g :
  union_parameters rt (dump_tool_parameters (ParamsGenerate g))
    = ParamsGenerate g.
Proof. by destruct g as [p [m|] [n|] [[tm te]|]]. Qed.

Lemma union_parameters_upload u :
  union_parameters rt (dump_tool_parameters (ParamsUpload u)) = ParamsUpload u.
Proof. by destruct u. Qed.

Lemma union_parameters_download x :
  union_parameters rt (dump_tool_parameters (ParamsDownload x))
    = ParamsDownload x.
Proof. by destruct x. Qed.

Lemma union_parameters_delete x :
  union_parameters rt (dump_tool_parameters (ParamsDelete x)) = ParamsDelete x.
Proof. by destruct x. Qed.

Lemma union_parameters_dump d :
  union_parameters rt (dump_tool_parameters (union_parameters rt d))
    = union_parameters rt d.
Proof.
  destruct (smart_union_cases
              [member ParamsGenerate
                 ["prompt"; "model"; "max_tokens"; "temperature"] d
                 (validate_generate rt d);
               member ParamsUpload
                 ["bucket_name"; "destination_blob_name";
                  "source_file_content"] d
                 (strictly (validate_upload_dict d));
               member ParamsDownload ["bucket_name"; "source_blob_name"] d
                 (strictly (validate_download_dict d));
               member ParamsDelete ["bucket_name"; "blob_name"] d
                 (strictly (validate_delete_dict d))]
              (ParamsDict d)) as [E|(c & Hc & E)];
    fold (union_parameters rt d) in E; rewrite E.
  - simpl. exact E.
  - unfold member in Hc.
    repeat (apply elem_of_cons in Hc as [Hc|Hc]);
      [| | | |by apply elem_of_nil in Hc].
    + destruct (validate_generate rt d) as [[g l]|]; [|done].
      injection Hc as ->. apply union_parameters_generate.
    + destruct (strictly (validate_upload_dict d)) as [[u l]|]; [|done].
      injection Hc as ->. apply union_parameters_upload.
    + destruct (strictly (validate_download_dict d)) as [[u l]|]; [|done].
      injection Hc as ->. apply union_parameters_download.
    + destruct (strictly (validate_delete_dict d)) as [[u l]|]; [|done].
      injection Hc as ->. apply union_parameters_delete.
Qed.

(** The parameters the three tools send. *)
Lemma union_parameters_query query :
  union_parameters rt [("query", JStr query)] = ParamsDict [("query", JStr query)].
Proof. done. Qed.

Lemma union_parameters_upload_call bucket blob content :
  union_parameters rt
    [("bucket_name", JStr bucket); ("destination_blob_name", JStr blob);
     ("source_file_content", JStr content)]
  = ParamsUpload {| up_bucket_name := bucket; up_destination_blob_name := blob;
                    up_source_file_content := content |}.
Proof. done. Qed.

Lemma union_parameters_generate_call prompt model max_tokens temperature :
  union_parameters rt
    [("prompt", JStr prompt); ("model", opt_json JStr model);
     ("max_tokens", opt_json JInt max_tokens);
     ("temperature", opt_json JFloat' temperature)]
  = ParamsGenerate {| gen_prompt := prompt; gen_model := model;
                      gen_max_tokens := max_tokens;
                      gen_temperature := temperature |}.
Proof. by destruct model, max_tokens, temperature as [[??]|]. Qed.

End Unions.

(* ===================================================================== *)
(** * Properties of the coordinator *)
(* ===================================================================== *)

Section Ingestion.

Import TaskManager.

Context (rt : runtime).

Lemma eqb_neq (a b : string) : a ≠ b → String.eqb a b = false.
Proof. intros H. by apply String.eqb_neq. Qed.

(** A well-formed [task_result] message is acknowledged and writes the
    record computed by [apply_result]. *)
Lemma receive_a2a_result_ok message payload (task_statuses : table) :
  task_id message ≠ "" →
  message_type message = "task_result" →
  result_payload (a2a_payload message) = Return payload →
  receive_a2a_result rt message task_statuses =
    (Return (reply "ack" (message_id message) "Result received and processed."),
     <[task_id message :=
         apply_result payload
           (default unknown_record (task_statuses !! task_id message))]>
       task_statuses).
Proof.
  intros Hid Hty Hp. unfold receive_a2a_result, receive_a2a_result_try.
  rewrite (eqb_neq _ _ Hid), Hty, String.eqb_refl, Hp. reflexivity.
Qed.

(** The endpoint answers every message: no path of it raises. *)
Lemma receive_a2a_result_returns message (task_statuses : table) :
  ∃ answer, fst (receive_a2a_result rt message task_statuses) = Return answer.
Proof.
  unfold receive_a2a_result.
  destruct (String.eqb (task_id message) ""); [by eexists|].
  destruct (String.eqb (message_type message) "task_result"); [|by eexists].
  destruct (receive_a2a_result_try message task_statuses) as [[a t]|e];
    by eexists.
Qed.

(** No update gives a record the status ["processing"]. *)
Lemma apply_result_not_processing payload current :
  status (apply_result payload current) ≠ "processing".
Proof.
  unfold apply_result.
  destruct (String.eqb (tr_status payload) "completed") eqn:E1.
  { apply String.eqb_eq in E1. simpl. rewrite E1. discriminate. }
  destruct (String.eqb (tr_status payload) "failed") eqn:E2.
  { apply String.eqb_eq in E2. simpl. rewrite E2. discriminate. }
  destruct (String.eqb (tr_status payload) "requires_clarification") eqn:E3.
  { apply String.eqb_eq in E3. simpl. rewrite E3. discriminate. }
  simpl. discriminate.
Qed.

(** One call of the endpoint: a record that reads ["processing"] afterwards
    was there, unchanged, before. *)
Lemma receive_a2a_result_processing message (task_statuses : table) tid r :
  snd (receive_a2a_result rt message task_statuses) !! tid = Some r →
  status r = "processing" →
  task_statuses !! tid = Some r.
Proof.
  unfold receive_a2a_result.
  destruct (String.eqb (task_id message) ""); [done|].
  destruct (String.eqb (message_type message) "task_result"); [|done].
  unfold receive_a2a_result_try.
  destruct (result_payload (a2a_payload message)) as [payload|e]; simpl.
  - destruct (decide (task_id message = tid)) as [->|Hne].
    + rewrite lookup_insert_eq. intros [= <-] Hs.
      by apply apply_result_not_processing in Hs.
    + by rewrite lookup_insert_ne.
  - destruct (decide (task_id message = tid)) as [->|Hne].
    + rewrite lookup_insert_eq. intros [= <-]. discriminate.
    + by rewrite lookup_insert_ne.
Qed.

(** One call of the endpoint never removes a record. *)
Lemma receive_a2a_result_keeps message (task_statuses : table) tid :
  is_Some (task_statuses !! tid) →
  is_Some (snd (receive_a2a_result rt message task_statuses) !! tid).
Proof.
  intros Hs. unfold receive_a2a_result.
  destruct (String.eqb (task_id message) ""); [done|].
  destruct (String.eqb (message_type message) "task_result"); [|done].
  destruct (receive_a2a_result_try message task_statuses) as [[a t]|e] eqn:E;
    simpl.
  - unfold receive_a2a_result_try in E.
    destruct (result_payload (a2a_payload message)); [|done].
    simpl in E. injection E as _ <-.
    destruct (decide (task_id message = tid)) as [->|Hne].
    + rewrite lookup_insert_eq. by eexists.
    + by rewrite lookup_insert_ne.
  - destruct (decide (task_id message = tid)) as [->|Hne].
    + rewrite lookup_insert_eq. by eexists.
    + by rewrite lookup_insert_ne.
Qed.

End Ingestion.

Section IngestionClaims.

Import TaskManager.

Context (rt : runtime).

(** C7, as the code has it. A [task_result] message with a task id never
    makes the endpoint raise. When its payload is received as an
    [A2APayloadTaskResult], or as a dict that validates as one, and carries
    a status other than completed, failed or requires_clarification, the
    message is acknowledged; the record of the task gets status
    ["unknown"] and the error
    [{"message": "Received unknown status: <status>"}], and keeps the
    result and question it had (those of the default record when it is
    new). A payload with the four keys of a result is received as an
    [A2APayloadTaskResult]. A payload that holds the status alone is
    received as an [A2APayloadTaskStatusUpdate]: the endpoint answers with
    an error and records the task as failed, whatever the status is. *)
Theorem unrecognized_status_is_recorded_as_unknown
    message (task_statuses : table) :
  task_id message ≠ "" →
  message_type message = "task_result" →
  (∃ answer, fst (receive_a2a_result rt message task_statuses) = Return answer) ∧
  (∀ payload,
     result_payload (a2a_payload message) = Return payload →
     tr_status payload ≠ "completed" →
     tr_status payload ≠ "failed" →
     tr_status payload ≠ "requires_clarification" →
     ∃ answer r,
       receive_a2a_result rt message task_statuses
         = (Return answer, <[task_id message := r]> task_statuses) ∧
       status r = "unknown" ∧
       error r = JObj [("message",
                        JStr ("Received unknown status: " +:+ tr_status payload))] ∧
       result r
         = result (default unknown_record (task_statuses !! task_id message)) ∧
       question r
         = question (default unknown_record (task_statuses !! task_id message))) ∧
  (∀ u,
     a2a_payload message = PStatus u →
     ∃ detail,
       receive_a2a_result rt message task_statuses
         = (Return (reply "error" (message_id message)
                      ("Internal error processing result payload: " +:+ detail)),
            <[task_id message :=
                failed_record
                  ("Internal server error processing result payload: "
                   +:+ detail)]> task_statuses)) ∧
  (∀ r, union_payload rt (dump_task_result r) = PResult r) ∧
  (∀ s, union_payload rt [("status", JStr s)]
          = PStatus {| su_status := s; su_progress := None;
                       su_message := None |}).
Proof.
  intros Hid Hty. split; [|split; [|split; [|split]]].
  - unfold receive_a2a_result.
    rewrite (eqb_neq _ _ Hid), Hty. simpl.
    destruct (receive_a2a_result_try message task_statuses) as [[a t]|e];
      by eexists.
  - intros payload Hp H1 H2 H3.
    rewrite (receive_a2a_result_ok rt _ _ _ Hid Hty Hp).
    do 2 eexists. split; [reflexivity|].
    unfold apply_result.
    rewrite (eqb_neq _ _ H1), (eqb_neq _ _ H2), (eqb_neq _ _ H3). by simpl.
  - intros u Hu. unfold receive_a2a_result, receive_a2a_result_try.
    rewrite (eqb_neq _ _ Hid), Hty, Hu. simpl. by eexists.
  - apply union_payload_task_result.
  - done.
Qed.

(** C6, as the code has it. A [task_result] message with a task id whose
    payload is received as an [A2APayloadTaskResult], or as a dict that
    validates as one, applies exactly one update, chosen by the payload's
    status. completed: the result becomes
    the payload's result, or the empty dict when that is missing or empty,
    and error and question become null. failed: the error becomes the
    payload's error, or [{"message": "Unknown error from agent."}] when that
    is missing or empty, and result and question become null.
    requires_clarification: the question becomes the payload's question
    string, or the dict
    [{"text": "Clarification needed, no question provided."}] when that is
    missing or empty, and result and error become null. *)
Theorem result_update_is_keyed_on_status
    message payload (task_statuses : table) :
  task_id message ≠ "" →
  message_type message = "task_result" →
  result_payload (a2a_payload message) = Return payload →
  ∃ answer r,
    receive_a2a_result rt message task_statuses
      = (Return answer, <[task_id message := r]> task_statuses) ∧
    (tr_status payload = "completed" →
       status r = "completed" ∧
       result r = JObj (default [] (tr_result payload)) ∧
       error r = JNull ∧ question r = JNull) ∧
    (tr_status payload = "failed" →
       status r = "failed" ∧
       result r = JNull ∧
       error r = JObj (match tr_error payload with
                       | Some [] | None =>
                           [("message", JStr "Unknown error from agent.")]
                       | Some e => e
                       end) ∧
       question r = JNull) ∧
    (tr_status payload = "requires_clarification" →
       status r = "requires_clarification" ∧
       result r = JNull ∧ error r = JNull ∧
       question r = match tr_question payload with
                    | Some "" | None =>
                        JObj [("text",
                               JStr "Clarification needed, no question provided.")]
                    | Some q => JStr q
                    end).
Proof.
  intros Hid Hty Hp.
  rewrite (receive_a2a_result_ok rt _ _ _ Hid Hty Hp).
  do 2 eexists. split; [reflexivity|].
  unfold apply_result.
  split; [|split]; intros E; rewrite E; simpl; repeat split.
  - by destruct (tr_result payload) as [[|??]|].
  - by destruct (tr_error payload) as [[|??]|].
  - by destruct (tr_question payload) as [[|??]|].
Qed.

(** C2, as the code has it. Once the record of a task exists with a status
    other than ["processing"], it exists with a status other than
    ["processing"] after any sequence of messages handled by the result
    endpoint. *)
Theorem ingestion_never_returns_to_processing
    (messages : list A2AMessage) (task_statuses : table) tid r :
  task_statuses !! tid = Some r →
  status r ≠ "processing" →
  ∃ r', ingest_all rt task_statuses messages !! tid = Some r' ∧
        status r' ≠ "processing".
Proof.
  revert task_statuses r.
  induction messages as [|message messages IH]; intros task_statuses r Hr Hs.
  { exists r. done. }
  simpl.
  destruct (receive_a2a_result_keeps rt message task_statuses tid) as [r1 Hr1];
    [by eexists|].
  apply (IH _ r1 Hr1).
  intros Hp.
  pose proof (receive_a2a_result_processing rt _ _ _ _ Hr1 Hp) as Hsame.
  rewrite Hr in Hsame. injection Hsame as ->. done.
Qed.

End IngestionClaims.

Section TriggerClaims.

Import TaskManager.

Context (rt : runtime) (cfg : config).

(** A trigger whose dispatch is answered or times out replies with the
    task id and leaves the fresh record in the table. *)
Lemma trigger_task_sent post kind topic tid mid now (task_statuses : table) :
  timed_out (dispatch rt cfg post kind topic tid mid now) = true ∨
  answered (dispatch rt cfg post kind topic tid mid now) = true →
  trigger_task rt cfg post kind topic tid mid now task_statuses =
    (Return (processing_reply kind tid),
     <[tid := processing_record]> task_statuses).
Proof.
  destruct kind as [|style]; simpl;
    unfold trigger_research_task, trigger_article_task, trigger; simpl;
    match goal with
    | |- context [post_checked ?o] => destruct o as [code body|m|m|m|m]
    end; simpl; intros [H|H]; try discriminate; try reflexivity;
    apply negb_true_iff in H; by rewrite H.
Qed.

(** A trigger only writes the record of the task id it has drawn. *)
Lemma trigger_task_other post kind topic tid mid now (task_statuses : table) tid' :
  tid ≠ tid' →
  snd (trigger_task rt cfg post kind topic tid mid now task_statuses) !! tid'
    = task_statuses !! tid'.
Proof.
  intros Hne.
  destruct kind as [|style]; simpl;
    unfold trigger_research_task, trigger_article_task, trigger; simpl;
    match goal with
    | |- context [post_checked ?o] => destruct (post_checked o) as [b|e]
    end; simpl.
  all: try (by rewrite lookup_insert_ne).
  all: destruct e as [| | | |[] ?| |]; simpl;
    by rewrite ?lookup_insert_ne.
Qed.

(** C5. When the POST that dispatches the assignment times out, the trigger
    endpoint returns the success reply with the task id and the record of
    the task stays ["processing"]: reply and table are those of a trigger
    whose dispatch the agent answers. *)
Theorem dispatch_timeout_is_treated_as_sent
    post post' kind topic tid mid now (task_statuses : table) :
  timed_out (dispatch rt cfg post kind topic tid mid now) = true →
  answered (dispatch rt cfg post' kind topic tid mid now) = true →
  trigger_task rt cfg post kind topic tid mid now task_statuses =
    (Return (processing_reply kind tid),
     <[tid := processing_record]> task_statuses) ∧
  trigger_task rt cfg post kind topic tid mid now task_statuses =
    trigger_task rt cfg post' kind topic tid mid now task_statuses.
Proof.
  intros Ht Ha.
  rewrite (trigger_task_sent post) by (by left).
  rewrite (trigger_task_sent post') by (by right). done.
Qed.

(** C8. After a trigger whose dispatch is answered or times out, the status
    query for the task id of the reply returns the record with status
    ["processing"] and null result, error and question. *)
Theorem status_after_trigger_is_processing
    post kind topic tid mid now (task_statuses : table) :
  timed_out (dispatch rt cfg post kind topic tid mid now) = true ∨
  answered (dispatch rt cfg post kind topic tid mid now) = true →
  fst (trigger_task rt cfg post kind topic tid mid now task_statuses)
    = Return (processing_reply kind tid) ∧
  get_task_status tid
    (snd (trigger_task rt cfg post kind topic tid mid now task_statuses))
    = Return {| status := "processing"; result := JNull;
                error := JNull; question := JNull |}.
Proof.
  intros H. rewrite (trigger_task_sent post) by done. simpl.
  split; [done|]. unfold get_task_status. by rewrite lookup_insert_eq.
Qed.

(** One request leaves alone the record of a task id that it neither
    issues nor reports on. *)
Lemma serve_other post (task_statuses : table) r tid :
  tid ∉ triggered [r] → tid ∉ reported [r] →
  serve rt cfg post task_statuses r !! tid = task_statuses !! tid.
Proof.
  destruct r as [kind topic tid' mid now|message|tid']; simpl;
    intros Ht Hr; [| |done].
  - apply trigger_task_other. set_solver.
  - assert (task_id message ≠ tid) as Hne by set_solver.
    unfold receive_a2a_result.
    destruct (String.eqb (task_id message) ""); [done|].
    destruct (String.eqb (message_type message) "task_result"); [|done].
    destruct (receive_a2a_result_try message task_statuses) as [[a t]|e] eqn:E;
      simpl; [|by rewrite lookup_insert_ne].
    unfold receive_a2a_result_try in E.
    destruct (result_payload (a2a_payload message)); [|done].
    simpl in E. injection E as _ <-. by rewrite lookup_insert_ne.
Qed.

(** One request does not give the status ["processing"] to a task id that
    it does not issue. *)
Lemma serve_processing post (task_statuses : table) r tid rec :
  tid ∉ triggered [r] →
  serve rt cfg post task_statuses r !! tid = Some rec →
  status rec = "processing" →
  task_statuses !! tid = Some rec.
Proof.
  destruct r as [kind topic tid' mid now|message|tid']; simpl;
    intros Ht Hl Hs; [| |done].
  - rewrite trigger_task_other in Hl; [done|set_solver].
  - by apply (receive_a2a_result_processing rt message).
Qed.

Lemma triggered_app rs r :
  triggered (rs ++ [r])%list = (triggered rs ++ triggered [r])%list.
Proof. unfold triggered. by rewrite omap_app. Qed.

Lemma reported_app rs r :
  reported (rs ++ [r])%list = (reported rs ++ reported [r])%list.
Proof. unfold reported. by rewrite omap_app. Qed.

(** C9, as the code has it. Start from the empty table and let the
    coordinator serve any sequence of requests. For a task id that no
    trigger has issued: the status query reports not found (404) as long as
    no message naming the id was posted to the result endpoint, and in every
    case a record returned for the id does not have the status
    ["processing"]. *)
Theorem untriggered_task_is_never_processing post (rs : list request) tid :
  tid ∉ triggered rs →
  (tid ∉ reported rs →
     get_task_status tid (serve_all rt cfg post ∅ rs)
       = Raise (HTTPException 404 "Task ID not found or not yet initialized.")) ∧
  (∀ rec, get_task_status tid (serve_all rt cfg post ∅ rs) = Return rec →
          status rec ≠ "processing").
Proof.
  unfold get_task_status, serve_all. intros Ht.
  induction rs as [|r rs IH] using rev_ind.
  { simpl. rewrite lookup_empty. split; [done|]. intros rec [=]. }
  rewrite triggered_app in Ht. rewrite foldl_app. simpl.
  assert (tid ∉ triggered rs) as Ht1 by set_solver.
  assert (tid ∉ triggered [r]) as Ht2 by set_solver.
  destruct (IH Ht1) as [IH1 IH2]. split.
  - intros Hr. rewrite reported_app in Hr.
    rewrite serve_other; [|done|set_solver].
    apply IH1. set_solver.
  - intros rec Hrec Hs.
    destruct (serve rt cfg post (foldl (serve rt cfg post) ∅ rs) r !! tid)
      as [rec'|] eqn:E; [|done].
    injection Hrec as ->.
    pose proof (serve_processing _ _ _ _ _ Ht2 E Hs) as Hprev.
    apply (IH2 rec); [by rewrite Hprev|done].
Qed.

End TriggerClaims.

(* ===================================================================== *)
(** * Properties of the tool adapter *)
(* ===================================================================== *)

Section Adapter.

Context (rt : runtime) (post : string → json → http_outcome).

(** What the [try] block raises is what the two handlers turn into a
    failure result. *)
Lemma call_mcp_tool_try_raises url c e :
  call_mcp_tool_try rt post url c = Raise e →
  transport_failed (post url (dump_tool_call c)) = true.
Proof.
  unfold call_mcp_tool_try, transport_failed.
  destruct (post url (dump_tool_call c)) as [code body|m|m|m|m]; try done.
  simpl. destruct (is_error_status code); [done|]. simpl.
  destruct body as [j|]; [|done]. simpl.
  destruct j; try done.
  intros ->. apply negb_true_iff, bool_decide_eq_false. by intros [??].
Qed.

Lemma call_mcp_tool_try_returns url c r :
  call_mcp_tool_try rt post url c = Return r →
  ∃ code body,
    post url (dump_tool_call c) = Response code body ∧
    is_error_status code = false ∧ decoded_body body = Some r.
Proof.
  unfold call_mcp_tool_try.
  destruct (post url (dump_tool_call c)) as [code body|m|m|m|m]; try done.
  simpl. destruct (is_error_status code) eqn:Ec; [done|]. simpl.
  destruct body as [j|]; simpl; [|by destruct (json_error_is_request_exception rt)].
  destruct j; try done.
  intros E. exists code, (Some (JObj kvs)). repeat split; [done|].
  unfold decoded_body. by rewrite E.
Qed.

(** C3, as the code has it. [call_mcp_tool] returns a tool result for every
    server address, tool name, parameter dict and task id; it does not
    raise. The request carries the tool call built from them, whose
    parameters are what the union makes of the dict. When the transport
    fails (the request raises with a connection
    error, a timeout or another request error, the status code is between
    400 and 599, or the body is not JSON or does not hold a tool result),
    the result has status ["failure"], no result data and an error
    [{"code": c, "message": m}] with [c] one of MCP_CALL_FAILED and
    UNEXPECTED_ERROR. Otherwise it is the tool result held by the body. *)
Theorem call_mcp_tool_returns_a_result url name (parameters : dict) tid :
  let o := post url (dump_tool_call
                       {| tool_name := name; tc_task_id := tid;
                          tc_parameters := union_parameters rt parameters |}) in
  ∃ r, call_mcp_tool rt post url name parameters tid = Return r ∧
       (transport_failed o = true →
          mr_status r = "failure" ∧ mr_result r = None ∧
          ∃ code message,
            mr_error r = Some [("code", JStr code); ("message", JStr message)] ∧
            (code = "MCP_CALL_FAILED" ∨ code = "UNEXPECTED_ERROR")) ∧
       (transport_failed o = false →
          ∃ status body, o = Response status body ∧ decoded_body body = Some r).
Proof.
  intros o. unfold call_mcp_tool.
  destruct (call_mcp_tool_try rt post url _) as [r|e] eqn:E.
  - apply call_mcp_tool_try_returns in E as (code & body & Ho & Hc & Hb).
    exists r. split; [done|]. fold o in Ho. split.
    + rewrite Ho. simpl. rewrite Hc, Hb. simpl. done.
    + intros _. by exists code, body.
  - apply call_mcp_tool_try_raises in E. fold o in E.
    assert (∃ code, (code = "MCP_CALL_FAILED" ∨ code = "UNEXPECTED_ERROR") ∧
              match e with
              | RequestException k m =>
                  Return (failure_result "MCP_CALL_FAILED"
                            (exn_str rt (RequestException k m)))
              | _ => Return (failure_result "UNEXPECTED_ERROR" (exn_str rt e))
              end = Return (failure_result code (exn_str rt e)))
      as (code & Hcode & ->).
    { destruct e; eauto. }
    eexists. split; [reflexivity|]. split.
    + intros _. simpl. repeat split. by exists code, (exn_str rt e).
    + by rewrite E.
Qed.

End Adapter.

(* ===================================================================== *)
(** * Properties of the agent task handlers *)
(* ===================================================================== *)

Section Handlers.

Context (rt : runtime) (cfg : config) (env : agent_env).

(** Every report is appended to the log, and raises exactly when its POST
    does. *)
Lemma post_task_result_log sender tid st rd ed qd log :
  ∃ s, post_task_result rt cfg env sender tid st rd ed qd log =
         (match post_checked (sent_outcome s) with
          | Return _ => Return ()
          | Raise e => Raise e
          end, (log ++ [s])%list) ∧
       reports_on tid s ∧
       sent_status s = Some (JStr st) ∧
       sent_error s = Some (opt_json JObj ed).
Proof.
  unfold post_task_result. rewrite union_payload_task_result.
  match goal with |- context [(log ++ [?x])%list] => exists x end.
  split; [|by repeat split]. simpl. by destruct (post_checked _).
Qed.

Local Opaque post_task_result.

Ltac send_step :=
  match goal with
  | |- context [post_task_result ?r ?c ?e ?sender ?tid ?st ?rd ?ed ?qd ?log] =>
      let s := fresh "s" in
      let Hon := fresh "Hon" in
      let Hst := fresh "Hst" in
      let Herr := fresh "Herr" in
      let Hpost := fresh "Hpost" in
      destruct (post_task_result_log sender tid st rd ed qd log)
        as (s & -> & Hon & Hst & Herr);
      destruct (post_checked (sent_outcome s)) eqn:Hpost; simpl
  end.

Ltac unfold_handler :=
  unfold Researcher.send_a2a_error_to_task_manager,
    Researcher.send_a2a_result_to_task_manager, Researcher.send_a2a_response,
    ArticleDraft.send_a2a_result_to_task_manager,
    bind, try_except, ret, throw, lift; simpl.

Lemma raised_of_post s e : post_checked (sent_outcome s) = Raise e → raised s = true.
Proof. unfold raised. by intros ->. Qed.

Local Hint Resolve raised_of_post : core.
Local Hint Constructors reported_once_or_retried : core.

(** The researcher reports on every [assign_task] message. *)
Lemma researcher_reports run message :
  message_type message = "assign_task" →
  reported_once_or_retried (task_id message)
    (snd (Researcher.receive_a2a_message rt cfg env run message [])).
Proof.
  intros Hty. unfold Researcher.receive_a2a_message.
  rewrite Hty. simpl.
  destruct (Researcher.assign_payload (a2a_payload message)) as [payload|e].
  2: { unfold_handler. send_step; eauto. }
  destruct (String.eqb (task_type payload) "research").
  2: { unfold_handler. send_step; eauto. }
  destruct (negb (truthy _)).
  { unfold_handler. send_step; eauto. }
  unfold_handler.
  destruct run as [agent_outcome|e]; simpl.
  2: { send_step; eauto. }
  destruct (Researcher.cut_result_tags _) as [summary|e]; simpl.
  2: { send_step; eauto. }
  send_step; [eauto|].
  send_step; eauto.
Qed.

(** The article draft agent reports on every [assign_task] message whose
    payload is an [A2APayloadAssignTask] with a usable topic. *)
Lemma article_draft_reports agent_executor bucket_name run message payload :
  message_type message = "assign_task" →
  a2a_payload message = PAssign payload →
  topic_is_text payload →
  reported_once_or_retried (task_id message)
    (snd (ArticleDraft.receive_a2a_message rt cfg env agent_executor
            bucket_name run message [])).
Proof.
  intros Hty Hp Htopic. unfold ArticleDraft.receive_a2a_message.
  destruct agent_executor; simpl.
  2: { unfold_handler. send_step; eauto. }
  rewrite Hty, Hp. simpl.
  destruct (String.eqb (task_type payload) "write_article_draft").
  2: { unfold_handler. send_step; eauto. }
  unfold topic_is_text in Htopic.
  destruct (dict_get "topic" (parameters payload)) as [topic|] eqn:Et; simpl.
  2: { unfold_handler. send_step; eauto. }
  destruct (negb (truthy topic)) eqn:Etr.
  { unfold_handler. send_step; eauto. }
  assert (∃ t, topic = JStr t) as [t ->].
  { destruct topic; try (rewrite Htopic in Etr; discriminate). by eexists. }
  destruct bucket_name as [[|c b]|].
  1, 3: unfold_handler; send_step; eauto.
  unfold_handler.
  destruct run as [agent_outcome|e]; simpl.
  2: { send_step; eauto. }
  destruct (ArticleDraft.classify agent_outcome) as [[[st rd] ed]|e]; simpl.
  2: { send_step; eauto. }
  send_step; [eauto|].
  send_step; eauto.
Qed.

(** The upload tool hands a failure of the tool server to the language
    model as a sentence built from the error's message; the error code is
    not part of it. *)
Lemma upload_failure_observation post bucket blob content r e :
  call_mcp_tool rt post (CLOUD_STORAGE_MCP_URL cfg) "upload_file"
    [("bucket_name", JStr bucket); ("destination_blob_name", JStr blob);
     ("source_file_content", JStr content)] None = Return r →
  mr_status r = "failure" →
  mr_error r = Some e →
  UploadFileTool.arun rt cfg post bucket blob content
    = Return (JStr ("Error uploading file: " +:+
                    format rt (default (JStr "Unknown upload error")
                                 (dict_get "message" e)))).
Proof.
  intros Hcall Hs He. unfold UploadFileTool.arun. rewrite Hcall. simpl.
  unfold success_value, error_message. by rewrite Hs, He.
Qed.

(** C1, as the code has it. For every [assign_task] message the researcher
    handles, and for every one the article draft agent handles whose payload
    is an [A2APayloadAssignTask] with a missing, empty or string topic, the
    handler posts a [task_result] for the task to the coordinator: exactly
    one when that POST does not raise, and otherwise at most one more, which
    carries status failed. This holds whether the agent executor returns or
    raises, and whatever the network does. *)
Theorem assignment_is_reported_once_or_retried run message :
  message_type message = "assign_task" →
  reported_once_or_retried (task_id message)
    (snd (Researcher.receive_a2a_message rt cfg env run message [])) ∧
  (∀ agent_executor bucket_name payload,
     a2a_payload message = PAssign payload →
     topic_is_text payload →
     reported_once_or_retried (task_id message)
       (snd (ArticleDraft.receive_a2a_message rt cfg env agent_executor
               bucket_name run message []))).
Proof.
  intros Hty. split.
  - by apply researcher_reports.
  - intros. by eapply article_draft_reports.
Qed.


Local Transparent post_task_result.

End Handlers.

(* ===================================================================== *)
(** * Properties of the message models *)
(* ===================================================================== *)

Section RoundTrip.

Context (rt : runtime) (parse_datetime : json → option Z) (now : Z).

Lemma tool_result_round_trip (r : MCPToolResult) :
  decode_tool_result (JObj (dump_tool_result r))
    = Return {| value := r;
                model_fields_set := list_to_set ["status"; "result"; "error"] |}.
Proof. by destruct r as [s [res|] [err|]]. Qed.

(** Decoding an encoded tool call: the parameters are what the union makes
    of their encoding. *)
Lemma tool_call_round_trip (c : MCPToolCall) :
  decode_tool_call rt (dump_tool_call c)
    = Return {| value :=
                  {| tool_name := tool_name c;
                     tc_task_id := tc_task_id c;
                     tc_parameters :=
                       union_parameters rt
                         (dump_tool_parameters (tc_parameters c)) |};
                model_fields_set :=
                  list_to_set ["tool_name"; "task_id"; "parameters"] |}.
Proof. by destruct c as [n [t|] p]. Qed.

Lemma message_round_trip (m : A2AMessage) :
  parse_datetime (JStr (isoformat rt (timestamp m))) = Some (timestamp m) →
  decode_message rt parse_datetime now (dump_message rt m)
    = Return {| value :=
                  {| task_id := task_id m;
                     message_id := message_id m;
                     sender_agent_id := sender_agent_id m;
                     receiver_agent_id := receiver_agent_id m;
                     message_type := message_type m;
                     timestamp := timestamp m;
                     a2a_payload :=
                       union_payload rt (dump_payload (a2a_payload m));
                     context := context m |};
                model_fields_set := list_to_set message_fields |}.
Proof.
  intros Ht. destruct m. unfold decode_message, dump_message. simpl in *.
  by rewrite Ht.
Qed.

Lemma payload_validated_dump p :
  payload_validated rt p → union_payload rt (dump_payload p) = p.
Proof.
  destruct p; simpl; intros H;
    auto using union_payload_assign, union_payload_status_update,
      union_payload_task_result.
Qed.

Lemma parameters_validated_dump p :
  parameters_validated rt p →
  union_parameters rt (dump_tool_parameters p) = p.
Proof.
  destruct p; intros H;
    auto using union_parameters_generate, union_parameters_upload,
      union_parameters_download, union_parameters_delete.
Qed.

Lemma union_payload_validated d : payload_validated rt (union_payload rt d).
Proof.
  pose proof (union_payload_dump rt d) as H.
  by destruct (union_payload rt d).
Qed.

Lemma union_parameters_validated d :
  parameters_validated rt (union_parameters rt d).
Proof.
  pose proof (union_parameters_dump rt d) as H.
  by destruct (union_parameters rt d).
Qed.

(** C10, as the code has it. Decoding the encoding of a message, a tool
    call or a tool result succeeds and gives back the value itself: every
    string, the timestamp (when the datetime parser reads back what
    [isoformat] wrote), the context, and the payload or the parameters,
    which come back as the same model or as the same dict. That holds for
    every payload and every parameters that validation can have built,
    which is a model or a dict the union leaves a dict; and whatever
    validation builds from a dict is one of these. Every field of the
    decoded value counts as given: the encoding writes a field that was
    left out as null, and it is read back as a field set to null. *)
Theorem round_trip_keeps_the_field_values (m : A2AMessage) :
  parse_datetime (JStr (isoformat rt (timestamp m))) = Some (timestamp m) →
  payload_validated rt (a2a_payload m) →
  (∃ i, decode_message rt parse_datetime now (dump_message rt m) = Return i ∧
        value i = m ∧
        model_fields_set i = list_to_set message_fields) ∧
  (∀ c : MCPToolCall,
     parameters_validated rt (tc_parameters c) →
     ∃ i, decode_tool_call rt (dump_tool_call c) = Return i ∧
          value i = c ∧
          model_fields_set i = list_to_set ["tool_name"; "task_id"; "parameters"]) ∧
  (∀ r : MCPToolResult,
     ∃ i, decode_tool_result (JObj (dump_tool_result r)) = Return i ∧
          value i = r ∧
          model_fields_set i = list_to_set ["status"; "result"; "error"]) ∧
  (∀ d, payload_validated rt (union_payload rt d) ∧
        parameters_validated rt (union_parameters rt d)).
Proof.
  intros Ht Hp. repeat split.
  - eexists. split; [by apply message_round_trip|]. simpl.
    rewrite (payload_validated_dump _ Hp). by destruct m.
  - intros c Hc. eexists. split; [by apply tool_call_round_trip|]. simpl.
    rewrite (parameters_validated_dump _ Hc). by destruct c.
  - intros r. eexists. split; [by apply tool_result_round_trip|]. done.
  - apply union_payload_validated.
  - apply union_parameters_validated.
Qed.

End RoundTrip.

(* ===================================================================== *)
(** * Further properties of the coordinator *)
(* ===================================================================== *)

Section Coordinator.

Import TaskManager.

Context (rt : runtime) (cfg : config) (post : string → json → http_outcome).

(** A payload dict without a string under ["status"] does not validate. *)
Lemma result_payload_without_status d :
  (∀ s, dict_get "status" d ≠ Some (JStr s)) →
  result_payload (PDict d)
    = Raise (ValidationError "A2APayloadTaskResult" "status").
Proof.
  intros H. unfold result_payload, validate_task_result, required_str.
  destruct (dict_get "status" d) as [[]|]; try done. by destruct (H s).
Qed.

(** X1. A [task_result] message whose payload dict has no string under
    ["status"] is answered with status error, without an exception, and
    replaces whatever record the task had by a failed one: the status
    query then returns status failed, no result, no question and an error
    message. *)
Theorem malformed_result_is_recorded_as_failed
    message d (task_statuses : table) :
  task_id message ≠ "" →
  message_type message = "task_result" →
  a2a_payload message = PDict d →
  (∀ s, dict_get "status" d ≠ Some (JStr s)) →
  ∃ detail m,
    fst (receive_a2a_result rt message task_statuses)
      = Return (reply "error" (message_id message) detail) ∧
    get_task_status (task_id message)
      (snd (receive_a2a_result rt message task_statuses))
      = Return {| status := "failed"; result := JNull;
                  error := JObj [("message", JStr m)]; question := JNull |}.
Proof.
  intros Hid Hty Hp Hs. unfold receive_a2a_result, receive_a2a_result_try.
  rewrite (eqb_neq _ _ Hid), Hty, Hp, (result_payload_without_status d Hs).
  simpl. do 2 eexists. split; [reflexivity|].
  unfold get_task_status. by rewrite lookup_insert_eq.
Qed.

(** One request never removes a record. *)
Lemma serve_keeps (task_statuses : table) r tid :
  is_Some (task_statuses !! tid) →
  is_Some (serve rt cfg post task_statuses r !! tid).
Proof.
  intros Hs. destruct r as [kind topic tid' mid now|message|tid']; simpl;
    [| by apply receive_a2a_result_keeps | done].
  destruct kind as [|style]; simpl;
    unfold trigger_research_task, trigger_article_task, trigger; simpl;
    match goal with
    | |- context [post_checked ?o] => destruct (post_checked o) as [b|e]
    end; simpl.
  1, 3: destruct (decide (tid' = tid)) as [->|];
    [rewrite lookup_insert_eq; by eexists | by rewrite lookup_insert_ne].
  all: destruct e as [| | | |[] ?| |]; simpl;
    destruct (decide (tid' = tid)) as [->|];
    rewrite ?lookup_insert_eq, ?lookup_insert_ne by done; try done; by eexists.
Qed.

(** The record a trigger leaves under the id it has drawn. *)
Lemma trigger_task_creates kind topic tid mid now (task_statuses : table) :
  is_Some (snd (trigger_task rt cfg post kind topic tid mid now task_statuses)
           !! tid).
Proof.
  destruct kind as [|style]; simpl;
    unfold trigger_research_task, trigger_article_task, trigger; simpl;
    match goal with
    | |- context [post_checked ?o] => destruct (post_checked o) as [b|e]
    end; simpl.
  1, 3: rewrite lookup_insert_eq; by eexists.
  all: destruct e as [| | | |[] ?| |]; simpl;
    rewrite lookup_insert_eq; by eexists.
Qed.

(** What one request adds to the table. *)
Lemma serve_lookup (task_statuses : table) r tid :
  is_Some (serve rt cfg post task_statuses r !! tid) ↔
  is_Some (task_statuses !! tid) ∨ tid ∈ recorded [r].
Proof.
  split.
  - destruct (decide (tid ∈ recorded [r])) as [|Hn]; [by right|].
    intros Hs. left.
    destruct r as [kind topic tid' mid now|message|tid']; simpl in *;
      [| |done].
    + rewrite trigger_task_other in Hs; [done|]. set_solver.
    + revert Hs Hn. unfold receive_a2a_result.
      destruct (String.eqb (task_id message) "") eqn:E1; [done|].
      destruct (String.eqb (message_type message) "task_result") eqn:E2;
        [|done].
      intros Hs Hn. assert (task_id message ≠ tid) as Hne by set_solver.
      destruct (receive_a2a_result_try message task_statuses)
        as [[a t]|e] eqn:E; simpl in Hs.
      * unfold receive_a2a_result_try in E.
        destruct (result_payload (a2a_payload message)); [|done].
        simpl in E. injection E as _ <-. by rewrite lookup_insert_ne in Hs.
      * by rewrite lookup_insert_ne in Hs.
  - intros [Hs|Hin]; [by apply serve_keeps|].
    destruct r as [kind topic tid' mid now|message|tid']; simpl in *.
    + assert (tid = tid') as -> by set_solver. apply trigger_task_creates.
    + revert Hin. unfold receive_a2a_result.
      destruct (String.eqb (task_id message) "") eqn:E1; [set_solver|].
      destruct (String.eqb (message_type message) "task_result") eqn:E2;
        [|set_solver].
      intros Hin. assert (tid = task_id message) as -> by set_solver.
      destruct (receive_a2a_result_try message task_statuses)
        as [[a t]|e] eqn:E; simpl.
      * unfold receive_a2a_result_try in E.
        destruct (result_payload (a2a_payload message)); [|done].
        simpl in E. injection E as _ <-. rewrite lookup_insert_eq. by eexists.
      * rewrite lookup_insert_eq. by eexists.
    + set_solver.
Qed.

Lemma recorded_app rs r :
  recorded (rs ++ [r])%list = (recorded rs ++ recorded [r])%list.
Proof. unfold recorded. by rewrite omap_app. Qed.

(** X2. Starting from the empty table, after any sequence of requests the
    status query finds a task id exactly when a trigger has drawn it or a
    [task_result] message with that id, not the empty one, was posted to
    the result endpoint: no request deletes a record, and messages of
    another type or without a task id create none. *)
Theorem table_holds_the_recorded_tasks (rs : list request) tid :
  (∃ r, get_task_status tid (serve_all rt cfg post ∅ rs) = Return r) ↔
  tid ∈ recorded rs.
Proof.
  assert (is_Some (serve_all rt cfg post ∅ rs !! tid) ↔ tid ∈ recorded rs)
    as Hdom.
  { unfold serve_all. induction rs as [|r rs IH] using rev_ind.
    - simpl. rewrite lookup_empty. split; [by intros [??]|set_solver].
    - rewrite foldl_app, recorded_app. simpl. rewrite serve_lookup, IH.
      set_solver. }
  rewrite <- Hdom. unfold get_task_status.
  destruct (serve_all rt cfg post ∅ rs !! tid) as [r|].
  - split; [by eexists|]. intros _. by eexists.
  - split; [by intros [? [=]]|by intros [??]].
Qed.

(** X3. Requests about other tasks do not touch the record of a task: when
    no trigger in the sequence draws the id and no posted message names it,
    the record of the id, or its absence, is the same after the sequence as
    before. *)
Theorem other_tasks_do_not_interfere
    (task_statuses : table) (rs : list request) tid :
  tid ∉ triggered rs → tid ∉ reported rs →
  serve_all rt cfg post task_statuses rs !! tid = task_statuses !! tid.
Proof.
  unfold serve_all. induction rs as [|r rs IH] using rev_ind; [done|].
  rewrite triggered_app, reported_app, foldl_app. simpl. intros Ht Hr.
  rewrite serve_other; [|set_solver..]. apply IH; set_solver.
Qed.

Lemma apply_result_idempotent payload current :
  apply_result payload (apply_result payload current)
    = apply_result payload current.
Proof.
  unfold apply_result.
  destruct (String.eqb (tr_status payload) "completed"); [done|].
  destruct (String.eqb (tr_status payload) "failed"); [done|].
  by destruct (String.eqb (tr_status payload) "requires_clarification").
Qed.

(** X4. Delivering a message to the result endpoint twice leaves the same
    table as delivering it once, whatever the message and the table. *)
Theorem duplicate_result_changes_nothing message (task_statuses : table) :
  snd (receive_a2a_result rt message
         (snd (receive_a2a_result rt message task_statuses)))
  = snd (receive_a2a_result rt message task_statuses).
Proof.
  unfold receive_a2a_result.
  destruct (String.eqb (task_id message) ""); [done|].
  destruct (String.eqb (message_type message) "task_result"); [|done].
  unfold receive_a2a_result_try.
  destruct (result_payload (a2a_payload message)) as [payload|e]; simpl.
  - rewrite lookup_insert_eq. simpl.
    by rewrite apply_result_idempotent, insert_insert_eq.
  - by rewrite insert_insert_eq.
Qed.

(** X5. A well-formed result with one of the three recognised statuses
    decides the record alone: what the table held for the task before,
    nothing or any record, makes no difference to the record afterwards. *)
Theorem last_result_wins message payload (t1 t2 : table) :
  task_id message ≠ "" →
  message_type message = "task_result" →
  result_payload (a2a_payload message) = Return payload →
  tr_status payload = "completed" ∨ tr_status payload = "failed" ∨
    tr_status payload = "requires_clarification" →
  snd (receive_a2a_result rt message t1) !! task_id message
  = snd (receive_a2a_result rt message t2) !! task_id message.
Proof.
  intros Hid Hty Hp Hs.
  rewrite !(receive_a2a_result_ok rt _ _ _ Hid Hty Hp). simpl.
  rewrite !lookup_insert_eq. f_equal. unfold apply_result.
  destruct Hs as [ -> | [ -> | -> ] ]; reflexivity.
Qed.

(** X6. When the POST that dispatches the assignment fails other than by a
    timeout (the connection fails, or the agent answers with a status from
    400 to 599), the trigger endpoint raises an HTTP 503 and leaves a
    failed record for the task id it has drawn: the status query finds it,
    with status failed, no result and an error message. *)
Theorem failed_dispatch_is_recorded_as_failed
    kind topic tid mid now (task_statuses : table) :
  timed_out (dispatch rt cfg post kind topic tid mid now) = false →
  answered (dispatch rt cfg post kind topic tid mid now) = false →
  ∃ detail,
    fst (trigger_task rt cfg post kind topic tid mid now task_statuses)
      = Raise (HTTPException 503 detail) ∧
    get_task_status tid
      (snd (trigger_task rt cfg post kind topic tid mid now task_statuses))
      = Return {| status := "failed"; result := JNull;
                  error := JObj [("message", JStr detail)];
                  question := JNull |}.
Proof.
  destruct kind as [|style]; simpl;
    unfold trigger_research_task, trigger_article_task, trigger; simpl;
    match goal with
    | |- context [post_checked ?o] => destruct o as [code body|m|m|m|m]
    end; simpl; intros Ht Ha; try discriminate;
    try (apply negb_false_iff in Ha; rewrite Ha; simpl);
    eexists; (split; [reflexivity|]);
    unfold get_task_status; by rewrite lookup_insert_eq.
Qed.

Lemma apply_result_well_shaped payload current :
  well_shaped (apply_result payload current).
Proof.
  unfold apply_result, well_shaped.
  destruct (String.eqb (tr_status payload) "completed") eqn:E1.
  { apply String.eqb_eq in E1. right. left. simpl. rewrite E1.
    repeat split. by eexists. }
  destruct (String.eqb (tr_status payload) "failed") eqn:E2.
  { apply String.eqb_eq in E2. do 2 right. left. simpl. rewrite E2.
    repeat split. destruct (tr_error payload) as [[|kv d]|]; by do 2 eexists. }
  destruct (String.eqb (tr_status payload) "requires_clarification") eqn:E3.
  { apply String.eqb_eq in E3. do 3 right. left. simpl. rewrite E3.
    repeat split. destruct (tr_question payload) as [[|c q]|]; eauto. }
  do 4 right. simpl. split; [done|]. by eexists.
Qed.

Lemma failed_record_well_shaped m : well_shaped (failed_record m).
Proof. do 2 right. left. simpl. repeat split. by do 2 eexists. Qed.

Lemma processing_record_well_shaped : well_shaped processing_record.
Proof. by left. Qed.

Lemma serve_well_shaped (task_statuses : table) r :
  (∀ tid rec, task_statuses !! tid = Some rec → well_shaped rec) →
  ∀ tid rec, serve rt cfg post task_statuses r !! tid = Some rec →
             well_shaped rec.
Proof.
  intros Hinv tid rec.
  destruct r as [kind topic tid' mid now|message|tid']; simpl; [| |by eauto].
  - destruct kind as [|style]; simpl;
      unfold trigger_research_task, trigger_article_task, trigger; simpl;
      match goal with
      | |- context [post_checked ?o] => destruct (post_checked o) as [b|e]
      end; simpl.
    1, 3: destruct (decide (tid' = tid)) as [->|];
      [rewrite lookup_insert_eq; intros [= <-];
       apply processing_record_well_shaped
      |rewrite lookup_insert_ne by done; by eauto].
    all: destruct e as [| | | |[] ?| |]; simpl;
      (destruct (decide (tid' = tid)) as [->|];
       [rewrite ?lookup_insert_eq; intros [= <-];
        first [apply processing_record_well_shaped
              |apply failed_record_well_shaped]
       |rewrite ?lookup_insert_ne by done; by eauto]).
  - unfold receive_a2a_result.
    destruct (String.eqb (task_id message) ""); [by eauto|].
    destruct (String.eqb (message_type message) "task_result"); [|by eauto].
    unfold receive_a2a_result_try.
    destruct (result_payload (a2a_payload message)) as [payload|e]; simpl;
      (destruct (decide (task_id message = tid)) as [->|];
       [rewrite lookup_insert_eq; intros [= <-];
        first [apply apply_result_well_shaped|apply failed_record_well_shaped]
       |rewrite lookup_insert_ne by done; by eauto]).
Qed.

(** X7. Starting from the empty table, every record the coordinator holds
    after any sequence of requests has one of the five statuses, with the
    fields that go with it: processing with result, error and question
    null; completed with a dict result and nothing else; failed with a
    non-empty error dict and nothing else; requires_clarification with
    only a question, a non-empty string or the default dict; unknown with
    the error [{"message": ...}]. *)
Theorem records_are_well_shaped (rs : list request) tid rec :
  serve_all rt cfg post ∅ rs !! tid = Some rec → well_shaped rec.
Proof.
  unfold serve_all. revert tid rec.
  induction rs as [|r rs IH] using rev_ind; intros tid rec.
  - simpl. by rewrite lookup_empty.
  - rewrite foldl_app. simpl. by apply serve_well_shaped.
Qed.

End Coordinator.

(* ===================================================================== *)
(** * Further properties of the tools *)
(* ===================================================================== *)

Section Tools.

Context (rt : runtime) (cfg : config).

(** A failed transport gives one of the adapter's two failure results. *)
Lemma call_mcp_tool_failure post url name (parameters : dict) tid :
  transport_failed
    (post url (dump_tool_call
                 {| tool_name := name; tc_task_id := tid;
                    tc_parameters := union_parameters rt parameters |}))
    = true →
  ∃ code m, call_mcp_tool rt post url name parameters tid
              = Return (failure_result code m).
Proof.
  intros Hf. unfold call_mcp_tool.
  destruct (call_mcp_tool_try rt post url _) as [r|e] eqn:E.
  - apply call_mcp_tool_try_returns in E as (code & body & Ho & Hc & Hb).
    rewrite Ho in Hf. simpl in Hf. rewrite Hc, Hb in Hf. by simpl in Hf.
  - destruct e; by do 2 eexists.
Qed.

(** A response that [raise_for_status] lets pass and whose body holds a
    tool result gives that result. *)
Lemma call_mcp_tool_success post url name (parameters : dict) tid code body r :
  post url (dump_tool_call
              {| tool_name := name; tc_task_id := tid;
                 tc_parameters := union_parameters rt parameters |})
    = Response code body →
  is_error_status code = false →
  decoded_body body = Some r →
  call_mcp_tool rt post url name parameters tid = Return r.
Proof.
  intros Ho Hc Hb. unfold call_mcp_tool, call_mcp_tool_try.
  rewrite Ho. simpl. rewrite Hc. simpl.
  unfold decoded_body in Hb. destruct body as [[]|]; try done. simpl.
  by destruct (validate_tool_result kvs) as [r'|]; [injection Hb as ->|].
Qed.

(** X8. When the transport to the tool server fails (the request raises,
    the status is between 400 and 599, or the body holds no tool result),
    none of the three tool wrappers raises: each returns its error
    sentence, built from the adapter's diagnostic message. *)
Theorem tools_turn_transport_failures_into_sentences post :
  (∀ bucket blob content,
     transport_failed
       (post (CLOUD_STORAGE_MCP_URL cfg)
          (dump_tool_call
             {| tool_name := "upload_file"; tc_task_id := None;
                tc_parameters :=
                  ParamsDict [("bucket_name", JStr bucket);
                              ("destination_blob_name", JStr blob);
                              ("source_file_content", JStr content)] |}))
       = true →
     ∃ m, UploadFileTool.arun rt cfg post bucket blob content
            = Return (JStr ("Error uploading file: " +:+ m))) ∧
  (∀ prompt model max_tokens temperature,
     transport_failed
       (post (CREATIVE_LLM_MCP_URL cfg)
          (dump_tool_call
             {| tool_name := "generate_text"; tc_task_id := None;
                tc_parameters :=
                  ParamsDict [("prompt", JStr prompt);
                              ("model", opt_json JStr model);
                              ("max_tokens", opt_json JInt max_tokens);
                              ("temperature", opt_json JFloat' temperature)] |}))
       = true →
     ∃ m, GenerateTextTool.arun rt cfg post prompt model max_tokens temperature
            = Return (JStr ("Error generating text: " +:+ m))) ∧
  (∀ query,
     transport_failed
       (post (WEB_SEARCH_MCP_URL cfg)
          (dump_tool_call
             {| tool_name := "search_web"; tc_task_id := None;
                tc_parameters := ParamsDict [("query", JStr query)] |}))
       = true →
     ∃ m, ResearchTool.run rt cfg post query
            = Return ("Error calling search tool for '" +:+ query +:+ "': "
                      +:+ m)).
Proof.
  repeat split.
  - intros bucket blob content Hf.
    destruct (call_mcp_tool_failure post (CLOUD_STORAGE_MCP_URL cfg)
                "upload_file"
                [("bucket_name", JStr bucket);
                 ("destination_blob_name", JStr blob);
                 ("source_file_content", JStr content)] None)
      as (code & m & E); [by rewrite union_parameters_upload_call|].
    unfold UploadFileTool.arun. rewrite E. simpl. by eexists.
  - intros prompt model max_tokens temperature Hf.
    destruct (call_mcp_tool_failure post (CREATIVE_LLM_MCP_URL cfg)
                "generate_text"
                [("prompt", JStr prompt); ("model", opt_json JStr model);
                 ("max_tokens", opt_json JInt max_tokens);
                 ("temperature", opt_json JFloat' temperature)] None)
      as (code & m & E).
    { rewrite union_parameters_generate_call.
      by destruct model, max_tokens, temperature as [[??]|]. }
    unfold GenerateTextTool.arun. rewrite E. simpl. by eexists.
  - intros query Hf.
    destruct (call_mcp_tool_failure post (WEB_SEARCH_MCP_URL cfg)
                "search_web" [("query", JStr query)] None)
      as (code & m & E); [done|].
    unfold ResearchTool.run. rewrite E. simpl. by eexists.
Qed.

End Tools.

(* ===================================================================== *)
(** * Further properties of the string operations *)
(* ===================================================================== *)

Section MoreStrings.

Import PyStr.

Local Arguments String.append !_ _ / : simpl nomatch.

(** [take_nonspace s = s] says that [s] holds no whitespace. *)
Lemma take_nonspace_app a b :
  take_nonspace a = a → take_nonspace b = b →
  take_nonspace (a +:+ b) = a +:+ b.
Proof.
  induction a as [|c a IH]; simpl; [done|].
  destruct (isspace c); [discriminate|]. intros [= H] Hb. by rewrite IH.
Qed.

Lemma lstrip_nonspace s : take_nonspace s = s → lstrip s = s.
Proof. destruct s as [|c s]; simpl; [done|]. by destruct (isspace c). Qed.

Lemma rstrip_nonspace s : take_nonspace s = s → rstrip s = s.
Proof.
  induction s as [|c s IH]; simpl; [done|].
  destruct (isspace c) eqn:E; [discriminate|]. intros [= H].
  rewrite IH by done. by destruct s.
Qed.

Lemma strip_nonspace s : take_nonspace s = s → strip s = s.
Proof.
  intros H. unfold strip. rewrite (lstrip_nonspace s H).
  by apply rstrip_nonspace.
Qed.

Lemma search_url_unfold s :
  search_url s = match url_at s with
                 | Some u => Some u
                 | None => match s with
                           | EmptyString => None
                           | String _ r => search_url r
                           end
                 end.
Proof. by destruct s. Qed.

Lemma url_at_https rest :
  take_nonspace rest = rest → rest ≠ "" →
  url_at ("https://" +:+ rest) = Some ("https://" +:+ rest).
Proof.
  intros H Hne. unfold url_at. simpl. rewrite H. by destruct rest.
Qed.

Lemma search_url_https rest :
  take_nonspace rest = rest → rest ≠ "" →
  search_url ("https://" +:+ rest) = Some ("https://" +:+ rest).
Proof. intros H Hne. by rewrite search_url_unfold, url_at_https. Qed.

(** The text before the first occurrence of a separator is a prefix of the
    text. *)
Lemma split_once_app sep s before after :
  split_once sep s = Some (before, after) →
  ∃ rest, s = before +:+ rest.
Proof.
  revert before after. induction s as [|c s IH]; intros before after; simpl.
  - destruct (strip_prefix sep ""); [|done]. intros [= <- <-]. by exists "".
  - destruct (strip_prefix sep (String c s)).
    + intros [= <- <-]. by eexists.
    + destruct (split_once sep s) as [[b a]|]; [|done].
      intros [= <- <-]. destruct (IH b a eq_refl) as [rest ->].
      by exists rest.
Qed.

Lemma before_first_prefix sep s : ∃ rest, s = before_first sep s +:+ rest.
Proof.
  unfold before_first. destruct (split_once sep s) as [[b a]|] eqn:E.
  - by eapply split_once_app.
  - exists "". clear E. induction s as [|c s IH]; [done|]. simpl. by f_equal.
Qed.

(** A prefix of a text without whitespace has no whitespace. *)
Lemma take_nonspace_prefix a b :
  take_nonspace (a +:+ b) = a +:+ b → take_nonspace a = a.
Proof.
  induction a as [|c a IH]; simpl; [done|].
  destruct (isspace c); [discriminate|]. intros [= H]. by rewrite IH.
Qed.

Lemma take_nonspace_idem s : take_nonspace (take_nonspace s) = take_nonspace s.
Proof.
  induction s as [|c s IH]; simpl; [done|].
  destruct (isspace c) eqn:E; simpl; [done|]. by rewrite E, IH.
Qed.

(** Cutting at the first ["[]"] keeps the scheme of a URL. *)
Lemma before_first_scheme scheme b :
  scheme = "https://" ∨ scheme = "http://" →
  before_first "[]" (scheme +:+ b) = scheme +:+ before_first "[]" b.
Proof.
  intros [->| ->]; unfold before_first; simpl;
    by destruct (split_once "[]" b) as [[? ?]|].
Qed.

(** What [strip_prefix] finds extends to a longer text. *)
Lemma strip_prefix_app p s rest x :
  strip_prefix p s = Some rest → strip_prefix p (s +:+ x) = Some (rest +:+ x).
Proof.
  revert s. induction p as [|a p IH]; intros s; simpl.
  - by intros [= ->].
  - destruct s as [|b s]; [done|]. simpl.
    destruct (Ascii.eqb a b); [by apply IH|done].
Qed.

(** The separator does not occur in the text before its first
    occurrence. *)
Lemma split_once_before sep s before after :
  sep ≠ "" →
  split_once sep s = Some (before, after) →
  split_once sep before = None.
Proof.
  intros Hsep. revert before after.
  induction s as [|c s IH]; intros before after; simpl.
  - destruct sep; [done|]. done.
  - destruct (strip_prefix sep (String c s)) as [a|] eqn:E.
    + intros [= <- <-]. by destruct sep.
    + destruct (split_once sep s) as [[b a]|] eqn:Es; [|done].
      intros [= <- <-]. simpl.
      destruct (strip_prefix sep (String c b)) as [r|] eqn:Eb.
      * destruct (split_once_app _ _ _ _ Es) as [rest Hs].
        apply (strip_prefix_app _ _ _ rest) in Eb.
        simpl in Eb. rewrite <- Hs in Eb. by rewrite Eb in E.
      * by rewrite (IH b a eq_refl).
Qed.

Lemma before_first_free sep s :
  sep ≠ "" → split_once sep (before_first sep s) = None.
Proof.
  intros Hsep. unfold before_first.
  destruct (split_once sep s) as [[b a]|] eqn:E; [|done].
  by eapply split_once_before.
Qed.

(** [strip] leaves nothing to strip. *)
Lemma rstrip_idem s : rstrip (rstrip s) = rstrip s.
Proof.
  induction s as [|c s IH]; simpl; [done|].
  destruct (rstrip s) as [|c' r] eqn:E.
  - destruct (isspace c) eqn:Ec; simpl; [done|]. by rewrite Ec.
  - simpl. simpl in IH. by rewrite IH.
Qed.

Lemma lstrip_head s :
  lstrip s = "" ∨ ∃ c r, lstrip s = String c r ∧ isspace c = false.
Proof.
  induction s as [|c s IH]; simpl; [by left|].
  destruct (isspace c) eqn:E; [done|]. right. by exists c, s.
Qed.

Lemma rstrip_head c s :
  isspace c = false →
  ∃ r, rstrip (String c s) = String c r.
Proof.
  intros E. simpl. destruct (rstrip s); [rewrite E|]; by eexists.
Qed.

Lemma strip_idem s : strip (strip s) = strip s.
Proof.
  unfold strip.
  destruct (lstrip_head s) as [->|(c & r & -> & Ec)]; [done|].
  destruct (rstrip_head c r Ec) as [r' E]. rewrite E.
  assert (lstrip (String c r') = String c r') as -> by (simpl; by rewrite Ec).
  rewrite <- E. apply rstrip_idem.
Qed.

End MoreStrings.

(* ===================================================================== *)
(** * Properties of the tool servers *)
(* ===================================================================== *)

Section Servers.

Context (rt : runtime) (cfg : config).

Lemma validate_tool_result_dump r :
  validate_tool_result (dump_tool_result r) = Return r.
Proof. by destruct r as [s [res|] [err|]]. Qed.

(** The adapter's request, as the server reads it. *)
Lemma serve_tool_request explain endpoint name tid (parameters : dict) :
  serve_tool rt explain endpoint
    (dump_tool_call {| tool_name := name; tc_task_id := tid;
                       tc_parameters := union_parameters rt parameters |})
  = fastapi_response
      (endpoint {| tool_name := name; tc_task_id := tid;
                   tc_parameters := union_parameters rt parameters |}).
Proof.
  unfold serve_tool. rewrite tool_call_round_trip. simpl.
  by rewrite union_parameters_dump.
Qed.

(** The adapter against a server that returns a tool result. *)
Lemma call_mcp_tool_served post url explain endpoint name
    (parameters : dict) tid r :
  (∀ body, post url body = serve_tool rt explain endpoint body) →
  endpoint {| tool_name := name; tc_task_id := tid;
              tc_parameters := union_parameters rt parameters |}
    = ToolResult r →
  call_mcp_tool rt post url name parameters tid = Return r.
Proof.
  intros Hpost He. unfold call_mcp_tool, call_mcp_tool_try.
  rewrite Hpost, serve_tool_request, He. simpl.
  by rewrite validate_tool_result_dump.
Qed.

(** The adapter against a server that raises an [HTTPException] with an
    error status, or crashes. *)
Lemma call_mcp_tool_refused post url explain endpoint name
    (parameters : dict) tid :
  (∀ body, post url body = serve_tool rt explain endpoint body) →
  (∃ code detail,
     endpoint {| tool_name := name; tc_task_id := tid;
                 tc_parameters := union_parameters rt parameters |}
       = ToolHTTPException code detail ∧ is_error_status code = true) ∨
  (∃ e, endpoint {| tool_name := name; tc_task_id := tid;
                    tc_parameters := union_parameters rt parameters |}
          = ToolCrash e) →
  call_mcp_tool rt post url name parameters tid
    = Return (failure_result "MCP_CALL_FAILED"
                (exn_str rt (RequestException ReqHTTPError "HTTPError"))).
Proof.
  intros Hpost He. unfold call_mcp_tool, call_mcp_tool_try.
  rewrite Hpost, serve_tool_request.
  destruct He as [(code & detail & -> & Hc)|(e & ->)]; simpl; [|done].
  by rewrite Hc.
Qed.

(** X9. The cloud storage endpoint lets nothing escape but its 404: with no
    storage client every call, whatever the tool name, is answered with the
    failure STORAGE_NOT_INITIALIZED; with a client, a call of upload_file,
    download_file or delete_file is answered with a tool result, whatever
    the parameters are and whatever the storage does, and a call of any
    other tool raises the HTTP 404 whose detail is the failure
    TOOL_NOT_FOUND. *)
Theorem cloud_storage_replies storage_client tool_call :
  match CloudStorage.call_tool rt storage_client tool_call with
  | ToolResult r =>
      match storage_client with
      | None =>
          mr_status r = "failure" ∧
          ∃ m, mr_error r = Some [("code", JStr "STORAGE_NOT_INITIALIZED");
                                  ("message", JStr m)]
      | Some _ =>
          known_storage_tool (tool_name tool_call) = true ∧
          (mr_status r = "success" ∧ mr_error r = None ∧
             (∃ kv d, mr_result r = Some (kv :: d)) ∨
           mr_status r = "failure" ∧ mr_result r = None ∧
             ∃ code m, mr_error r = Some [("code", JStr code);
                                          ("message", JStr m)])
      end
  | ToolHTTPException code detail =>
      storage_client ≠ None ∧
      known_storage_tool (tool_name tool_call) = false ∧
      code = 404%Z ∧
      dict_get "status" detail = Some (JStr "failure") ∧
      dict_get "error" detail
        = Some (JObj [("code", JStr "TOOL_NOT_FOUND");
                      ("message",
                       JStr ("Tool '" +:+ tool_name tool_call +:+ "' not found."))])
  | ToolCrash _ => False
  end.
Proof.
  unfold CloudStorage.call_tool, known_storage_tool,
    CloudStorage.invalid_parameters.
  destruct storage_client as [client|]; [|by eauto].
  destruct (String.eqb (tool_name tool_call) "upload_file"); simpl.
  { destruct (CloudStorage.validate_upload _) as [params|e];
      [destruct (CloudStorage.upload_from_string _ _ _ _)|]; simpl;
      split; try done; first [left; by eauto | right; by eauto 10]. }
  destruct (String.eqb (tool_name tool_call) "download_file"); simpl.
  { destruct (CloudStorage.validate_download _) as [params|e];
      [destruct (CloudStorage.download_as_text _ _ _)|]; simpl;
      split; try done; first [left; by eauto | right; by eauto 10]. }
  destruct (String.eqb (tool_name tool_call) "delete_file"); simpl.
  { destruct (CloudStorage.validate_delete _) as [params|e];
      [destruct (CloudStorage.delete_blob _ _ _)|]; simpl;
      split; try done; first [left; by eauto | right; by eauto 10]. }
  done.
Qed.

(** X10. The web search endpoint, called with a dict of parameters, lets no
    exception escape, whatever the language model and [json.loads] do: it
    returns success, with a list of dicts under [search_results], or a
    failure with code MISSING_PARAMETER (exactly when the tool is
    search_web and the query is missing or falsy), LLM_SEARCH_ERROR or
    TOOL_NOT_FOUND (exactly when the tool is not search_web). *)
Theorem web_search_replies json_loads llm_invoke name tid (parameters : dict) :
  ∃ r, WebSearch.call_tool rt json_loads llm_invoke
         {| tool_name := name; tc_task_id := tid;
            tc_parameters := ParamsDict parameters |} = ToolResult r ∧
       (mr_status r = "success" ∧ mr_error r = None ∧
          (∃ items, mr_result r = Some [("search_results", JArr items)] ∧
                    forallb WebSearch.is_dict items = true) ∨
        mr_status r = "failure" ∧ mr_result r = None ∧
          ∃ code m, mr_error r = Some [("code", JStr code); ("message", JStr m)] ∧
            (code = "MISSING_PARAMETER" ∨ code = "LLM_SEARCH_ERROR" ∨
             code = "TOOL_NOT_FOUND") ∧
            (code = "TOOL_NOT_FOUND" ↔ name ≠ "search_web") ∧
            (code = "MISSING_PARAMETER" ↔
               name = "search_web" ∧
               truthy (default JNull (dict_get "query" parameters)) = false)).
Proof.
  unfold WebSearch.call_tool. simpl.
  destruct (String.eqb name "search_web") eqn:En.
  - apply String.eqb_eq in En as ->.
    destruct (truthy (default JNull (dict_get "query" parameters))) eqn:Et;
      simpl.
    + destruct llm_invoke as [content|e]; simpl.
      2: { eexists. split; [done|]. right. repeat split.
           do 2 eexists. split; [done|].
           split; [by auto|]. split; split; try done; by intros []. }
      destruct (WebSearch.unfence content) as [json_string|e]; simpl.
      2: { eexists. split; [done|]. right. repeat split.
           do 2 eexists. split; [done|].
           split; [by auto|]. split; split; try done; by intros []. }
      destruct (json_loads json_string) as [j|e]; simpl.
      2: { eexists. split; [done|]. right. repeat split.
           do 2 eexists. split; [done|].
           split; [by auto|]. split; split; try done; by intros []. }
      unfold WebSearch.checked_results.
      destruct j; simpl;
        try (eexists; split; [done|]; right; repeat split;
             do 2 eexists; split; [done|];
             split; [by auto|]; split; split; try done; by intros []).
      destruct (forallb WebSearch.is_dict xs) eqn:Ef.
      * eexists. split; [done|]. left. repeat split. by eexists.
      * eexists. split; [done|]. right. repeat split.
        do 2 eexists. split; [done|].
        split; [by auto|]. split; split; try done; by intros [].
    + eexists. split; [done|]. right. repeat split.
      do 2 eexists. split; [done|]. split; [by auto|].
      split; split; try done.
  - apply String.eqb_neq in En.
    eexists. split; [done|]. right. repeat split.
    do 2 eexists. split; [done|]. split; [by auto|].
    split; split; try done. by intros [].
Qed.

(** X11. A tool name that a server does not know reaches the caller of
    [call_mcp_tool] in two ways. The cloud storage server raises its 404,
    which the adapter reports as MCP_CALL_FAILED: the code TOOL_NOT_FOUND
    in the detail is lost. The web search server returns the failure, and
    the adapter passes TOOL_NOT_FOUND on. *)
Theorem unknown_tool_through_the_adapter
    post explain client json_loads llm_invoke name (parameters : dict) tid :
  (∀ body, post (CLOUD_STORAGE_MCP_URL cfg) body
           = serve_tool rt explain (CloudStorage.call_tool rt (Some client)) body) →
  (∀ body, post (WEB_SEARCH_MCP_URL cfg) body
           = serve_tool rt explain (WebSearch.call_tool rt json_loads llm_invoke)
               body) →
  known_storage_tool name = false →
  name ≠ "search_web" →
  (∃ m, call_mcp_tool rt post (CLOUD_STORAGE_MCP_URL cfg) name parameters tid
          = Return (failure_result "MCP_CALL_FAILED" m)) ∧
  call_mcp_tool rt post (WEB_SEARCH_MCP_URL cfg) name parameters tid
    = Return (failure_result "TOOL_NOT_FOUND"
                ("Tool '" +:+ name +:+ "' not found.")).
Proof.
  intros Hcloud Hweb Hk Hn. split.
  - eexists. eapply call_mcp_tool_refused; [exact Hcloud|]. left.
    unfold CloudStorage.call_tool. simpl.
    unfold known_storage_tool in Hk.
    apply orb_false_iff in Hk as [Hk H3].
    apply orb_false_iff in Hk as [H1 H2].
    rewrite H1, H2, H3. by do 2 eexists.
  - eapply call_mcp_tool_served; [exact Hweb|].
    unfold WebSearch.call_tool. simpl. by rewrite (eqb_neq _ _ Hn).
Qed.

(** The upload tool against a cloud storage server that stores the
    content. *)
Lemma upload_stored post explain client bucket blob content :
  (∀ body, post (CLOUD_STORAGE_MCP_URL cfg) body
           = serve_tool rt explain (CloudStorage.call_tool rt (Some client)) body) →
  CloudStorage.upload_from_string client bucket blob content
    = CloudStorage.Stored () →
  UploadFileTool.arun rt cfg post bucket blob content
  = Return (JStr (CloudStorage.public_url bucket blob)).
Proof.
  intros Hcloud E. unfold UploadFileTool.arun.
  rewrite (call_mcp_tool_served post _ explain _ _ _ _
             (success_result
                [("bucket", JStr bucket); ("blob", JStr blob);
                 ("public_url", JStr (CloudStorage.public_url bucket blob))])
             Hcloud); [done|].
  unfold CloudStorage.call_tool. simpl. by rewrite E.
Qed.

(** X12. The upload tool against the cloud storage server: the storage
    operation is called with the bucket, the blob name and the content the
    tool was given, and the tool returns the public URL
    [https://storage.googleapis.com/<bucket>/<blob>] when it succeeds, the
    sentence about the missing bucket when it raises NotFound, and the
    sentence about the failed upload otherwise. It does not raise. *)
Theorem upload_through_the_server post explain client bucket blob content :
  (∀ body, post (CLOUD_STORAGE_MCP_URL cfg) body
           = serve_tool rt explain (CloudStorage.call_tool rt (Some client)) body) →
  UploadFileTool.arun rt cfg post bucket blob content
  = Return (JStr
      match CloudStorage.upload_from_string client bucket blob content with
      | CloudStorage.Stored _ => CloudStorage.public_url bucket blob
      | CloudStorage.NotFound =>
          "Error uploading file: Cloud Storage bucket '" +:+ bucket +:+
          "' not found. Make sure the bucket exists and the service account has permissions."
      | CloudStorage.StorageError e =>
          "Error uploading file: File upload failed: " +:+ exn_str rt e
      end).
Proof.
  intros Hcloud. unfold UploadFileTool.arun.
  destruct (CloudStorage.upload_from_string client bucket blob content)
    as [[]| |e] eqn:E.
  - rewrite (call_mcp_tool_served post _ explain _ _ _ _
               (success_result
                  [("bucket", JStr bucket); ("blob", JStr blob);
                   ("public_url", JStr (CloudStorage.public_url bucket blob))])
               Hcloud); [done|].
    unfold CloudStorage.call_tool. simpl. by rewrite E.
  - rewrite (call_mcp_tool_served post _ explain _ _ _ _
               (failure_result "BUCKET_NOT_FOUND"
                  ("Cloud Storage bucket '" +:+ bucket +:+
                   "' not found. Make sure the bucket exists and the service account has permissions."))
               Hcloud); [done|].
    unfold CloudStorage.call_tool. simpl. by rewrite E.
  - rewrite (call_mcp_tool_served post _ explain _ _ _ _
               (failure_result "UPLOAD_FAILED"
                  ("File upload failed: " +:+ exn_str rt e))
               Hcloud); [done|].
    unfold CloudStorage.call_tool. simpl. by rewrite E.
Qed.

Lemma render_results_dicts items :
  forallb WebSearch.is_dict items = true →
  ∃ lines, ResearchTool.render_results rt items = Return lines.
Proof.
  induction items as [|r items IH]; simpl; [by eexists|].
  intros [Hr Hi]%andb_true_iff. destruct r; try done. simpl.
  destruct (IH Hi) as [lines ->]. by eexists.
Qed.

(** The web search endpoint on the research tool's request. *)
Lemma web_search_replies_aux json_loads llm_invoke query :
  ∃ r, WebSearch.call_tool rt json_loads llm_invoke
         {| tool_name := "search_web"; tc_task_id := None;
            tc_parameters := ParamsDict [("query", JStr query)] |}
         = ToolResult r ∧
       ((∃ items, r = success_result [("search_results", JArr items)] ∧
                  forallb WebSearch.is_dict items = true) ∨
        (∃ m, r = failure_result
                    (if String.eqb query "" then "MISSING_PARAMETER"
                     else "LLM_SEARCH_ERROR") m)).
Proof.
  unfold WebSearch.call_tool. simpl.
  destruct (String.eqb query "") eqn:Eq; simpl.
  { eexists. split; [done|]. right. by eexists. }
  destruct llm_invoke as [content|e]; simpl;
    [|eexists; split; [done|]; right; by eexists].
  destruct (WebSearch.unfence content) as [json_string|e]; simpl;
    [|eexists; split; [done|]; right; by eexists].
  destruct (json_loads json_string) as [j|e]; simpl;
    [|eexists; split; [done|]; right; by eexists].
  unfold WebSearch.checked_results.
  destruct j; simpl; try (eexists; split; [done|]; right; by eexists).
  destruct (forallb WebSearch.is_dict xs) eqn:Ef;
    eexists; (split; [done|]); [left|right]; by eexists.
Qed.

(** X13. The research tool against the web search server never raises,
    whatever the language model of the server answers and whatever
    [json.loads] makes of it: it returns the list of results (the server
    only lets a list of dicts through, which is what the tool's formatting
    needs), the sentence that nothing was found, or the error sentence.
    An empty query is answered with the sentence that the query is
    missing. *)
Theorem research_against_the_search_server
    post explain json_loads llm_invoke query :
  (∀ body, post (WEB_SEARCH_MCP_URL cfg) body
           = serve_tool rt explain (WebSearch.call_tool rt json_loads llm_invoke)
               body) →
  (∃ rest, ResearchTool.run rt cfg post query
             = Return ("Search Results for '" +:+ query +:+ "':" +:+ rest) ∨
           ResearchTool.run rt cfg post query
             = Return ("Error calling search tool for '" +:+ query +:+ "': "
                       +:+ rest)) ∧
  (query = "" →
     ResearchTool.run rt cfg post query
       = Return "Error calling search tool for '': Search query is missing.").
Proof.
  intros Hweb. unfold ResearchTool.run.
  destruct (web_search_replies_aux json_loads llm_invoke query)
    as (r & Hr & Hcases).
  rewrite (call_mcp_tool_served post _ explain _ "search_web"
             [("query", JStr query)] None r Hweb Hr). simpl.
  split.
  - destruct Hcases as [(items & -> & Hd)|(m & ->)].
    + unfold ResearchTool.render. simpl.
      destruct items as [|i items]; simpl in *.
      * exists " No results found.". by left.
      * destruct (render_results_dicts (i :: items) Hd) as [lines Hl].
        simpl in Hl. rewrite Hl. simpl. eexists. by left.
    + unfold ResearchTool.render. simpl. eexists. by right.
  - intros ->. unfold WebSearch.call_tool in Hr. simpl in Hr.
    injection Hr as <-. done.
Qed.

End Servers.

(* ===================================================================== *)
(** * Properties of the agents' reports *)
(* ===================================================================== *)

Section Reports.

Context (rt : runtime) (cfg : config) (env : agent_env).

(** The message a report posts, in full. *)
Lemma post_task_result_sent sender tid st rd ed qd log :
  ∃ s, post_task_result rt cfg env sender tid st rd ed qd log =
         (match post_checked (sent_outcome s) with
          | Return _ => Return ()
          | Raise e => Raise e
          end, (log ++ [s])%list) ∧
       reports_on tid s ∧
       sender_agent_id (sent_message s) = sender ∧
       message_id (sent_message s) = uuid4 env (length log) ∧
       timestamp (sent_message s) = utcnow env (length log) ∧
       a2a_payload (sent_message s)
         = PResult
                 {| tr_status := st; tr_result := rd; tr_error := ed;
                       tr_question := qd |} ∧
       sent_outcome s
         = requests_post env (TASK_MANAGER_RESULT_URL cfg)
             (dump_message rt (sent_message s)).
Proof.
  unfold post_task_result. rewrite union_payload_task_result.
  match goal with |- context [(log ++ [?x])%list] => exists x end.
  split; [|by repeat split]. simpl. by destruct (post_checked _).
Qed.

Local Opaque post_task_result.

Ltac sent_step :=
  match goal with
  | |- context [post_task_result ?r ?c ?e ?sender ?tid ?st ?rd ?ed ?qd ?log] =>
      let s := fresh "s" in
      let Hon := fresh "Hon" in
      let Hsender := fresh "Hsender" in
      let Hid := fresh "Hid" in
      let Hts := fresh "Hts" in
      let Hpl := fresh "Hpl" in
      let Hout := fresh "Hout" in
      let Hpost := fresh "Hpost" in
      destruct (post_task_result_sent sender tid st rd ed qd log)
        as (s & -> & Hon & Hsender & Hid & Hts & Hpl & Hout);
      destruct (post_checked (sent_outcome s)) eqn:Hpost; simpl
  end.

Ltac unfold_sends :=
  unfold Researcher.send_a2a_error_to_task_manager,
    Researcher.send_a2a_result_to_task_manager, Researcher.send_a2a_response,
    ArticleDraft.send_a2a_result_to_task_manager,
    bind, try_except, ret, throw, lift; simpl.

Lemma validate_task_result_dump r :
  validate_task_result (dump_task_result r) = Return r.
Proof. by destruct r as [s [res|] [err|] [q|]]. Qed.

(** X14. The [saved_url] the article draft agent reports is a clean URL:
    whatever the executor returned, a classification as completed carries
    no error and a [saved_url] that starts with [http://] or [https://]
    and holds no whitespace and no [[]]; a classification as failed
    carries an error of code and message and no [saved_url]. *)
Theorem saved_url_is_a_clean_url agent_outcome status result_data error_data :
  ArticleDraft.classify agent_outcome
    = Return (status, result_data, error_data) →
  (status = "completed" ∧ error_data = None ∧
     ∃ url, dict_get "saved_url" result_data = Some (JStr url) ∧
       (PyStr.startswith url "https://" = true ∨
        PyStr.startswith url "http://" = true) ∧
       PyStr.take_nonspace url = url ∧
       PyStr.split_once "[]" url = None) ∨
  (status = "failed" ∧ dict_get "saved_url" result_data = None ∧
     ∃ code m, error_data = Some (ArticleDraft.error_dict code m)).
Proof.
  unfold ArticleDraft.classify.
  destruct (ArticleDraft.combined_text_of agent_outcome) as [text|e];
    simpl; [|discriminate].
  destruct (PyStr.search_url text) as [u|] eqn:Eu.
  - intros [= <- <- <-]. left. split; [done|]. split; [done|].
    exists (PyStr.before_first "[]" u). split; [done|].
    assert (PyStr.split_once "[]" (PyStr.before_first "[]" u) = None) as Hfree
      by by apply before_first_free.
    destruct (search_url_found _ _ Eu) as (pre & suf & -> & Hu).
    destruct (url_at_shape _ _ Hu) as (scheme & rest & Hs & Hp & -> & Hne).
    split; [|split; [|done]].
    + rewrite (before_first_scheme _ _ Hs).
      destruct Hs as [ -> | -> ]; [left|right]; reflexivity.
    + destruct (before_first_prefix "[]"
                  (scheme +:+ PyStr.take_nonspace rest)) as [r Hr].
      apply (take_nonspace_prefix _ r). rewrite <- Hr.
      apply take_nonspace_app; [|by apply take_nonspace_idem].
      by destruct Hs as [ -> | -> ].
  - destruct text; intros [= <- <- <-]; right;
      (split; [done|]); (split; [done|]); by do 2 eexists.
Qed.

(** X15. For a research task with a usable topic, the first report of the
    researcher carries the executor's summary with the [<result>] tags cut
    and without surrounding whitespace, under [summary] and with status
    completed; when the executor raises, or its output is neither text nor
    a list of blocks whose first text is a string, the report carries
    status failed and the code AGENT_ERROR with the exception's text. *)
Theorem research_report_carries_the_trimmed_summary run message payload :
  message_type message = "assign_task" →
  Researcher.assign_payload (a2a_payload message) = Return payload →
  task_type payload = "research" →
  truthy (default JNull (dict_get "topic" (parameters payload))) = true →
  ∃ s rest,
    snd (Researcher.receive_a2a_message rt cfg env run message []) = s :: rest ∧
    reports_on (task_id message) s ∧
    sender_agent_id (sent_message s) = "researcher_agent" ∧
    match
      (let? agent_outcome := run in
       Researcher.cut_result_tags
         (Researcher.raw_summary rt
            (dict_get "output" (return_values agent_outcome))))
    with
    | Return summary =>
        PyStr.strip summary = summary ∧
        a2a_payload (sent_message s)
          = PResult
                 {| tr_status := "completed";
                        tr_result := Some [("summary", JStr summary)];
                        tr_error := None; tr_question := None |}
    | Raise e =>
        a2a_payload (sent_message s)
          = PResult
                 {| tr_status := "failed"; tr_result := None;
                        tr_error :=
                          Some [("code", JStr "AGENT_ERROR");
                                ("message",
                                 JStr ("Agent execution or result sending failed: "
                                       +:+ exn_str rt e))];
                        tr_question := None |}
    end.
Proof.
  intros Hty Hp Htt Htopic. unfold Researcher.receive_a2a_message.
  rewrite Hty, Hp, Htt, Htopic. simpl. unfold_sends.
  destruct run as [agent_outcome|e]; simpl.
  2: { sent_step; by do 2 eexists. }
  destruct (Researcher.cut_result_tags _) as [summary|e] eqn:Ec; simpl.
  2: { sent_step; by do 2 eexists. }
  assert (PyStr.strip summary = summary) as Hstrip.
  { unfold Researcher.cut_result_tags in Ec.
    destruct (Researcher.raw_summary _ _); try discriminate.
    injection Ec as <-. by apply strip_idem. }
  sent_step; [|sent_step]; by do 2 eexists.
Qed.

(** X16. A message that is not an [assign_task] is answered without a
    report: neither the researcher nor the article draft agent (its
    executor set) posts anything, and neither raises. *)
Theorem only_assignments_are_reported run bucket_name message log :
  message_type message ≠ "assign_task" →
  (∃ answer, Researcher.receive_a2a_message rt cfg env run message log
               = (Return answer, log)) ∧
  (∃ answer, ArticleDraft.receive_a2a_message rt cfg env true bucket_name
               run message log = (Return answer, log)).
Proof.
  intros Hty. apply eqb_neq in Hty.
  unfold Researcher.receive_a2a_message, ArticleDraft.receive_a2a_message.
  rewrite Hty. simpl. split.
  - destruct (String.eqb _ "task_status_update"); by eexists.
  - destruct (String.eqb _ "task_status_update");
      [destruct (a2a_payload message); by eexists|].
    destruct (String.eqb _ "task_result"); [by eexists|].
    destruct (String.eqb _ "error"); by eexists.
Qed.

(** X17. An article draft agent whose executor was not built answers every
    message, of whatever type and payload, by reporting the task as failed
    with the code AGENT_NOT_INITIALIZED and raising: the HTTP 500 when the
    report was accepted, the exception of the POST otherwise. *)
Theorem agent_without_executor_fails_every_message
    bucket_name run message :
  ∃ s,
    ArticleDraft.receive_a2a_message rt cfg env false bucket_name run message []
      = (Raise match post_checked (sent_outcome s) with
               | Return _ => HTTPException 500 "Agent Executor is not initialized."
               | Raise e => e
               end, [s]) ∧
    reports_on (task_id message) s ∧
    a2a_payload (sent_message s)
      = PResult
                 {| tr_status := "failed"; tr_result := None;
                    tr_error :=
                      Some (ArticleDraft.error_dict "AGENT_NOT_INITIALIZED"
                              "Article Draft Agent Executor failed to initialize.");
                    tr_question := None |}.
Proof.
  unfold ArticleDraft.receive_a2a_message. simpl. unfold_sends.
  sent_step; exists s; by rewrite Hpost.
Qed.

(** X18. What an agent reports is what the coordinator records: the
    message a report posts, read back by the coordinator's endpoint from
    its encoding, is the message itself, with a payload that is an
    [A2APayloadTaskResult] (the union prefers it to the status update,
    which has fewer of the payload's keys among its fields); it is accepted
    as a result, and the record of the task becomes the update of the
    reported status, result, error and question. The task id is not empty
    and the datetime parser reads back the timestamp. *)
Theorem agent_report_reaches_the_table
    parse_datetime now sender tid st rd ed qd log
    (task_statuses : TaskManager.table) :
  tid ≠ "" →
  parse_datetime (JStr (isoformat rt (utcnow env (length log))))
    = Some (utcnow env (length log)) →
  ∃ s i,
    snd (post_task_result rt cfg env sender tid st rd ed qd log)
      = (log ++ [s])%list ∧
    decode_message rt parse_datetime now (dump_message rt (sent_message s))
      = Return i ∧
    value i = sent_message s ∧
    a2a_payload (value i)
      = PResult {| tr_status := st; tr_result := rd; tr_error := ed;
                   tr_question := qd |} ∧
    TaskManager.receive_a2a_result rt (value i) task_statuses
      = (Return (reply "ack" (uuid4 env (length log))
                   "Result received and processed."),
         <[tid := TaskManager.apply_result
                    {| tr_status := st; tr_result := rd; tr_error := ed;
                       tr_question := qd |}
                    (default TaskManager.unknown_record (task_statuses !! tid))]>
           task_statuses).
Proof.
  intros Hne Hparse.
  destruct (post_task_result_sent sender tid st rd ed qd log)
    as (s & -> & (Htid & Hty & _) & _ & Hid & Hts & Hpl & _).
  exists s. eexists. split; [done|].
  split; [apply message_round_trip; by rewrite Hts|].
  simpl. rewrite Hpl. simpl. rewrite union_payload_task_result.
  split; [destruct s as [[]]; simpl in *; by subst|]. split; [done|].
  unfold TaskManager.receive_a2a_result, TaskManager.receive_a2a_result_try.
  simpl. rewrite Htid, Hty, Hid. by rewrite (eqb_neq _ _ Hne).
Qed.

(** The classification of an outcome whose output is a clean URL. *)
Lemma classify_clean_url u steps :
  PyStr.strip u = u →
  PyStr.search_url u = Some u →
  PyStr.split_once "[]" u = None →
  ArticleDraft.classify
    {| return_values := [("output", JStr u)]; intermediate_steps := steps |}
  = Return ("completed",
            [("raw_output", JStr u); ("final_text_response", JStr u);
             ("saved_url", JStr u)], None).
Proof.
  intros Hstrip Hsearch Hfree.
  unfold ArticleDraft.classify, ArticleDraft.combined_text_of. simpl.
  rewrite Hstrip. destruct u as [|c u]; [discriminate|].
  unfold bind_outcome. rewrite Hsearch. unfold PyStr.before_first.
  by rewrite Hfree.
Qed.

Local Arguments ArticleDraft.classify : simpl never.

(** X19. An article that was uploaded is reported as completed with the
    URL of the upload. When the language model uploads its draft and
    answers with the tool's reply, the cloud storage server stores the
    draft, and bucket and blob name hold no whitespace and the URL no
    [[]], the first report carries status completed and, under
    [saved_url], the URL [https://storage.googleapis.com/<bucket>/<blob>]. *)
Theorem uploaded_article_is_reported_with_its_url
    explain client bucket_name message payload topic bucket blob content :
  message_type message = "assign_task" →
  a2a_payload message = PAssign payload →
  task_type payload = "write_article_draft" →
  dict_get "topic" (parameters payload) = Some (JStr topic) →
  topic ≠ "" →
  (∃ c b, bucket_name = Some (String c b)) →
  (∀ body, requests_post env (CLOUD_STORAGE_MCP_URL cfg) body
           = serve_tool rt explain (CloudStorage.call_tool rt (Some client)) body) →
  CloudStorage.upload_from_string client bucket blob content
    = CloudStorage.Stored () →
  PyStr.take_nonspace bucket = bucket →
  PyStr.take_nonspace blob = blob →
  PyStr.split_once "[]" (CloudStorage.public_url bucket blob) = None →
  ∃ s rest,
    snd (ArticleDraft.handle rt cfg env bucket_name
           (AgentAction (CallUploadFile bucket blob content)
              (λ observation, AgentFinish [("output", observation)]))
           message []) = s :: rest ∧
    reports_on (task_id message) s ∧
    a2a_payload (sent_message s)
      = PResult
                 {| tr_status := "completed";
                    tr_result :=
                      Some [("raw_output",
                             JStr (CloudStorage.public_url bucket blob));
                            ("final_text_response",
                             JStr (CloudStorage.public_url bucket blob));
                            ("saved_url",
                             JStr (CloudStorage.public_url bucket blob))];
                    tr_error := None; tr_question := None |}.
Proof.
  intros Hty Hp Htt Htopic Hne (c & b & ->) Hcloud Hup Hb Hn Hfree.
  unfold ArticleDraft.handle, ArticleDraft.receive_a2a_message. simpl.
  rewrite Hty, Hp, Htt, Htopic. simpl.
  assert (String.eqb topic "" = false) as -> by by apply String.eqb_neq.
  simpl. unfold ainvoke. simpl.
  rewrite (upload_stored rt cfg _ explain client _ _ _ Hcloud Hup).
  unfold_sends.
  assert (PyStr.take_nonspace
            ("storage.googleapis.com/" +:+ bucket +:+ "/" +:+ blob)
          = "storage.googleapis.com/" +:+ bucket +:+ "/" +:+ blob) as Hclean.
  { apply take_nonspace_app; [done|].
    apply take_nonspace_app; [done|]. by apply take_nonspace_app. }
  assert (PyStr.search_url (CloudStorage.public_url bucket blob)
          = Some (CloudStorage.public_url bucket blob)) as Hsearch.
  { apply (search_url_https
             ("storage.googleapis.com/" +:+ bucket +:+ "/" +:+ blob));
      [done|]. discriminate. }
  assert (PyStr.strip (CloudStorage.public_url bucket blob)
          = CloudStorage.public_url bucket blob) as Hstrip.
  { apply strip_nonspace.
    apply (take_nonspace_app "https://"
             ("storage.googleapis.com/" +:+ bucket +:+ "/" +:+ blob));
      done. }
  rewrite (classify_clean_url _ _ Hstrip Hsearch Hfree). simpl.
  sent_step; [|sent_step]; by do 2 eexists.
Qed.

(** X20. A reply of the cloud storage server that holds neither a public
    URL nor an error makes the upload tool raise, and the handler reports
    the task as failed with the code AGENT_RUNTIME_ERROR: the tool reads
    [error.get] on [None]. This holds for every plan of the language model
    that starts with an upload. *)
Theorem reply_without_error_is_reported_as_runtime_error
    bucket_name message payload topic bucket blob content k code d r :
  message_type message = "assign_task" →
  a2a_payload message = PAssign payload →
  task_type payload = "write_article_draft" →
  dict_get "topic" (parameters payload) = Some (JStr topic) →
  topic ≠ "" →
  (∃ c b, bucket_name = Some (String c b)) →
  (∀ body, requests_post env (CLOUD_STORAGE_MCP_URL cfg) body
           = Response code (Some (JObj d))) →
  is_error_status code = false →
  validate_tool_result d = Return r →
  success_value r "public_url" = None →
  mr_error r = None →
  ∃ s rest,
    snd (ArticleDraft.handle rt cfg env bucket_name
           (AgentAction (CallUploadFile bucket blob content) k)
           message []) = s :: rest ∧
    reports_on (task_id message) s ∧
    a2a_payload (sent_message s)
      = PResult
                 {| tr_status := "failed"; tr_result := None;
                    tr_error :=
                      Some (ArticleDraft.error_dict "AGENT_RUNTIME_ERROR"
                              ("Unexpected error during AgentExecutor runtime: "
                               +:+ exn_str rt
                                     (AttributeError
                                        "'NoneType' object has no attribute 'get'")));
                    tr_question := None |}.
Proof.
  intros Hty Hp Htt Htopic Hne (c & b & ->) Hpost Hcode Hd Hs He.
  unfold ArticleDraft.handle, ArticleDraft.receive_a2a_message. simpl.
  rewrite Hty, Hp, Htt, Htopic. simpl.
  assert (String.eqb topic "" = false) as -> by by apply String.eqb_neq.
  simpl. unfold ainvoke. simpl.
  unfold UploadFileTool.arun, call_mcp_tool, call_mcp_tool_try.
  rewrite Hpost. simpl. rewrite Hcode. simpl. rewrite Hd. simpl.
  rewrite Hs. unfold error_message. rewrite He. simpl. unfold_sends.
  sent_step; by do 2 eexists.
Qed.

(** X21. An assignment that an agent rejects never reaches the executor:
    the answer and the one failed report are the same whatever the executor
    would have done. The researcher rejects a payload that is no
    assignment, a task type other than research and a missing or falsy
    topic; the article draft agent rejects a task type other than
    write_article_draft, a missing or falsy topic and an unset bucket
    name. *)
Theorem rejected_assignment_never_runs_the_executor
    run run' bucket_name message :
  message_type message = "assign_task" →
  (match Researcher.assign_payload (a2a_payload message) with
   | Raise _ => True
   | Return payload =>
       task_type payload ≠ "research" ∨
       truthy (default JNull (dict_get "topic" (parameters payload))) = false
   end →
   Researcher.receive_a2a_message rt cfg env run message []
     = Researcher.receive_a2a_message rt cfg env run' message [] ∧
   ∃ s, snd (Researcher.receive_a2a_message rt cfg env run message []) = [s] ∧
        sent_status s = Some (JStr "failed")) ∧
  (∀ payload,
     a2a_payload message = PAssign payload →
     task_type payload ≠ "write_article_draft" ∨
     truthy (default JNull (dict_get "topic" (parameters payload))) = false ∨
     bucket_name = None ∨ bucket_name = Some "" →
     ArticleDraft.receive_a2a_message rt cfg env true bucket_name run message []
       = ArticleDraft.receive_a2a_message rt cfg env true bucket_name run'
           message [] ∧
     ∃ s, snd (ArticleDraft.receive_a2a_message rt cfg env true bucket_name
                 run message []) = [s] ∧
          sent_status s = Some (JStr "failed")).
Proof.
  intros Hty. split.
  - unfold Researcher.receive_a2a_message. rewrite Hty. simpl.
    destruct (Researcher.assign_payload (a2a_payload message)) as [payload|e].
    2: { intros _. split; [done|]. unfold_sends.
         sent_step; exists s; (split; [done|]);
           unfold sent_status; by rewrite Hpl. }
    intros [Hn|Ht].
    + rewrite (eqb_neq _ _ Hn). split; [done|]. unfold_sends.
      sent_step; exists s; (split; [done|]);
        unfold sent_status; by rewrite Hpl.
    + destruct (String.eqb (task_type payload) "research").
      * rewrite Ht. simpl. split; [done|]. unfold_sends.
        sent_step; exists s; (split; [done|]);
          unfold sent_status; by rewrite Hpl.
      * split; [done|]. unfold_sends.
        sent_step; exists s; (split; [done|]);
          unfold sent_status; by rewrite Hpl.
  - intros payload Hp Hrej.
    unfold ArticleDraft.receive_a2a_message. rewrite Hty, Hp. simpl.
    destruct (String.eqb (task_type payload) "write_article_draft") eqn:Ett.
    2: { split; [done|]. unfold_sends.
         sent_step; exists s; (split; [done|]);
           unfold sent_status; by rewrite Hpl. }
    apply String.eqb_eq in Ett.
    destruct Hrej as [Hn|[Ht|Hb]]; [done| |].
    + rewrite Ht. simpl. split; [done|]. unfold_sends.
      sent_step; exists s; (split; [done|]);
        unfold sent_status; by rewrite Hpl.
    + destruct (negb (truthy _)).
      * split; [done|]. unfold_sends.
        sent_step; exists s; (split; [done|]);
          unfold sent_status; by rewrite Hpl.
      * destruct Hb as [ -> | -> ]; (split; [done|]); unfold_sends;
          sent_step; exists s; (split; [done|]);
            unfold sent_status; by rewrite Hpl.
Qed.

(** X22. The researcher accepts what the coordinator sends: the assignment
    the research trigger builds, read back by the researcher's endpoint
    from its encoding, is the message itself, an [assign_task] for the same
    task whose payload is the [A2APayloadAssignTask] of a research task
    with the topic, the language Turkish and 500 words. The coordinator
    does not check the topic: an empty one is assigned as well, and the
    researcher reports it as failed. *)
Theorem researcher_accepts_the_assignment
    parse_datetime now' run topic tid mid now :
  parse_datetime (JStr (isoformat rt now)) = Some now →
  ∃ i,
    decode_message rt parse_datetime now'
      (dump_message rt (TaskManager.research_assignment rt topic tid mid now))
      = Return i ∧
    value i = TaskManager.research_assignment rt topic tid mid now ∧
    task_id (value i) = tid ∧
    message_type (value i) = "assign_task" ∧
    a2a_payload (value i)
      = PAssign {| task_type := "research";
                   parameters := [("topic", JStr topic);
                                  ("language", JStr "Turkish");
                                  ("max_words", JInt 500)] |} ∧
    Researcher.assign_payload (a2a_payload (value i))
      = Return {| task_type := "research";
                  parameters := [("topic", JStr topic);
                                 ("language", JStr "Turkish");
                                 ("max_words", JInt 500)] |} ∧
    (topic = "" →
     ∃ s, snd (Researcher.receive_a2a_message rt cfg env run (value i) [])
            = [s] ∧
          reports_on tid s ∧
          a2a_payload (sent_message s)
            = PResult
                {| tr_status := "failed"; tr_result := None;
                   tr_error :=
                     Some [("code", JStr "AGENT_ERROR");
                           ("message", JStr "Research topic is missing.")];
                   tr_question := None |}).
Proof.
  intros Hparse. eexists. split.
  { apply message_round_trip. exact Hparse. }
  simpl. repeat split. intros ->.
  unfold Researcher.receive_a2a_message. simpl. unfold_sends.
  sent_step; by exists s.
Qed.

Local Transparent post_task_result.

End Reports.

(* ===================================================================== *)
(** * The properties on concrete inputs *)
(* ===================================================================== *)

Module StringExamples.

Import PyStr.

Lemma strip_drops_outer_whitespace :
  strip (String "009" " IoT links devices. " +:+ String "010" "") = "IoT links devices.".
Proof. reflexivity. Qed.

Lemma search_url_takes_the_leftmost_match :
  search_url "see http:// or https://x/y.md[] and http://z" = Some "https://x/y.md[]".
Proof. reflexivity. Qed.

Lemma before_first_cuts_the_brackets :
  before_first "[]" "https://x/y.md[]" = "https://x/y.md".
Proof. reflexivity. Qed.

Lemma result_tags_are_cut :
  Researcher.cut_result_tags (JStr " <result>IoT links devices.</result> ")
  = Return "IoT links devices.".
Proof. reflexivity. Qed.

Lemma rsplit_once_takes_the_last_occurrence :
  rsplit_once "ab" "xxabyyabzz" = Some ("xxabyy", "zz") ∧
  split_once "ab" "xxabyyabzz" = Some ("xx", "yyabzz").
Proof. split; reflexivity. Qed.

End StringExamples.

Module CoordinatorExamples.

Import TaskManager Example.

(** Scenario 3, through the theorem for C7, with the payload as an agent
    posts it. *)
Lemma paused_status_is_recorded_as_unknown :
  ∃ answer r,
    receive_a2a_result rt (result_message paused_result) ∅
      = (Return answer, <["t1" := r]> ∅) ∧
    status r = "unknown" ∧
    error r = JObj [("message", JStr "Received unknown status: paused")] ∧
    result r = JNull ∧ question r = JNull.
Proof.
  refine (proj1 (proj2 (unrecognized_status_is_recorded_as_unknown rt
                          (result_message paused_result) ∅ _ _))
            {| tr_status := "paused"; tr_result := None; tr_error := None;
               tr_question := None |} _ _ _ _);
    first [discriminate | reflexivity].
Defined.

(** Scenario 1 and the other two updates, through the theorem for C6. *)
Lemma completed_result_is_recorded :
  ∃ answer r,
    receive_a2a_result rt (result_message completed) ∅
      = (Return answer, <["t1" := r]> ∅) ∧
    ("completed" = "completed" →
       status r = "completed" ∧
       result r = JObj [("saved_url", JStr "https://x/y.md")] ∧
       error r = JNull ∧ question r = JNull) ∧
    ("completed" = "failed" →
       status r = "failed" ∧ result r = JNull ∧
       error r = JObj [("message", JStr "Unknown error from agent.")] ∧
       question r = JNull) ∧
    ("completed" = "requires_clarification" →
       status r = "requires_clarification" ∧
       result r = JNull ∧ error r = JNull ∧
       question r = JObj [("text",
                           JStr "Clarification needed, no question provided.")]).
Proof.
  refine (result_update_is_keyed_on_status rt (result_message completed)
            {| tr_status := "completed";
               tr_result := Some [("saved_url", JStr "https://x/y.md")];
               tr_error := None; tr_question := None |} ∅ _ _ _);
    first [discriminate | reflexivity].
Defined.

(** C6 as stated does not hold: a [requires_clarification] result without a
    question, posted with the four keys of a result payload and so received
    as an [A2APayloadTaskResult], leaves a dict, not a string or null, in
    the record's question field. *)
Lemma clarification_default_question_is_a_dict :
  ∃ i r,
    decode_message rt read_datetime 0 (result_body clarification_result)
      = Return i ∧
    value i = result_message clarification_result ∧
    a2a_payload (value i)
      = PResult {| tr_status := "requires_clarification"; tr_result := None;
                   tr_error := None; tr_question := None |} ∧
    snd (receive_a2a_result rt (value i) ∅) !! "t1" = Some r ∧
    status r = "requires_clarification" ∧
    question r
      = JObj [("text", JStr "Clarification needed, no question provided.")] ∧
    question r ≠ JNull ∧ (∀ q, question r ≠ JStr q).
Proof.
  do 2 eexists. split; [reflexivity|]. simpl.
  split; [reflexivity|]. split; [reflexivity|]. split; [reflexivity|].
  simpl. repeat split; discriminate.
Qed.

(** C7 as stated does not hold: a [task_result] message whose payload is
    the unrecognized status alone is received with an
    [A2APayloadTaskStatusUpdate] as payload, which the endpoint rejects:
    it answers with an error and records the task as failed, not as
    unknown, and the diagnostic does not mention the status. *)
Lemma bare_paused_status_is_recorded_as_failed :
  ∃ i,
    decode_message rt read_datetime 0 (result_body paused) = Return i ∧
    value i = result_message paused ∧
    a2a_payload (value i)
      = PStatus {| su_status := "paused"; su_progress := None;
                   su_message := None |} ∧
    receive_a2a_result rt (value i) ∅
      = (Return (reply "error" "m1"
                   "Internal error processing result payload: Invalid payload type received: <class 'protocols.messages.A2APayloadTaskStatusUpdate'>"),
         <["t1" := failed_record
                     "Internal server error processing result payload: Invalid payload type received: <class 'protocols.messages.A2APayloadTaskStatusUpdate'>"]>
           ∅).
Proof.
  eexists. split; [reflexivity|]. simpl.
  split; [reflexivity|]. split; reflexivity.
Qed.

(** C2 as stated does not hold: a task is triggered, its result arrives as
    completed, and a later failed result for the same task replaces the
    terminal status. *)
Lemma later_result_replaces_terminal_status :
  let post :=
    (λ _ _, Response 200 (Some (JObj [("status", JStr "processing")]))) in
  let t0 := snd (trigger_article_task rt cfg post "IoT" None "t1" "m0" 0 ∅) in
  let t1 := snd (receive_a2a_result rt (result_message completed) t0) in
  let t2 := snd (receive_a2a_result rt (result_message failed) t1) in
  status <$> t0 !! "t1" = Some "processing" ∧
  status <$> t1 !! "t1" = Some "completed" ∧
  status <$> t2 !! "t1" = Some "failed".
Proof. repeat split. Qed.

(** The theorem for C2 on that run: the record is not processing again. *)
Lemma completed_record_stays_out_of_processing :
  ∃ r', ingest_all rt
          (<["t1" := {| status := "completed";
                        result := JObj [("saved_url", JStr "https://x/y.md")];
                        error := JNull; question := JNull |}]> ∅)
          [result_message failed; result_message paused] !! "t1" = Some r' ∧
        status r' ≠ "processing".
Proof.
  refine (ingestion_never_returns_to_processing rt
            [result_message failed; result_message paused] _ "t1" _ _ _);
    first [reflexivity | discriminate].
Defined.

(** Scenario 4, through the theorem for C5. *)
Lemma timed_out_dispatch_is_treated_as_sent :
  let slow := (λ _ _, ReadTimeout "Read timed out. (read timeout=5)") in
  let fine :=
    (λ _ _, Response 200 (Some (JObj [("status", JStr "processing")]))) in
  trigger_task rt cfg slow (Article None) "IoT" "t1" "m0" 0 ∅ =
    (Return (processing_reply (Article None) "t1"),
     <["t1" := processing_record]> ∅) ∧
  trigger_task rt cfg slow (Article None) "IoT" "t1" "m0" 0 ∅ =
    trigger_task rt cfg fine (Article None) "IoT" "t1" "m0" 0 ∅.
Proof.
  refine (dispatch_timeout_is_treated_as_sent rt cfg _ _ (Article None)
            "IoT" "t1" "m0" 0 ∅ _ _); reflexivity.
Defined.

(** The theorem for C8 on a dispatch that times out. *)
Lemma status_after_timed_out_trigger :
  let slow := (λ _ _, ConnectTimeout "Connection timed out. (connect timeout=5)") in
  fst (trigger_task rt cfg slow Research "IoT" "t1" "m0" 0 ∅)
    = Return (processing_reply Research "t1") ∧
  get_task_status "t1"
    (snd (trigger_task rt cfg slow Research "IoT" "t1" "m0" 0 ∅))
    = Return {| status := "processing"; result := JNull;
                error := JNull; question := JNull |}.
Proof.
  refine (status_after_trigger_is_processing rt cfg _ Research
            "IoT" "t1" "m0" 0 ∅ _).
  left. reflexivity.
Defined.

(** C9 as stated does not hold: no trigger has issued ["t1"], a result
    naming it is posted, and the status query returns a record, not the
    not-found condition. *)
Lemma reported_task_is_found_without_trigger :
  let t := serve_all rt cfg (λ _ _, ConnectionError "refused") ∅
             [PostResult (result_message completed)] in
  ("t1" ∉ triggered [PostResult (result_message completed)]) ∧
  get_task_status "t1" t
    = Return {| status := "completed";
                result := JObj [("saved_url", JStr "https://x/y.md")];
                error := JNull; question := JNull |}.
Proof. split; [|reflexivity]. simpl. compute_done. Qed.

(** The theorem for C9 on a run that triggers ["t1"] and reports on
    ["t2"]: the task id ["t3"] is not found. *)
Lemma unknown_task_is_not_found :
  let post := (λ _ _, Response 200 None) in
  let rs := [Trigger Research "IoT" "t1" "m0" 0;
             PostResult {| task_id := "t2"; message_id := "m2";
                           sender_agent_id := "researcher_agent";
                           receiver_agent_id := "task_manager_agent";
                           message_type := "task_result"; timestamp := 1;
                           a2a_payload := union_payload rt completed;
                           context := [] |};
             GetStatus "t3"] in
  ("t3" ∉ reported rs →
     get_task_status "t3" (serve_all rt cfg post ∅ rs)
       = Raise (HTTPException 404 "Task ID not found or not yet initialized.")) ∧
  (∀ rec, get_task_status "t3" (serve_all rt cfg post ∅ rs) = Return rec →
          status rec ≠ "processing").
Proof.
  refine (untriggered_task_is_never_processing rt cfg _ _ "t3" _).
  simpl. compute_done.
Defined.

End CoordinatorExamples.

Module AdapterExamples.

Import Example.

(** C3 as stated does not hold: a response whose status is not 2xx, here
    300, with a well-formed body is passed on as it is, with status
    ["success"]. *)
Lemma redirect_status_is_not_a_failure :
  let post := (λ _ _, Response 300 (Some (JObj uploaded))) in
  is_2xx 300 = false ∧
  call_mcp_tool rt post (CLOUD_STORAGE_MCP_URL cfg) "upload_file"
    upload_parameters None
  = Return {| mr_status := "success";
              mr_result :=
                Some [("public_url",
                       JStr "https://storage.googleapis.com/drafts/iot-1a2b3c4d.md")];
              mr_error := None |}.
Proof. split; reflexivity. Qed.

(** The theorem for C3 on a server that answers 503 with a page that is
    not JSON. *)
Lemma unavailable_server_is_a_failure :
  let post := (λ _ _, Response 503 None) in
  let o := post (CLOUD_STORAGE_MCP_URL cfg)
             (dump_tool_call
                {| tool_name := "upload_file"; tc_task_id := None;
                   tc_parameters := union_parameters rt upload_parameters |}) in
  ∃ r, call_mcp_tool rt post (CLOUD_STORAGE_MCP_URL cfg) "upload_file"
         upload_parameters None = Return r ∧
       (transport_failed o = true →
          mr_status r = "failure" ∧ mr_result r = None ∧
          ∃ code message,
            mr_error r = Some [("code", JStr code); ("message", JStr message)] ∧
            (code = "MCP_CALL_FAILED" ∨ code = "UNEXPECTED_ERROR")) ∧
       (transport_failed o = false →
          ∃ status body, o = Response status body ∧ decoded_body body = Some r).
Proof.
  exact (call_mcp_tool_returns_a_result rt (λ _ _, Response 503 None)
           (CLOUD_STORAGE_MCP_URL cfg) "upload_file" upload_parameters None).
Defined.

End AdapterExamples.

Module HandlerExamples.

Import Example.

(** C1 as stated does not hold: the research succeeds, the coordinator
    receives the completed result but answers too late, the POST raises
    inside the [try] block, and the handler posts a second result, failed,
    which the coordinator receives as well. *)
Lemma slow_coordinator_receives_two_results :
  let env := env_with (ReadTimeout "Read timed out. (read timeout=10)") in
  let log := snd (Researcher.receive_a2a_message rt cfg env findings
                    research_message []) in
  length log = 2 ∧
  map sent_status log = [Some (JStr "completed"); Some (JStr "failed")] ∧
  map (λ s, task_id (sent_message s)) log = ["t1"; "t1"] ∧
  map (λ s, delivered (sent_outcome s)) log = [true; true].
Proof. repeat split. Qed.

(** The theorem for C1 on a coordinator that answers: one result each. *)
Lemma answered_report_is_single :
  let env := env_with (Response 200 (Some (JObj [("status", JStr "ack")]))) in
  reported_once_or_retried "t1"
    (snd (Researcher.receive_a2a_message rt cfg env findings
            research_message [])) ∧
  (∀ agent_executor bucket_name payload,
     a2a_payload research_message = PAssign payload →
     topic_is_text payload →
     reported_once_or_retried "t1"
       (snd (ArticleDraft.receive_a2a_message rt cfg env agent_executor
               bucket_name findings research_message []))).
Proof.
  exact (assignment_is_reported_once_or_retried rt cfg
           (env_with (Response 200 (Some (JObj [("status", JStr "ack")]))))
           findings research_message eq_refl).
Defined.



(** On that run the text is the tool's sentence and the status is failed. *)
Lemma failed_upload_without_url_status :
  map sent_status
    (snd (ArticleDraft.handle rt cfg env (Some "drafts") upload_and_report
            article_message []))
  = [Some (JStr "failed")].
Proof. reflexivity. Qed.

(** The text the handler reads is the last tool observation when the
    final answer is empty: with the same plan and the same empty answer the
    task is completed when the storage stores the draft and failed when
    the bucket is missing. *)
Lemma empty_answer_is_classified_by_the_observation :
  let upload_and_stop :=
    AgentAction (CallUploadFile "drafts" "iot-1a2b3c4d.md" "IoT links devices.")
      (λ _, AgentFinish [("output", JStr "")]) in
  map sent_status
    (snd (ArticleDraft.handle rt cfg Deployment.env (Some "drafts")
            upload_and_stop article_message []))
    = [Some (JStr "completed")] ∧
  map sent_status
    (snd (ArticleDraft.handle rt cfg env (Some "drafts")
            upload_and_stop article_message []))
    = [Some (JStr "failed")].
Proof. split; reflexivity. Qed.

(** Two paths of the article draft agent on which nothing is posted,
    outside the messages the theorem for C1 speaks of: a payload that is
    no assignment and stays a dict (here it lacks the task type; this
    handler returns at once), and a topic that is not a string
    ([topic.replace] raises before the [try] block). The assignment the
    coordinator builds is received as an [A2APayloadAssignTask]. *)
Lemma dict_payload_is_answered_without_a_result :
  let message :=
    {| task_id := "t1"; message_id := "m0";
       sender_agent_id := "task_manager_agent";
       receiver_agent_id := "article_draft_agent";
       message_type := "assign_task"; timestamp := 0;
       a2a_payload := union_payload rt [("topic", JStr "IoT")];
       context := [] |} in
  a2a_payload message = PDict [("topic", JStr "IoT")] ∧
  ArticleDraft.handle rt cfg env (Some "drafts") upload_and_report message []
  = (Return (reply "error" "m0" "Invalid payload for assign_task message."), []) ∧
  a2a_payload (TaskManager.article_assignment rt "IoT" None "t1" "m0" 0)
  = PAssign {| task_type := "write_article_draft";
               parameters := [("topic", JStr "IoT")] |}.
Proof. repeat split. Qed.

Lemma numeric_topic_escapes_the_handler :
  ArticleDraft.handle rt cfg env (Some "drafts") upload_and_report
    (assign_message "write_article_draft" [("topic", JInt 42)]) []
  = (Raise (AttributeError "object has no attribute 'replace'"), []).
Proof. reflexivity. Qed.

End HandlerExamples.

Module RoundTripExamples.

Import Example.

(** C10 as stated does not hold: [result] was absent when the value was
    built, and after encoding and decoding it is a field set to null. *)
Lemma absent_field_comes_back_as_null :
  ∃ i, decode_tool_result (JObj (dump_tool_result (value call_failed)))
         = Return i ∧
       value i = value call_failed ∧
       ("result" ∉ model_fields_set call_failed) ∧
       ("result" ∈ model_fields_set i) ∧
       i ≠ call_failed.
Proof.
  eexists. split; [reflexivity|]. split; [reflexivity|].
  assert ("result" ∉ model_fields_set call_failed) as Hout by compute_done.
  split; [done|]. split; [compute_done|].
  intros E. apply Hout. rewrite <- E. compute_done.
Qed.

(** The theorem for C10 on a [task_result] message whose payload is an
    [A2APayloadTaskResult]. *)
Lemma posted_result_round_trip :
  (∃ i, decode_message rt read_datetime 5 (dump_message rt posted_result)
          = Return i ∧
        value i = posted_result ∧
        model_fields_set i = list_to_set message_fields) ∧
  (∀ c : MCPToolCall,
     parameters_validated rt (tc_parameters c) →
     ∃ i, decode_tool_call rt (dump_tool_call c) = Return i ∧
          value i = c ∧
          model_fields_set i = list_to_set ["tool_name"; "task_id"; "parameters"]) ∧
  (∀ r : MCPToolResult,
     ∃ i, decode_tool_result (JObj (dump_tool_result r)) = Return i ∧
          value i = r ∧
          model_fields_set i = list_to_set ["status"; "result"; "error"]) ∧
  (∀ d, payload_validated rt (union_payload rt d) ∧
        parameters_validated rt (union_parameters rt d)).
Proof.
  exact (round_trip_keeps_the_field_values rt read_datetime 5 posted_result
           eq_refl I).
Defined.

(** A dict that a member model validates is not the payload of any
    instance: decoding gives the model, here the status update, whose
    encoding has the model's three keys. *)
Lemma status_dict_is_read_as_a_status_update :
  union_payload rt [("status", JStr "processing")]
    = PStatus {| su_status := "processing"; su_progress := None;
                 su_message := None |} ∧
  ¬ payload_validated rt (PDict [("status", JStr "processing")]).
Proof. split; [reflexivity|]. simpl. discriminate. Qed.

End RoundTripExamples.

Module FurtherExamples.

Import Example Deployment TaskManager.

(** X1 on a payload that holds a result and no status. *)
Lemma result_without_status_is_recorded_as_failed :
  ∃ detail m,
    fst (receive_a2a_result rt (result_message [("result", JNull)]) ∅)
      = Return (reply "error" "m1" detail) ∧
    get_task_status "t1"
      (snd (receive_a2a_result rt (result_message [("result", JNull)]) ∅))
      = Return {| status := "failed"; result := JNull;
                  error := JObj [("message", JStr m)]; question := JNull |}.
Proof.
  refine (malformed_result_is_recorded_as_failed rt
            (result_message [("result", JNull)]) [("result", JNull)] ∅
            _ eq_refl eq_refl _).
  - simpl. discriminate.
  - intros s. simpl. discriminate.
Defined.

(** X3 on a run about ["t1"], seen from the record of ["t2"]. *)
Lemma run_about_another_task_keeps_the_record :
  let post := (λ _ _, Response 200 None) in
  let rs := [Trigger Research "IoT" "t1" "m0" 0;
             PostResult (result_message completed)] in
  serve_all rt cfg post {["t2" := processing_record]} rs !! "t2"
    = ({["t2" := processing_record]} : table) !! "t2".
Proof.
  refine (other_tasks_do_not_interfere rt cfg _ _ _ "t2" _ _).
  - simpl. compute_done.
  - simpl. compute_done.
Defined.

(** X5 on a completed result, from the empty table and from a table that
    holds the task as processing. *)
Lemma completed_result_ignores_the_record_before :
  snd (receive_a2a_result rt (result_message completed) ∅) !! "t1"
  = snd (receive_a2a_result rt (result_message completed)
           {["t1" := processing_record]}) !! "t1".
Proof.
  refine (last_result_wins rt (result_message completed)
            {| tr_status := "completed";
               tr_result := Some [("saved_url", JStr "https://x/y.md")];
               tr_error := None; tr_question := None |}
            ∅ {["t1" := processing_record]} _ eq_refl eq_refl _).
  - simpl. discriminate.
  - left. reflexivity.
Defined.

(** X6 on an agent that answers 503. *)
Lemma unavailable_agent_fails_the_task :
  let post := (λ _ _, Response 503 None) in
  ∃ detail,
    fst (trigger_task rt cfg post Research "IoT" "t1" "m0" 0 ∅)
      = Raise (HTTPException 503 detail) ∧
    get_task_status "t1"
      (snd (trigger_task rt cfg post Research "IoT" "t1" "m0" 0 ∅))
      = Return {| status := "failed"; result := JNull;
                  error := JObj [("message", JStr detail)];
                  question := JNull |}.
Proof.
  exact (failed_dispatch_is_recorded_as_failed rt cfg
           (λ _ _, Response 503 None) Research "IoT" "t1" "m0" 0 ∅
           eq_refl eq_refl).
Defined.

(** X7 on the record of a task that was triggered and reported. *)
Lemma reported_record_is_well_shaped :
  well_shaped
    {| status := "completed";
       result := JObj [("saved_url", JStr "https://x/y.md")];
       error := JNull; question := JNull |}.
Proof.
  refine (records_are_well_shaped rt cfg (λ _ _, Response 200 None)
            [Trigger Research "IoT" "t1" "m0" 0;
             PostResult (result_message completed)] "t1" _ _).
  vm_compute. reflexivity.
Defined.

(** X8 on a tool server that refuses the connection. *)
Lemma refused_connection_is_a_sentence :
  ∃ m, UploadFileTool.arun rt cfg (λ _ _, ConnectionError "Connection refused")
         "drafts" "iot.md" "IoT links devices."
       = Return (JStr ("Error uploading file: " +:+ m)).
Proof.
  exact (proj1 (tools_turn_transport_failures_into_sentences rt cfg
                  (λ _ _, ConnectionError "Connection refused"))
           "drafts" "iot.md" "IoT links devices." eq_refl).
Defined.

(** X11 on a call of [rename_file]. *)
Lemma rename_file_is_unknown_to_both_servers :
  (∃ m, call_mcp_tool rt network (CLOUD_STORAGE_MCP_URL cfg) "rename_file"
          [] None
          = Return (failure_result "MCP_CALL_FAILED" m)) ∧
  call_mcp_tool rt network (WEB_SEARCH_MCP_URL cfg) "rename_file" [] None
    = Return (failure_result "TOOL_NOT_FOUND" "Tool 'rename_file' not found.").
Proof.
  refine (unknown_tool_through_the_adapter rt cfg network explain storage
            json_loads llm_invoke "rename_file" [] None _ _ eq_refl _).
  - intros body. reflexivity.
  - intros body. reflexivity.
  - discriminate.
Defined.

(** X12 on the storage that stores. *)
Lemma stored_upload_returns_the_url :
  UploadFileTool.arun rt cfg network "drafts" "iot.md" "IoT links devices."
  = Return (JStr "https://storage.googleapis.com/drafts/iot.md").
Proof.
  refine (upload_through_the_server rt cfg network explain storage
            "drafts" "iot.md" "IoT links devices." _).
  intros body. reflexivity.
Defined.

(** X13 on the search server of the deployment. *)
Lemma research_returns_text :
  (∃ rest, ResearchTool.run rt cfg network "IoT"
             = Return ("Search Results for 'IoT':" +:+ rest) ∨
           ResearchTool.run rt cfg network "IoT"
             = Return ("Error calling search tool for 'IoT': " +:+ rest)) ∧
  ("IoT" = "" →
     ResearchTool.run rt cfg network "IoT"
       = Return "Error calling search tool for '': Search query is missing.").
Proof.
  refine (research_against_the_search_server rt cfg network explain
            json_loads llm_invoke "IoT" _).
  intros body. reflexivity.
Defined.

(** X14 on an answer that holds a URL followed by [[]]. *)
Lemma saved_url_is_cut_at_the_brackets :
  ("completed" = "completed" ∧ (None : option dict) = None ∧
     ∃ url,
       dict_get "saved_url"
         [("raw_output", JStr "Saved to https://x/y.md[] as asked.");
          ("final_text_response", JStr "Saved to https://x/y.md[] as asked.");
          ("saved_url", JStr "https://x/y.md")] = Some (JStr url) ∧
       (PyStr.startswith url "https://" = true ∨
        PyStr.startswith url "http://" = true) ∧
       PyStr.take_nonspace url = url ∧
       PyStr.split_once "[]" url = None) ∨
  ("completed" = "failed" ∧
     dict_get "saved_url"
       [("raw_output", JStr "Saved to https://x/y.md[] as asked.");
        ("final_text_response", JStr "Saved to https://x/y.md[] as asked.");
        ("saved_url", JStr "https://x/y.md")] = None ∧
     ∃ code m, (None : option dict) = Some (ArticleDraft.error_dict code m)).
Proof.
  exact (saved_url_is_a_clean_url saved "completed"
           [("raw_output", JStr "Saved to https://x/y.md[] as asked.");
            ("final_text_response", JStr "Saved to https://x/y.md[] as asked.");
            ("saved_url", JStr "https://x/y.md")] None eq_refl).
Defined.

(** X15 on the researcher whose executor returns its findings. *)
Lemma findings_are_reported_as_summary :
  let env := env_with (Response 200 (Some (JObj [("status", JStr "ack")]))) in
  ∃ s rest,
    snd (Researcher.receive_a2a_message rt cfg env findings research_message [])
      = s :: rest ∧
    reports_on "t1" s ∧
    sender_agent_id (sent_message s) = "researcher_agent" ∧
    PyStr.strip "IoT links devices." = "IoT links devices." ∧
    a2a_payload (sent_message s)
      = PResult
                 {| tr_status := "completed";
                    tr_result := Some [("summary", JStr "IoT links devices.")];
                    tr_error := None; tr_question := None |}.
Proof.
  exact (research_report_carries_the_trimmed_summary rt cfg
           (env_with (Response 200 (Some (JObj [("status", JStr "ack")]))))
           findings research_message
           {| task_type := "research"; parameters := [("topic", JStr "IoT")] |}
           eq_refl eq_refl eq_refl eq_refl).
Defined.

(** X16 on a status update. *)
Lemma status_update_is_not_reported :
  (∃ answer, Researcher.receive_a2a_message rt cfg env findings status_update []
               = (Return answer, [])) ∧
  (∃ answer, ArticleDraft.receive_a2a_message rt cfg env true (Some "drafts")
               findings status_update [] = (Return answer, [])).
Proof.
  refine (only_assignments_are_reported rt cfg env findings (Some "drafts")
            status_update [] _).
  simpl. discriminate.
Defined.

(** X18 on the report of a completed research task. *)
Lemma completed_report_is_recorded :
  let env := env_with (Response 200 (Some (JObj [("status", JStr "ack")]))) in
  ∃ s i,
    snd (post_task_result rt cfg env "researcher_agent" "t1" "completed"
           (Some [("summary", JStr "IoT links devices.")]) None None [])
      = [s] ∧
    decode_message rt read_datetime 7 (dump_message rt (sent_message s))
      = Return i ∧
    value i = sent_message s ∧
    a2a_payload (value i)
      = PResult {| tr_status := "completed";
                   tr_result := Some [("summary", JStr "IoT links devices.")];
                   tr_error := None; tr_question := None |} ∧
    receive_a2a_result rt (value i) ∅
      = (Return (reply "ack" "uuid-0" "Result received and processed."),
         <["t1" := apply_result
                     {| tr_status := "completed";
                        tr_result := Some [("summary", JStr "IoT links devices.")];
                        tr_error := None; tr_question := None |}
                     (default unknown_record ((∅ : table) !! "t1"))]> ∅).
Proof.
  refine (agent_report_reaches_the_table rt cfg
            (env_with (Response 200 (Some (JObj [("status", JStr "ack")]))))
            read_datetime 7 "researcher_agent" "t1" "completed"
            (Some [("summary", JStr "IoT links devices.")]) None None [] ∅
            _ eq_refl).
  discriminate.
Defined.

(** X19 on the deployment: the draft is stored and reported with its URL. *)
Lemma stored_draft_is_reported_completed :
  ∃ s rest,
    snd (ArticleDraft.handle rt cfg Deployment.env (Some "drafts")
           (AgentAction (CallUploadFile "drafts" "iot.md" "IoT links devices.")
              (λ observation, AgentFinish [("output", observation)]))
           article_message []) = s :: rest ∧
    reports_on "t1" s ∧
    a2a_payload (sent_message s)
      = PResult
                 {| tr_status := "completed";
                    tr_result :=
                      Some [("raw_output",
                             JStr (CloudStorage.public_url "drafts" "iot.md"));
                            ("final_text_response",
                             JStr (CloudStorage.public_url "drafts" "iot.md"));
                            ("saved_url",
                             JStr (CloudStorage.public_url "drafts" "iot.md"))];
                    tr_error := None; tr_question := None |}.
Proof.
  refine (uploaded_article_is_reported_with_its_url rt cfg Deployment.env
            explain storage (Some "drafts") article_message
            {| task_type := "write_article_draft";
               parameters := [("topic", JStr "IoT")] |} "IoT"
            "drafts" "iot.md" "IoT links devices."
            eq_refl eq_refl eq_refl eq_refl _ _ _ eq_refl eq_refl eq_refl
            eq_refl).
  - discriminate.
  - exists "d"%char, "rafts". reflexivity.
  - intros body. reflexivity.
Defined.

(** X20 on a server that answers success without a result. *)
Lemma bare_success_is_reported_as_runtime_error :
  ∃ s rest,
    snd (ArticleDraft.handle rt cfg bare_env (Some "drafts")
           upload_and_report article_message []) = s :: rest ∧
    reports_on "t1" s ∧
    a2a_payload (sent_message s)
      = PResult
                 {| tr_status := "failed"; tr_result := None;
                    tr_error :=
                      Some (ArticleDraft.error_dict "AGENT_RUNTIME_ERROR"
                              ("Unexpected error during AgentExecutor runtime: "
                               +:+ exn_str rt
                                     (AttributeError
                                        "'NoneType' object has no attribute 'get'")));
                    tr_question := None |}.
Proof.
  refine (reply_without_error_is_reported_as_runtime_error rt cfg bare_env
            (Some "drafts") article_message
            {| task_type := "write_article_draft";
               parameters := [("topic", JStr "IoT")] |} "IoT"
            "drafts" "iot-1a2b3c4d.md" "IoT links devices."
            (λ observation, AgentFinish [("output", observation)])
            200 [("status", JStr "success")]
            {| mr_status := "success"; mr_result := None; mr_error := None |}
            eq_refl eq_refl eq_refl eq_refl _ _ _ eq_refl eq_refl eq_refl
            eq_refl).
  - discriminate.
  - exists "d"%char, "rafts". reflexivity.
  - intros body. reflexivity.
Defined.

(** X21 on an assignment of a task type the researcher does not know. *)
Lemma unknown_task_type_never_runs_the_executor :
  let message := assign_message "translate" [("topic", JStr "IoT")] in
  Researcher.receive_a2a_message rt cfg env findings message []
    = Researcher.receive_a2a_message rt cfg env
        (Raise (RuntimeError "model unavailable")) message [] ∧
  ∃ s, snd (Researcher.receive_a2a_message rt cfg env findings message [])
         = [s] ∧
       sent_status s = Some (JStr "failed").
Proof.
  refine (proj1 (rejected_assignment_never_runs_the_executor rt cfg env
                   findings (Raise (RuntimeError "model unavailable")) None
                   (assign_message "translate" [("topic", JStr "IoT")])
                   eq_refl) _).
  simpl. left. discriminate.
Defined.

(** X22 on the assignment of the topic ["IoT"]. *)
Lemma research_assignment_is_read_back :
  ∃ i,
    decode_message rt read_datetime 7
      (dump_message rt (research_assignment rt "IoT" "t1" "m0" 0)) = Return i ∧
    value i = research_assignment rt "IoT" "t1" "m0" 0 ∧
    task_id (value i) = "t1" ∧
    message_type (value i) = "assign_task" ∧
    a2a_payload (value i)
      = PAssign {| task_type := "research";
                   parameters := [("topic", JStr "IoT");
                                  ("language", JStr "Turkish");
                                  ("max_words", JInt 500)] |} ∧
    Researcher.assign_payload (a2a_payload (value i))
      = Return {| task_type := "research";
                  parameters := [("topic", JStr "IoT");
                                 ("language", JStr "Turkish");
                                 ("max_words", JInt 500)] |} ∧
    ("IoT" = "" →
     ∃ s, snd (Researcher.receive_a2a_message rt cfg env findings (value i) [])
            = [s] ∧
          reports_on "t1" s ∧
          a2a_payload (sent_message s)
            = PResult
                {| tr_status := "failed"; tr_result := None;
                   tr_error :=
                     Some [("code", JStr "AGENT_ERROR");
                           ("message", JStr "Research topic is missing.")];
                   tr_question := None |}).
Proof.
  exact (researcher_accepts_the_assignment rt cfg env read_datetime 7
           findings "IoT" "t1" "m0" 0 eq_refl).
Defined.

(** The web search server reads [parameters.get], which a dict has and a
    parameter model has not: a call whose parameters validate as
    [CreativeLLMGenerateParameters] is answered 500. *)
Lemma search_with_model_parameters_is_answered_500 :
  network (WEB_SEARCH_MCP_URL cfg)
    (JObj [("tool_name", JStr "search_web");
           ("parameters", JObj [("prompt", JStr "IoT"); ("query", JStr "IoT")])])
  = Response 500 None.
Proof. reflexivity. Qed.

End FurtherExamples.
